(** * Parqueadero: the parking ledger of [Model.py]

    A shallow embedding of the classes [Vehiculo] and [Parqueadero]:
    capacity counters ([cupos]), parked vehicles ([vehiculos]), the history
    of completed stays ([historial]), fees, alerts and the JSON persistence.

    Conventions of the embedding.
    - A Python [str] is a [string], the bytes of its UTF-8 form; [str.upper]
      and [str.lower] belong to the Python library and are taken as an
      interface ([PyStr.Lib]) with the laws the proofs use; [PyStr.ascii]
      gives the instance that maps the ASCII letters, [PyStr.con_enie] one
      that knows the letter ñ as well.
    - A Python [int] is a [Z]; a Python [float] is a binary64 [float], or
      the pair of its integer mantissa and exponent where it is compared
      with integers ([Bin64]).
    - A [dict] with string keys is an insertion-ordered association list.
    - A [datetime] is a count of microseconds; [datetime.strptime] and
      [datetime.strftime] belong to the Python library and are taken as an
      interface ([DatetimeLib]); [Iso] gives the fixed-width instance.
    - [datetime.now()] is an argument of the operation that reads the clock.
    - A method that mutates [self] returns the new ledger.
    - Every call of [registrar_entrada] receives a [Vehiculo] object of its
      own, as [menu] creates one per entry. *)

From Stdlib Require Import ZArith List String Ascii Bool Lia.
From Stdlib Require Import Floats.
Import ListNotations.

Set Warnings "-register-all".

Open Scope string_scope.
Open Scope list_scope.
Open Scope Z_scope.

(** ** Python strings *)

Module PyStr.

Definition upper_ascii (c : ascii) : ascii :=
  let n := N_of_ascii c in
  if (97 <=? n)%N && (n <=? 122)%N then ascii_of_N (n - 32) else c.

Definition lower_ascii (c : ascii) : ascii :=
  let n := N_of_ascii c in
  if (65 <=? n)%N && (n <=? 90)%N then ascii_of_N (n + 32) else c.

Fixpoint map_str (f : ascii -> ascii) (s : string) : string :=
  match s with
  | EmptyString => EmptyString
  | String c s' => String (f c) (map_str f s')
  end.

(** The strings of ASCII characters: every byte is below 128. *)
Fixpoint solo_ascii (s : string) : bool :=
  match s with
  | EmptyString => true
  | String c s' => (N_of_ascii c <? 128)%N && solo_ascii s'
  end.

(** The case maps on strings of ASCII characters. *)
Definition ascii_upper (s : string) : string := map_str upper_ascii s.

Definition ascii_lower (s : string) : string := map_str lower_ascii s.

(** [s.upper()] and [s.lower()], as the library computes them for every
    cased letter, with what the ledger relies on: doing either twice is
    doing it once, and on a string of ASCII characters they change the
    letters a to z and A to Z and nothing else. *)
Class Lib : Type := {
  upper : string -> string;
  lower : string -> string;
  upper_idem : forall s, upper (upper s) = upper s;
  lower_idem : forall s, lower (lower s) = lower s;
  upper_en_ascii : forall s, solo_ascii s = true -> upper s = ascii_upper s;
  lower_en_ascii : forall s, solo_ascii s = true -> lower s = ascii_lower s
}.

Definition upper_ascii_idem (c : ascii) :
  upper_ascii (upper_ascii c) = upper_ascii c.
Proof. destruct c as [[] [] [] [] [] [] [] []]; reflexivity. Qed.

Definition lower_ascii_idem (c : ascii) :
  lower_ascii (lower_ascii c) = lower_ascii c.
Proof. destruct c as [[] [] [] [] [] [] [] []]; reflexivity. Qed.

Definition ascii_upper_idem (s : string) :
  ascii_upper (ascii_upper s) = ascii_upper s.
Proof.
  unfold ascii_upper.
  induction s as [|c s IH]; cbn [map_str]; [reflexivity|].
  now rewrite upper_ascii_idem, IH.
Qed.

Definition ascii_lower_idem (s : string) :
  ascii_lower (ascii_lower s) = ascii_lower s.
Proof.
  unfold ascii_lower.
  induction s as [|c s IH]; cbn [map_str]; [reflexivity|].
  now rewrite lower_ascii_idem, IH.
Qed.

(** An instance that knows one letter beyond ASCII as well: ñ, the bytes
    195 177, and its capital Ñ, the bytes 195 145.  A byte is mapped
    knowing the byte before it. *)
Definition es_byte (n : N) (c : ascii) : bool := (N_of_ascii c =? n)%N.

Definition upper_tras (prev c : ascii) : ascii :=
  if es_byte 195 prev && es_byte 177 c then ascii_of_N 145 else upper_ascii c.

Definition lower_tras (prev c : ascii) : ascii :=
  if es_byte 195 prev && es_byte 145 c then ascii_of_N 177 else lower_ascii c.

Fixpoint map_tras (f : ascii -> ascii -> ascii) (prev : ascii) (s : string) : string :=
  match s with
  | EmptyString => EmptyString
  | String c s' => String (f prev c) (map_tras f c s')
  end.

Definition enie_upper (s : string) : string := map_tras upper_tras Ascii.zero s.

Definition enie_lower (s : string) : string := map_tras lower_tras Ascii.zero s.

Definition upper_ascii_bajo (c : ascii) :
  upper_ascii c = c
  \/ ((N_of_ascii c < 128)%N /\ (N_of_ascii (upper_ascii c) < 128)%N).
Proof.
  destruct c as [[] [] [] [] [] [] [] []];
    first [left; reflexivity | right; split; reflexivity].
Qed.

Definition lower_ascii_bajo (c : ascii) :
  lower_ascii c = c
  \/ ((N_of_ascii c < 128)%N /\ (N_of_ascii (lower_ascii c) < 128)%N).
Proof.
  destruct c as [[] [] [] [] [] [] [] []];
    first [left; reflexivity | right; split; reflexivity].
Qed.

Definition es_byte_upper (n : N) (c : ascii) :
  (128 <= n)%N -> es_byte n (upper_ascii c) = es_byte n c.
Proof.
  intros Hn. unfold es_byte.
  destruct (upper_ascii_bajo c) as [-> | [H1 H2]]; [reflexivity|].
  destruct (N.eqb_spec (N_of_ascii (upper_ascii c)) n),
    (N.eqb_spec (N_of_ascii c) n); try reflexivity; lia.
Qed.

Definition es_byte_lower (n : N) (c : ascii) :
  (128 <= n)%N -> es_byte n (lower_ascii c) = es_byte n c.
Proof.
  intros Hn. unfold es_byte.
  destruct (lower_ascii_bajo c) as [-> | [H1 H2]]; [reflexivity|].
  destruct (N.eqb_spec (N_of_ascii (lower_ascii c)) n),
    (N.eqb_spec (N_of_ascii c) n); try reflexivity; lia.
Qed.

Definition es_byte_distinto (n m : N) (c : ascii) :
  n <> m -> es_byte n c = true -> es_byte m c = false.
Proof.
  unfold es_byte. intros Hnm H. apply N.eqb_eq in H. apply N.eqb_neq. congruence.
Qed.

Definition upper_tras_lider (prev c : ascii) :
  es_byte 195 (upper_tras prev c) = es_byte 195 c.
Proof.
  unfold upper_tras.
  destruct (es_byte 195 prev && es_byte 177 c) eqn:E.
  - apply andb_prop in E. destruct E as [_ E].
    now rewrite (es_byte_distinto 177 195 c ltac:(discriminate) E).
  - apply es_byte_upper. discriminate.
Qed.

Definition lower_tras_lider (prev c : ascii) :
  es_byte 195 (lower_tras prev c) = es_byte 195 c.
Proof.
  unfold lower_tras.
  destruct (es_byte 195 prev && es_byte 145 c) eqn:E.
  - apply andb_prop in E. destruct E as [_ E].
    now rewrite (es_byte_distinto 145 195 c ltac:(discriminate) E).
  - apply es_byte_lower. discriminate.
Qed.

Definition upper_tras_idem (prev prev' c : ascii) :
  es_byte 195 prev' = es_byte 195 prev ->
  upper_tras prev' (upper_tras prev c) = upper_tras prev c.
Proof.
  intros H. unfold upper_tras.
  destruct (es_byte 195 prev && es_byte 177 c) eqn:E.
  - change (es_byte 177 (ascii_of_N 145)) with false.
    rewrite andb_false_r. reflexivity.
  - rewrite H, es_byte_upper, E by discriminate.
    apply upper_ascii_idem.
Qed.

Definition lower_tras_idem (prev prev' c : ascii) :
  es_byte 195 prev' = es_byte 195 prev ->
  lower_tras prev' (lower_tras prev c) = lower_tras prev c.
Proof.
  intros H. unfold lower_tras.
  destruct (es_byte 195 prev && es_byte 145 c) eqn:E.
  - change (es_byte 145 (ascii_of_N 177)) with false.
    rewrite andb_false_r. reflexivity.
  - rewrite H, es_byte_lower, E by discriminate.
    apply lower_ascii_idem.
Qed.

Definition map_tras_idem (f : ascii -> ascii -> ascii) :
  (forall prev c, es_byte 195 (f prev c) = es_byte 195 c) ->
  (forall prev prev' c,
     es_byte 195 prev' = es_byte 195 prev -> f prev' (f prev c) = f prev c) ->
  forall s prev prev',
    es_byte 195 prev' = es_byte 195 prev ->
    map_tras f prev' (map_tras f prev s) = map_tras f prev s.
Proof.
  intros Hl Hi. induction s as [|c s IH]; intros prev prev' H; cbn [map_tras].
  - reflexivity.
  - rewrite (Hi prev prev' c H). now rewrite (IH c (f prev c) (Hl prev c)).
Qed.

Definition enie_upper_idem (s : string) : enie_upper (enie_upper s) = enie_upper s.
Proof. apply (map_tras_idem _ upper_tras_lider upper_tras_idem); reflexivity. Qed.

Definition enie_lower_idem (s : string) : enie_lower (enie_lower s) = enie_lower s.
Proof. apply (map_tras_idem _ lower_tras_lider lower_tras_idem); reflexivity. Qed.

Definition map_tras_en_ascii (f : ascii -> ascii -> ascii) (g : ascii -> ascii) :
  (forall prev c, (N_of_ascii c <? 128)%N = true -> f prev c = g c) ->
  forall s prev, solo_ascii s = true -> map_tras f prev s = map_str g s.
Proof.
  intros Hfg. induction s as [|c s IH]; intros prev H; cbn [map_tras map_str].
  - reflexivity.
  - cbn [solo_ascii] in H. apply andb_prop in H. destruct H as [Hc Hs].
    now rewrite (Hfg prev c Hc), (IH c Hs).
Qed.

Definition enie_upper_en_ascii (s : string) :
  solo_ascii s = true -> enie_upper s = ascii_upper s.
Proof.
  apply map_tras_en_ascii. intros prev c Hc. unfold upper_tras.
  replace (es_byte 177 c) with false; [now rewrite andb_false_r|].
  symmetry. unfold es_byte. apply N.eqb_neq. apply N.ltb_lt in Hc. lia.
Qed.

Definition enie_lower_en_ascii (s : string) :
  solo_ascii s = true -> enie_lower s = ascii_lower s.
Proof.
  apply map_tras_en_ascii. intros prev c Hc. unfold lower_tras.
  replace (es_byte 145 c) with false; [now rewrite andb_false_r|].
  symmetry. unfold es_byte. apply N.eqb_neq. apply N.ltb_lt in Hc. lia.
Qed.

Definition con_enie : Lib :=
  {| upper := enie_upper;
     lower := enie_lower;
     upper_idem := enie_upper_idem;
     lower_idem := enie_lower_idem;
     upper_en_ascii := enie_upper_en_ascii;
     lower_en_ascii := enie_lower_en_ascii |}.

(** The instance that maps the ASCII letters and leaves every other byte. *)
Definition ascii : Lib :=
  {| upper := ascii_upper;
     lower := ascii_lower;
     upper_idem := ascii_upper_idem;
     lower_idem := ascii_lower_idem;
     upper_en_ascii := fun _ _ => eq_refl;
     lower_en_ascii := fun _ _ => eq_refl |}.

(** Truth value of a string: the empty string is false. *)
Definition truthy (s : string) : bool :=
  match s with EmptyString => false | String _ _ => true end.

End PyStr.

(** ** Python dictionaries with string keys

    Insertion-ordered: assigning to a present key keeps its position,
    assigning to an absent key appends it. *)

Module Dict.

Definition t (V : Type) : Type := list (string * V).

(** [d.get(k)]: [None] when the key is absent. *)
Fixpoint find {V} (k : string) (d : t V) : option V :=
  match d with
  | [] => None
  | (k', v) :: d' => if String.eqb k' k then Some v else find k d'
  end.

(** [d.get(k, def)] *)
Definition get {V} (k : string) (d : t V) (def : V) : V :=
  match find k d with Some v => v | None => def end.

(** [d[k] = v] *)
Fixpoint set {V} (k : string) (v : V) (d : t V) : t V :=
  match d with
  | [] => [(k, v)]
  | (k', v') :: d' =>
      if String.eqb k' k then (k', v) :: d' else (k', v') :: set k v d'
  end.

(** [d.items()] *)
Definition items {V} (d : t V) : list (string * V) := d.

(** [d.copy()] *)
Definition copy {V} (d : t V) : t V := d.

Definition keys {V} (d : t V) : list string := map fst d.

End Dict.

(** ** The documents [json.dump] writes and [json.load] reads *)

Inductive json : Type :=
| JNull
| JBool (b : bool)
| JInt (n : Z)
| JFloat (f : float)
| JStr (s : string)
| JList (l : list json)
| JObj (o : list (string * json)).

(** What the file [archivo_json] holds. *)
Inductive archivo : Type :=
| NoExiste
| Ilegible
| Documento (j : json).

(** ** Exceptions *)

Inductive exn : Type :=
| ValueError
| AttributeError
| TypeError.

Inductive res (A : Type) : Type :=
| Ok (a : A)
| Raise (e : exn).
Arguments Ok {A} a.
Arguments Raise {A} e.

Definition bind {A B} (m : res A) (k : A -> res B) : res B :=
  match m with
  | Ok a => k a
  | Raise e => Raise e
  end.

Notation "x <- m ;; k" := (bind m (fun x => k))
  (at level 61, m at next level, right associativity).

(** ** Reading a document into the typed records

    The records hold strings, integers and numbers where the ledger itself
    writes them.  A document that puts another kind of value there has no
    counterpart among the records, though Python keeps the value and goes
    on: for such a document the readers answer [SinModelo] and the
    embedding says nothing about the ledger. *)

Inductive lectura (A : Type) : Type :=
| Leido (a : A)
| Lanza (e : exn)
| SinModelo.
Arguments Leido {A} a.
Arguments Lanza {A} e.
Arguments SinModelo {A}.

Definition seguir {A B} (m : lectura A) (k : A -> lectura B) : lectura B :=
  match m with
  | Leido a => k a
  | Lanza e => Lanza e
  | SinModelo => SinModelo
  end.

Notation "x <~ m ;; k" := (seguir m (fun x => k))
  (at level 61, m at next level, right associativity).

Fixpoint leer_todos {A B} (f : A -> lectura B) (l : list A) : lectura (list B) :=
  match l with
  | [] => Leido []
  | a :: l' => b <~ f a ;; bs <~ leer_todos f l' ;; Leido (b :: bs)
  end.

(** ** Numbers *)

(** [float(n)] for an [int]: the nearest binary64 value. *)
Definition float_of_Z (z : Z) : float :=
  match z with
  | Z0 => 0%float
  | Zpos p => SF2Prim (binary_round 53 1024 false p 0)
  | Zneg p => SF2Prim (binary_round 53 1024 true p 0)
  end.

(** The literal [0.9]. *)
Definition f0_9 : float := 0x1.ccccccccccccdp-1%float.

(** A number a document or a caller gives: an [int] or a [float]. *)
Inductive numero : Type :=
| Entero (n : Z)
| Flotante (f : float).

(** Binary64 values as pairs [(m, e)] that stand for [m * 2^e], for the
    places where the code turns integers into a float and back. *)
Module Bin64.

(** The exponent [e] with [2^52 <= a / (b * 2^e) < 2^53], for positive
    [a] and [b]. *)
Definition exponente (a b : Z) : Z :=
  let k := Z.log2 a - Z.log2 b in
  if a * 2 ^ Z.max 0 (- k) <? b * 2 ^ Z.max 0 k then k - 53 else k - 52.

(** [n / d] rounded to the nearest integer, ties to the even one. *)
Definition redondear (n d : Z) : Z :=
  let q := n / d in
  let r := n mod d in
  if 2 * r <? d then q
  else if d <? 2 * r then q + 1
  else if Z.even q then q else q + 1.

(** The binary64 value nearest to [a / b] (ties to even), for positive
    [a] and [b] with a quotient in the normal range: what [a / b] is in
    Python for two [int]s. *)
Definition cociente (a b : Z) : Z * Z :=
  let e := exponente a b in
  (redondear (a * 2 ^ Z.max 0 (- e)) (b * 2 ^ Z.max 0 e), e).

(** [floor(x / d)] for a binary64 [x] and a positive integer [d]: what
    [int(x // d)] is below 2^53. *)
Definition piso_entre (x : Z * Z) (d : Z) : Z :=
  let '(m, e) := x in
  if 0 <=? e then (m * 2 ^ e) / d else m / (d * 2 ^ (- e)).

(** The value as a primitive float. *)
Definition a_float (x : Z * Z) : float := Z.ldexp (float_of_Z (fst x)) (snd x).

End Bin64.

(** ** Dates and times *)

(** Microseconds since 1970-01-01 00:00:00, local time. *)
Definition datetime : Type := Z.

Definition US_POR_SEGUNDO : Z := 1000000.

(** [timedelta(hours=h)] in microseconds. *)
Definition timedelta_hours (h : Z) : Z := h * 3600 * US_POR_SEGUNDO.

(** [timedelta.total_seconds()] of a difference of [us] microseconds: the
    float nearest to [us / 10**6]. *)
Definition total_seconds (us : Z) : Z * Z :=
  match us with
  | Z0 => (0, 0)
  | Zpos _ => Bin64.cociente us US_POR_SEGUNDO
  | Zneg _ => let '(m, e) := Bin64.cociente (- us) US_POR_SEGUNDO in (- m, e)
  end.

(** The two library functions the ledger calls with the format
    ["%Y-%m-%d %H:%M:%S"].  [strptime] answers [None] where the library
    raises [ValueError]. *)
Class DatetimeLib : Type := {
  strptime : string -> option datetime;
  strftime : datetime -> string
}.

(** The fixed-width reading of the format: four digits of year, two of
    every other field, as [strftime] writes them (proleptic Gregorian
    calendar, years 1 to 9999). *)
Module Iso.

Definition bisiesto (y : Z) : bool :=
  (y mod 4 =? 0) && (negb (y mod 100 =? 0) || (y mod 400 =? 0)).

Definition dias_del_mes (y m : Z) : Z :=
  if m =? 2 then (if bisiesto y then 29 else 28)
  else if (m =? 4) || (m =? 6) || (m =? 9) || (m =? 11) then 30
  else 31.

(** Days from 1970-01-01 to the civil date [y]-[m]-[d]. *)
Definition dias_desde_civil (y m d : Z) : Z :=
  let y' := if m <=? 2 then y - 1 else y in
  let era := y' / 400 in
  let yoe := y' - era * 400 in
  let mp := (m + 9) mod 12 in
  let doy := (153 * mp + 2) / 5 + d - 1 in
  let doe := yoe * 365 + yoe / 4 - yoe / 100 + doy in
  era * 146097 + doe - 719468.

(** The civil date of a day count. *)
Definition civil_desde_dias (z : Z) : Z * Z * Z :=
  let z' := z + 719468 in
  let era := z' / 146097 in
  let doe := z' - era * 146097 in
  let yoe := (doe - doe / 1460 + doe / 36524 - doe / 146096) / 365 in
  let doy := doe - (365 * yoe + yoe / 4 - yoe / 100) in
  let mp := (5 * doy + 2) / 153 in
  let d := doy - (153 * mp + 2) / 5 + 1 in
  let m := if mp <? 10 then mp + 3 else mp - 9 in
  let y := yoe + era * 400 in
  (if m <=? 2 then y + 1 else y, m, d).

Definition digito (c : ascii) : option Z :=
  let n := N_of_ascii c in
  if (48 <=? n)%N && (n <=? 57)%N then Some (Z.of_N n - 48) else None.

Definition dos_digitos (a b : ascii) : option Z :=
  match digito a, digito b with
  | Some x, Some y => Some (10 * x + y)
  | _, _ => None
  end.

Definition en_rango (lo x hi : Z) : bool := (lo <=? x) && (x <=? hi).

Definition de_campos (y m d hh mm ss : Z) : option datetime :=
  if en_rango 1 y 9999 && en_rango 1 m 12 && en_rango 1 d (dias_del_mes y m)
     && en_rango 0 hh 23 && en_rango 0 mm 59 && en_rango 0 ss 59
  then Some ((dias_desde_civil y m d * 86400 + hh * 3600 + mm * 60 + ss)
             * US_POR_SEGUNDO)
  else None.

Definition iso_strptime (s : string) : option datetime :=
  match list_ascii_of_string s with
  | [y1; y2; y3; y4; g1; m1; m2; g2; d1; d2; sp; h1; h2; c1; n1; n2; c2; s1; s2] =>
      if Ascii.eqb g1 "-" && Ascii.eqb g2 "-" && Ascii.eqb sp " "
         && Ascii.eqb c1 ":" && Ascii.eqb c2 ":"
      then
        match dos_digitos y1 y2, dos_digitos y3 y4, dos_digitos m1 m2,
              dos_digitos d1 d2, dos_digitos h1 h2, dos_digitos n1 n2,
              dos_digitos s1 s2 with
        | Some ya, Some yb, Some m, Some d, Some hh, Some mm, Some ss =>
            de_campos (100 * ya + yb) m d hh mm ss
        | _, _, _, _, _, _, _ => None
        end
      else None
  | _ => None
  end.

Definition car_digito (d : Z) : ascii := ascii_of_N (Z.to_N (48 + d mod 10)).

Definition dos (n : Z) : string :=
  String (car_digito (n / 10)) (String (car_digito n) "").

Definition cuatro (n : Z) : string :=
  String (car_digito (n / 1000)) (String (car_digito (n / 100)) (dos n)).

Definition iso_strftime (t : datetime) : string :=
  let secs := t / US_POR_SEGUNDO in
  let dias := secs / 86400 in
  let sod := secs mod 86400 in
  let '(y, m, d) := civil_desde_dias dias in
  (cuatro y ++ "-" ++ dos m ++ "-" ++ dos d ++ " "
     ++ dos (sod / 3600) ++ ":" ++ dos (sod / 60 mod 60) ++ ":"
     ++ dos (sod mod 60))%string.

Definition lib : DatetimeLib :=
  {| strptime := iso_strptime; strftime := iso_strftime |}.

End Iso.

(** ** class Vehiculo *)

Record Vehiculo : Type := mkVehiculo {
  placa : string;
  tipo : string;
  hora_entrada : string;
  cliente : string;
  visitas : Z;
  lat : option numero;
  lon : option numero
}.

(** Attribute assignments [veh.visitas = n] and [veh.cliente = c]. *)
Definition set_visitas (n : Z) (v : Vehiculo) : Vehiculo :=
  mkVehiculo (placa v) (tipo v) (hora_entrada v) (cliente v) n (lat v) (lon v).

Definition set_cliente (c : string) (v : Vehiculo) : Vehiculo :=
  mkVehiculo (placa v) (tipo v) (hora_entrada v) c (visitas v) (lat v) (lon v).

(** One record of [historial]: the dict literal of [registrar_salida]. *)
Record Registro : Type := mkRegistro {
  reg_placa : string;
  reg_tipo : string;
  reg_cliente : string;
  reg_hora_entrada : string;
  reg_hora_salida : string;
  reg_horas : Z;
  reg_total : float;
  reg_operador : option string;
  reg_lat : option numero;
  reg_lon : option numero
}.

Definition json_of_coord (c : option numero) : json :=
  match c with
  | None => JNull
  | Some (Entero n) => JInt n
  | Some (Flotante f) => JFloat f
  end.

Definition json_of_opt_str (o : option string) : json :=
  match o with
  | None => JNull
  | Some s => JStr s
  end.

(** [Vehiculo.to_dict] *)
Definition to_dict (v : Vehiculo) : json :=
  JObj [ ("placa", JStr (placa v));
         ("tipo", JStr (tipo v));
         ("hora_entrada", JStr (hora_entrada v));
         ("cliente", JStr (cliente v));
         ("visitas", JInt (visitas v));
         ("lat", json_of_coord (lat v));
         ("lon", json_of_coord (lon v)) ].

(** The dict a [Registro] stands for, with the keys in the order of the
    literal. *)
Definition registro_dict (r : Registro) : json :=
  JObj [ ("placa", JStr (reg_placa r));
         ("tipo", JStr (reg_tipo r));
         ("cliente", JStr (reg_cliente r));
         ("hora_entrada", JStr (reg_hora_entrada r));
         ("hora_salida", JStr (reg_hora_salida r));
         ("horas", JInt (reg_horas r));
         ("total", JFloat (reg_total r));
         ("operador", json_of_opt_str (reg_operador r));
         ("lat", json_of_coord (reg_lat r));
         ("lon", json_of_coord (reg_lon r)) ].

(** Truth value of a document value, as [if x] tests it. *)
Definition json_truthy (j : json) : bool :=
  match j with
  | JNull => false
  | JBool b => b
  | JInt n => negb (n =? 0)
  | JFloat f => negb (PrimFloat.eqb f 0%float)
  | JStr s => PyStr.truthy s
  | JList l => match l with [] => false | _ :: _ => true end
  | JObj o => match o with [] => false | _ :: _ => true end
  end.

(** A value that must be a [str] because a string method is called on it. *)
Definition como_str (j : json) : lectura string :=
  match j with
  | JStr s => Leido s
  | _ => Lanza AttributeError
  end.

(** Values the records hold as they come. *)
Definition como_int (j : json) : lectura Z :=
  match j with
  | JInt n => Leido n
  | _ => SinModelo
  end.

Definition como_float (j : json) : lectura float :=
  match j with
  | JFloat f => Leido f
  | _ => SinModelo
  end.

Definition como_coord (j : json) : lectura (option numero) :=
  match j with
  | JNull => Leido None
  | JInt n => Leido (Some (Entero n))
  | JFloat f => Leido (Some (Flotante f))
  | _ => SinModelo
  end.

Definition como_opt_str (j : json) : lectura (option string) :=
  match j with
  | JNull => Leido None
  | JStr s => Leido (Some s)
  | _ => SinModelo
  end.

Definition como_str_tipado (j : json) : lectura string :=
  match j with
  | JStr s => Leido s
  | _ => SinModelo
  end.

Definition requerido (k : string) (o : Dict.t json) : lectura json :=
  match Dict.find k o with
  | Some j => Leido j
  | None => SinModelo
  end.

(** The keys of the dict literal of [registrar_salida], in its order. *)
Definition CLAVES_REGISTRO : list string :=
  ["placa"; "tipo"; "cliente"; "hora_entrada"; "hora_salida"; "horas";
   "total"; "operador"; "lat"; "lon"].

Fixpoint mismas_claves (a b : list string) : bool :=
  match a, b with
  | [], [] => true
  | x :: a', y :: b' => String.eqb x y && mismas_claves a' b'
  | _, _ => false
  end.

(** Reads back the dict of a [Registro]: a dict with the keys of the
    literal and values of the types [registrar_salida] writes. *)
Definition registro_of_json (j : json) : lectura Registro :=
  match j with
  | JObj o =>
      if mismas_claves (Dict.keys o) CLAVES_REGISTRO then
        p <~ seguir (requerido "placa" o) como_str_tipado ;;
        t <~ seguir (requerido "tipo" o) como_str_tipado ;;
        c <~ seguir (requerido "cliente" o) como_str_tipado ;;
        he <~ seguir (requerido "hora_entrada" o) como_str_tipado ;;
        hs <~ seguir (requerido "hora_salida" o) como_str_tipado ;;
        h <~ seguir (requerido "horas" o) como_int ;;
        tot <~ seguir (requerido "total" o) como_float ;;
        op <~ seguir (requerido "operador" o) como_opt_str ;;
        la <~ seguir (requerido "lat" o) como_coord ;;
        lo <~ seguir (requerido "lon" o) como_coord ;;
        Leido (mkRegistro p t c he hs h tot op la lo)
      else SinModelo
  | _ => SinModelo
  end.

Definition cupo_of_json (kv : string * json) : lectura (string * Z) :=
  n <~ como_int (snd kv) ;; Leido (fst kv, n).

Definition cupos_of_json (j : json) : lectura (Dict.t Z) :=
  match j with
  | JObj o => leer_todos cupo_of_json o
  | _ => SinModelo
  end.

Section Vehiculos.

Context {Cad : PyStr.Lib} {L : DatetimeLib}.

(** [Vehiculo.__init__]; [now] is the clock reading the default of
    [hora_entrada] takes. *)
Definition Vehiculo_init (now : datetime) (p t : string)
    (he : option string) (c : string) (n : Z) (la lo : option numero)
  : Vehiculo :=
  {| placa := PyStr.upper p;
     tipo := PyStr.lower t;
     hora_entrada :=
       match he with
       | Some s => if PyStr.truthy s then s else strftime now
       | None => strftime now
       end;
     cliente := PyStr.lower c;
     visitas := n;
     lat := la;
     lon := lo |}.

(** The argument [hora_entrada] as [__init__] sees it: a value that is
    false gives way to the clock; a string stays. *)
Definition hora_de_json (j : json) : lectura (option string) :=
  match j with
  | JStr s => Leido (Some s)
  | _ => if json_truthy j then SinModelo else Leido None
  end.

(** [Vehiculo.from_dict].  The three values a string method is called on
    are read first: nothing else in [__init__] can raise. *)
Definition from_dict (now : datetime) (d : json) : lectura Vehiculo :=
  match d with
  | JObj o =>
      let j_placa := Dict.get "placa" o (JStr "") in
      let j_tipo := Dict.get "tipo" o (JStr "") in
      let j_hora := Dict.get "hora_entrada" o JNull in
      let j_cliente := Dict.get "cliente" o (JStr "normal") in
      let j_visitas := Dict.get "visitas" o (JInt 0) in
      let j_lat := Dict.get "lat" o JNull in
      let j_lon := Dict.get "lon" o JNull in
      p <~ como_str j_placa ;;
      t <~ como_str j_tipo ;;
      c <~ como_str j_cliente ;;
      he <~ hora_de_json j_hora ;;
      n <~ como_int j_visitas ;;
      la <~ como_coord j_lat ;;
      lo <~ como_coord j_lon ;;
      Leido (Vehiculo_init now p t he c n la lo)
  | _ => Lanza AttributeError
  end.

(** [[Vehiculo.from_dict(d) for d in l]]; the [i]-th call reads the clock
    at [reloj i].  An entry the records cannot hold does not stop the
    comprehension, so an exception of a later entry is still raised. *)
Fixpoint from_dicts (reloj : nat -> datetime) (i : nat) (l : list json)
  : lectura (list Vehiculo) :=
  match l with
  | [] => Leido []
  | d :: l' =>
      match from_dict (reloj i) d with
      | Lanza e => Lanza e
      | Leido v => vs <~ from_dicts reloj (S i) l' ;; Leido (v :: vs)
      | SinModelo =>
          match from_dicts reloj (S i) l' with
          | Lanza e => Lanza e
          | _ => SinModelo
          end
      end
  end.

End Vehiculos.

(** ** class Parqueadero *)

(** [archivo_json] is what the file at that path holds. *)
Record Parqueadero : Type := mkParqueadero {
  cupos : Dict.t Z;
  vehiculos : list Vehiculo;
  historial : list Registro;
  operador_actual : option string;
  archivo_json : archivo
}.

(** The class attribute [tarifas], per hour. *)
Definition tarifas : Dict.t Z := [("carro", 2000); ("moto", 1000); ("bici", 500)].

Definition set_cupos (c : Dict.t Z) (s : Parqueadero) : Parqueadero :=
  mkParqueadero c (vehiculos s) (historial s) (operador_actual s) (archivo_json s).

Definition set_vehiculos (vs : list Vehiculo) (s : Parqueadero) : Parqueadero :=
  mkParqueadero (cupos s) vs (historial s) (operador_actual s) (archivo_json s).

Definition set_historial (h : list Registro) (s : Parqueadero) : Parqueadero :=
  mkParqueadero (cupos s) (vehiculos s) h (operador_actual s) (archivo_json s).

Definition set_archivo (f : archivo) (s : Parqueadero) : Parqueadero :=
  mkParqueadero (cupos s) (vehiculos s) (historial s) (operador_actual s) f.

(** [login] *)
Definition login (operador_name : string) (s : Parqueadero) : Parqueadero :=
  mkParqueadero (cupos s) (vehiculos s) (historial s) (Some operador_name)
    (archivo_json s).

(** *** Persistence *)

Definition json_of_cupos (c : Dict.t Z) : json :=
  JObj (map (fun kv => (fst kv, JInt (snd kv))) c).

(** The [payload] of [guardar_datos]. *)
Definition payload (s : Parqueadero) : json :=
  JObj [ ("cupos", json_of_cupos (cupos s));
         ("vehiculos", JList (map to_dict (vehiculos s)));
         ("historial", JList (map registro_dict (historial s))) ].

(** [guardar_datos]: the file now holds the payload. *)
Definition guardar_datos (s : Parqueadero) : Parqueadero :=
  set_archivo (Documento (payload s)) s.

(** *** Messages *)

Definition MSG_SIN_CUPOS : string :=
  "No hay cupos disponibles para ese tipo de vehículo.".

Definition alerta_queda_uno (t : string) : string :=
  ("Alerta: queda 1 cupo para " ++ t ++ "s.")%string.

Definition MSG_FRECUENTE : string :=
  "Cliente frecuente: descuento 10% en salida.".

Definition alerta_24h (p : string) : string :=
  ("Vehículo " ++ p ++ " lleva más de 24 horas estacionado.")%string.

Definition alerta_solo_uno (t : string) : string :=
  ("Solo queda 1 cupo para " ++ t ++ "s.")%string.

(** *** Entries *)

Section Entradas.

Context {Cad : PyStr.Lib}.

(** [sum(1 for r in historial if r["placa"].upper() == p.upper())] *)
Fixpoint visitas_previas (p : string) (h : list Registro) : Z :=
  match h with
  | [] => 0
  | r :: h' =>
      (if String.eqb (PyStr.upper (reg_placa r)) (PyStr.upper p) then 1 else 0)
      + visitas_previas p h'
  end.

(** The two assignments [registrar_entrada] makes to its argument. *)
Definition actualizar_visitas (h : list Registro) (veh : Vehiculo) : Vehiculo :=
  let veh1 := set_visitas (visitas_previas (placa veh) h + 1) veh in
  if 5 <=? visitas veh1 then set_cliente "frecuente" veh1 else veh1.

(** [registrar_entrada]: the new ledger and the returned pair. *)
Definition registrar_entrada (s : Parqueadero) (veh : Vehiculo)
  : Parqueadero * (bool * list string) :=
  let t := tipo veh in
  let available := Dict.get t (cupos s) 0 in
  if available <=? 0 then (s, (false, [MSG_SIN_CUPOS]))
  else
    let veh' := actualizar_visitas (historial s) veh in
    let s1 := set_vehiculos (vehiculos s ++ [veh']) s in
    let s2 := set_cupos (Dict.set t (available - 1) (cupos s1)) s1 in
    let s3 := guardar_datos s2 in
    let alerts1 :=
      if Dict.get t (cupos s3) 0 =? 1 then [alerta_queda_uno t] else [] in
    let alerts2 :=
      if String.eqb (cliente veh') "frecuente" then [MSG_FRECUENTE] else [] in
    (s3, (true, alerts1 ++ alerts2)).

End Entradas.

(** *** Exits *)

(** [max(1, int(segundos // 3600))] where [segundos] is the float
    [total_seconds()] of an elapsed time in microseconds. *)
Definition horas_facturadas (transcurrido : Z) : Z :=
  Z.max 1 (Bin64.piso_entre (total_seconds transcurrido) 3600).

(** [total], from [horas * tarifa] to [float(total)]. *)
Definition calcular_total (c : string) (horas tarifa : Z) : float :=
  let total := horas * tarifa in
  if String.eqb c "frecuente" then PrimFloat.mul (float_of_Z total) f0_9
  else if String.eqb c "mensual" then float_of_Z 0
  else float_of_Z total.

Section Operaciones.

Context {Cad : PyStr.Lib} {L : DatetimeLib}.

(** The body of the loop of [registrar_salida] once [v] matched:
    the record, or the [ValueError] of [strptime]. *)
Definition hacer_registro (s : Parqueadero) (v : Vehiculo) (now : datetime)
  : res Registro :=
  let hora_salida := now in
  match strptime (hora_entrada v) with
  | None => Raise ValueError
  | Some entrada =>
      let horas := horas_facturadas (hora_salida - entrada) in
      let tarifa := Dict.get (tipo v) tarifas 1000 in
      Ok {| reg_placa := placa v;
            reg_tipo := tipo v;
            reg_cliente := cliente v;
            reg_hora_entrada := hora_entrada v;
            reg_hora_salida := strftime hora_salida;
            reg_horas := horas;
            reg_total := calcular_total (cliente v) horas tarifa;
            reg_operador := operador_actual s;
            reg_lat := lat v;
            reg_lon := lon v |}
  end.

(** The four statements after the record is built; [quedan] is
    [self.vehiculos] once [remove(v)] has run. *)
Definition retirar (s : Parqueadero) (v : Vehiculo) (registro : Registro)
    (quedan : list Vehiculo) : Parqueadero :=
  let s1 := set_vehiculos quedan s in
  let s2 :=
    set_cupos
      (Dict.set (tipo v) (Dict.get (tipo v) (cupos s1) 0 + 1) (cupos s1))
      s1 in
  let s3 := set_historial (historial s2 ++ [registro]) s2 in
  guardar_datos s3.

(** The loop [for v in list(self.vehiculos)]: [antes] are the vehicles
    already passed, [resto] those still to visit.  [self.vehiculos.remove(v)]
    takes out the object the loop stands on, which leaves
    [antes ++ resto']. *)
Fixpoint salida_bucle (s : Parqueadero) (p : string) (now : datetime)
    (antes resto : list Vehiculo) : res (Parqueadero * option Registro) :=
  match resto with
  | [] => Ok (s, None)
  | v :: resto' =>
      if String.eqb (placa v) p then
        registro <- hacer_registro s v now ;;
        Ok (retirar s v registro (antes ++ resto'), Some registro)
      else salida_bucle s p now (antes ++ [v]) resto'
  end.

(** [registrar_salida]; an exception leaves the ledger as it was. *)
Definition registrar_salida (s : Parqueadero) (p : string) (now : datetime)
  : res (Parqueadero * option Registro) :=
  salida_bucle s (PyStr.upper p) now [] (vehiculos s).

(** *** Alerts *)

(** The first loop of [alertas]; the [i]-th vehicle is compared with the
    clock reading [reloj i]. *)
Fixpoint alertas_vehiculos (reloj : nat -> datetime) (i : nat)
    (vs : list Vehiculo) (alerts : list string) : res (list string) :=
  match vs with
  | [] => Ok alerts
  | v :: vs' =>
      match strptime (hora_entrada v) with
      | None => Raise ValueError
      | Some entrada =>
          alertas_vehiculos reloj (S i) vs'
            (if timedelta_hours 24 <? reloj i - entrada
             then alerts ++ [alerta_24h (placa v)]
             else alerts)
      end
  end.

(** The second loop of [alertas]. *)
Fixpoint alertas_cupos (cs : list (string * Z)) (alerts : list string)
  : list string :=
  match cs with
  | [] => alerts
  | (t, cupo) :: cs' =>
      alertas_cupos cs'
        (if cupo =? 1 then alerts ++ [alerta_solo_uno t] else alerts)
  end.

(** [alertas] *)
Definition alertas (s : Parqueadero) (reloj : nat -> datetime)
  : res (list string) :=
  alerts <- alertas_vehiculos reloj 0 (vehiculos s) [] ;;
  Ok (alertas_cupos (Dict.items (cupos s)) alerts).

(** *** Loading *)

(** The iteration [for d in data.get("vehiculos", [])]. *)
Definition cargar_vehiculos (reloj : nat -> datetime) (o : Dict.t json)
  : lectura (list Vehiculo) :=
  match Dict.find "vehiculos" o with
  | None => Leido []
  | Some (JList l) => from_dicts reloj 0 l
  | Some (JObj []) => Leido []
  | Some (JStr EmptyString) => Leido []
  | Some (JObj (_ :: _)) => Lanza AttributeError
  | Some (JStr (String _ _)) => Lanza AttributeError
  | Some _ => Lanza TypeError
  end.

(** [data.get("historial", [])], which the code assigns as it comes. *)
Definition cargar_historial (o : Dict.t json) : lectura (list Registro) :=
  match Dict.find "historial" o with
  | None => Leido []
  | Some (JList l) => leer_todos registro_of_json l
  | Some _ => SinModelo
  end.

(** [data.get("cupos", self.cupos)], which the code assigns as it comes. *)
Definition cargar_cupos (s : Parqueadero) (o : Dict.t json)
  : lectura (Dict.t Z) :=
  match Dict.find "cupos" o with
  | None => Leido (cupos s)
  | Some j => cupos_of_json j
  end.

(** [cargar_datos]: the ledger after the call, and the exception the
    [except] clause reported, if any.  The three assignments happen in
    order, so an exception keeps those already made.  [None] stands for a
    file whose values the records cannot hold. *)
Definition cargar_datos (reloj : nat -> datetime) (s : Parqueadero)
  : option (Parqueadero * option exn) :=
  match archivo_json s with
  | NoExiste => Some (s, None)
  | Ilegible => Some (s, Some ValueError)
  | Documento (JObj o) =>
      match cargar_cupos s o with
      | Lanza e => Some (s, Some e)
      | SinModelo => None
      | Leido c =>
          let s1 := set_cupos c s in
          match cargar_vehiculos reloj o with
          | Lanza e => Some (s1, Some e)
          | SinModelo => None
          | Leido vs =>
              let s2 := set_vehiculos vs s1 in
              match cargar_historial o with
              | Lanza e => Some (s2, Some e)
              | SinModelo => None
              | Leido h => Some (set_historial h s2, None)
              end
          end
      end
  | Documento _ => Some (s, Some AttributeError)
  end.

(** [Parqueadero.__init__] *)
Definition Parqueadero_init (reloj : nat -> datetime) (cfg : Dict.t Z)
    (f : archivo) : option Parqueadero :=
  option_map fst
    (cargar_datos reloj
       {| cupos := Dict.copy cfg;
          vehiculos := [];
          historial := [];
          operador_actual := None;
          archivo_json := f |}).

End Operaciones.

(** ** Reachable ledgers *)

(** The ledger [Parqueadero(cfg)] builds when no file exists yet. *)
Definition inicial (cfg : Dict.t Z) : Parqueadero :=
  {| cupos := Dict.copy cfg;
     vehiculos := [];
     historial := [];
     operador_actual := None;
     archivo_json := NoExiste |}.

(** Number of parked vehicles of type [t]. *)
Definition ocupados (t : string) (vs : list Vehiculo) : Z :=
  Z.of_nat (List.length (filter (fun v => String.eqb (tipo v) t) vs)).

(** Number of records of [h] whose plate is [p], compared in upper case. *)
Definition registros_de {Cad : PyStr.Lib} (p : string) (h : list Registro) : Z :=
  Z.of_nat
    (List.length
       (filter (fun r => String.eqb (PyStr.upper (reg_placa r)) (PyStr.upper p)) h)).

Definition placas (vs : list Vehiculo) : list string := map placa vs.

(** Free places plus parked vehicles of a type. *)
Definition saldo (t : string) (s : Parqueadero) : Z :=
  Dict.get t (cupos s) 0 + ocupados t (vehiculos s).

Section Alcanzables.

Context {Cad : PyStr.Lib} {L : DatetimeLib}.

(** One call that returns: an entry, an exit, a login or a save. *)
Inductive paso : Parqueadero -> Parqueadero -> Prop :=
| paso_entrada s veh :
    paso s (fst (registrar_entrada s veh))
| paso_salida s p now s' r :
    registrar_salida s p now = Ok (s', r) -> paso s s'
| paso_login s op :
    paso s (login op s)
| paso_guardar s :
    paso s (guardar_datos s).

Inductive alcanzable (cfg : Dict.t Z) : Parqueadero -> Prop :=
| alc_inicial : alcanzable cfg (inicial cfg)
| alc_paso s s' : alcanzable cfg s -> paso s s' -> alcanzable cfg s'.

(** The same calls, where an entry is only asked for a plate that is not
    parked at the moment. *)
Inductive paso_sin_reingreso : Parqueadero -> Parqueadero -> Prop :=
| psr_entrada s veh :
    ~ In (placa veh) (placas (vehiculos s)) ->
    paso_sin_reingreso s (fst (registrar_entrada s veh))
| psr_salida s p now s' r :
    registrar_salida s p now = Ok (s', r) -> paso_sin_reingreso s s'
| psr_login s op :
    paso_sin_reingreso s (login op s)
| psr_guardar s :
    paso_sin_reingreso s (guardar_datos s).

Inductive alcanzable_sin_reingreso (cfg : Dict.t Z) : Parqueadero -> Prop :=
| asr_inicial : alcanzable_sin_reingreso cfg (inicial cfg)
| asr_paso s s' :
    alcanzable_sin_reingreso cfg s -> paso_sin_reingreso s s' ->
    alcanzable_sin_reingreso cfg s'.

End Alcanzables.

(** Vehicles as [Vehiculo.__init__] leaves them. *)
Definition normalizado {Cad : PyStr.Lib} (v : Vehiculo) : Prop :=
  PyStr.upper (placa v) = placa v
  /\ PyStr.lower (tipo v) = tipo v
  /\ PyStr.lower (cliente v) = cliente v
  /\ hora_entrada v <> "".

(** Number of times the string [m] stands in [l]. *)
Definition veces (m : string) (l : list string) : nat :=
  List.length (filter (String.eqb m) l).

(** Position-tagged vehicles: the [i]-th is examined at [reloj i]. *)
Definition numerados (i : nat) (vs : list Vehiculo) : list (nat * Vehiculo) :=
  combine (seq i (List.length vs)) vs.

Section Vencidos.

Context {L : DatetimeLib}.

(** The [i]-th vehicle has been parked for more than 24 hours when the
    loop of [alertas] looks at it. *)
Definition vencido (reloj : nat -> datetime) (iv : nat * Vehiculo) : bool :=
  match strptime (hora_entrada (snd iv)) with
  | Some entrada => timedelta_hours 24 <? reloj (fst iv) - entrada
  | None => false
  end.

Definition fechado (v : Vehiculo) : Prop :=
  exists entrada, strptime (hora_entrada v) = Some entrada.

End Vencidos.


(** ** Concrete ledgers *)

Module Ejemplo.

Definition cfg : Dict.t Z := [("carro", 2); ("moto", 1)].

(** 2024-03-01 10:00:00 *)
Definition t0 : datetime := 1709287200000000.

Definition minutos (m : Z) : Z := m * 60 * US_POR_SEGUNDO.

(** [Vehiculo("abc123", "Carro", "2024-03-01 10:00:00")] *)
Definition abc : Vehiculo :=
  mkVehiculo "ABC123" "carro" "2024-03-01 10:00:00" "normal" 0 None None.

(** [Vehiculo("abc123", "carro", "2024-03-01 10:00:00", cliente="mensual")] *)
Definition abc_mensual : Vehiculo :=
  mkVehiculo "ABC123" "carro" "2024-03-01 10:00:00" "mensual" 0 None None.

(** [Vehiculo("xyz9", "moto", "2024-03-01 10:00:00", "frecuente",
     lat=6.267, lon=-75.567)] *)
Definition xyz : Vehiculo :=
  mkVehiculo "XYZ9" "moto" "2024-03-01 10:00:00" "frecuente" 0
    (Some (Flotante 0x1.9116872b020c5p+2%float))
    (Some (Flotante (-0x1.2e449ba5e353fp+6)%float)).

(** The ledger after [abc] came in. *)
Definition uno : Parqueadero := fst (@registrar_entrada PyStr.ascii (inicial cfg) abc).

(** The ledger after a second vehicle with the same plate came in. *)
Definition dos : Parqueadero := fst (@registrar_entrada PyStr.ascii uno abc).

(** The ledger after [abc] and [xyz] came in and operator ana logged in. *)
Definition mixto : Parqueadero :=
  login "ana" (fst (@registrar_entrada PyStr.ascii uno xyz)).

(** The exit of plate [p] at time [now]; the ledger stays on an exception. *)
Definition salir (s : Parqueadero) (p : string) (now : datetime) : Parqueadero :=
  match @registrar_salida PyStr.ascii Iso.lib s p now with
  | Ok (s', _) => s'
  | Raise _ => s
  end.

Definition registro_de_salida (s : Parqueadero) (p : string) (now : datetime)
  : option Registro :=
  match @registrar_salida PyStr.ascii Iso.lib s p now with
  | Ok (_, r) => r
  | Raise _ => None
  end.

(** The ledger after XYZ9 left [mixto], 185 minutes after it came in. *)
Definition con_historial : Parqueadero :=
  salir mixto "xyz9" (t0 + minutos 185).

(** One stay of ten minutes of [abc]. *)
Definition estancia (s : Parqueadero) : Parqueadero :=
  salir (fst (@registrar_entrada PyStr.ascii s abc)) "abc123" (t0 + minutos 10).

(** The ledger after four complete stays of plate ABC123. *)
Definition cuatro_visitas : Parqueadero :=
  estancia (estancia (estancia (estancia (inicial cfg)))).

End Ejemplo.

(** ** Queries, chart and map *)

(** [ver_ocupacion] and [ver_cupos] *)
Definition ver_ocupacion (s : Parqueadero) : list Vehiculo := vehiculos s.

Definition ver_cupos (s : Parqueadero) : Dict.t Z := cupos s.

(** The loop [for t in tipos: serie[t] = serie.get(t, 0) + 1]. *)
Fixpoint serie_bucle (tipos : list string) (serie : Dict.t Z) : Dict.t Z :=
  match tipos with
  | [] => serie
  | t :: tipos' =>
      serie_bucle tipos' (Dict.set t (Dict.get t serie 0 + 1) serie)
  end.

(** [graficar_ocupacion]: the [labels] and [values] handed to the bar and
    pie charts, or [None] when the method returns before drawing.  [plt]
    tells whether matplotlib was imported. *)
Definition graficar_ocupacion (plt : bool) (s : Parqueadero)
  : option (list string * list Z) :=
  if negb plt then None
  else
    let tipos := map tipo (vehiculos s) in
    match tipos with
    | [] => None
    | _ :: _ =>
        let serie := serie_bucle tipos [] in
        Some (Dict.keys serie, map snd serie)
    end.

(** What [generar_mapa_para_placa] prints when it gives up, or the marker
    it draws. *)
Inductive ubicacion : Type :=
| SinUbicacionConocida
| VehiculoSinUbicacion
| Marcador (la lo : numero) (label : string).

(** [next((x for x in self.vehiculos if x.placa == placa), None)] *)
Definition vehiculo_de_placa (p : string) (vs : list Vehiculo) : option Vehiculo :=
  List.find (fun x => String.eqb (placa x) p) vs.

Section Mapa.

Context {Cad : PyStr.Lib}.

(** The loop over [reversed(self.historial)] that stops at the first record
    of the plate. *)
Definition ultimo_registro (p : string) (h : list Registro) : option Registro :=
  List.find (fun rec => String.eqb (PyStr.upper (reg_placa rec)) p) (rev h).

Definition etiqueta_ultima (p : string) : string :=
  (p ++ " (Última conocida)")%string.

Definition etiqueta_actual (p : string) : string :=
  (p ++ " (Actualmente estacionado)")%string.

(** The first half of [generar_mapa_para_placa], up to [lat], [lon] and
    [label]. *)
Definition ubicar_placa (s : Parqueadero) (p0 : string) : ubicacion :=
  let p := PyStr.upper p0 in
  match vehiculo_de_placa p (vehiculos s) with
  | None =>
      match ultimo_registro p (historial s) with
      | None => SinUbicacionConocida
      | Some last =>
          match reg_lat last, reg_lon last with
          | Some la, Some lo => Marcador la lo (etiqueta_ultima p)
          | _, _ => SinUbicacionConocida
          end
      end
  | Some v =>
      match lat v, lon v with
      | Some la, Some lo => Marcador la lo (etiqueta_actual p)
      | _, _ => VehiculoSinUbicacion
      end
  end.

(** [generar_mapa_para_placa]: [folium] tells whether the module was
    imported and [guardado] whether saving and opening the page raised
    nothing. *)
Definition generar_mapa_para_placa (folium guardado : bool)
    (s : Parqueadero) (p0 : string) : bool :=
  match ubicar_placa s p0 with
  | Marcador _ _ _ => folium && guardado
  | _ => false
  end.

End Mapa.

(** ** Runs of calls *)

Section Corridas.

Context {Cad : PyStr.Lib} {L : DatetimeLib}.

(** Any number of calls, one after the other. *)
Inductive pasos : Parqueadero -> Parqueadero -> Prop :=
| pasos_nada s : pasos s s
| pasos_mas s s' s'' : pasos s s' -> paso s' s'' -> pasos s s''.

(** A record as a returning exit writes it. *)
Definition registro_cabal (r : Registro) : Prop :=
  1 <= reg_horas r
  /\ PyStr.upper (reg_placa r) = reg_placa r
  /\ exists entrada, strptime (reg_hora_entrada r) = Some entrada.

End Corridas.

(** A document value [Vehiculo.from_dict] cannot read: no dict, or a dict
    whose plate is no string. *)
Definition ilegible_como_vehiculo (d : json) : Prop :=
  match d with
  | JObj o =>
      match Dict.find "placa" o with
      | None => False
      | Some (JStr _) => False
      | Some _ => True
      end
  | _ => True
  end.

(** ** More concrete ledgers *)

Module Casos.

(** A vehicle whose entry time is no date. *)
Definition sin_fecha : Vehiculo :=
  mkVehiculo "ABC123" "carro" "ayer" "normal" 0 None None.

(** A vehicle entered with a date ten centuries back. *)
Definition milenario : Vehiculo :=
  mkVehiculo "MIL1" "carro" "1000-01-01 00:00:00" "normal" 0 None None.

(** [Vehiculo("ñu1", "Moto", "2024-03-01 10:00:00")], a plate with a letter
    beyond ASCII. *)
Definition enie : Vehiculo :=
  mkVehiculo "ÑU1" "moto" "2024-03-01 10:00:00" "normal" 0 None None.

(** A record of an earlier stay of that plate, written in lower case as a
    file may hold it. *)
Definition registro_enie : Registro :=
  mkRegistro "ñu1" "moto" "normal" "2024-02-01 10:00:00" "2024-02-01 11:00:00"
    1 1000%float None None None.

(** A document whose second vehicle has a number for a plate. *)
Definition doc_placa_numerica : json :=
  JObj [ ("cupos", JObj [("carro", JInt 7)]);
         ("vehiculos", JList [to_dict Ejemplo.abc; JObj [("placa", JInt 5)]]);
         ("historial", JList []) ].

(** A document with a vehicle that says nothing but its plate. *)
Definition doc_solo_placa : json :=
  JObj [ ("vehiculos", JList [JObj [("placa", JStr "qrs77")]]) ].

End Casos.
(** * Properties *)

(** ** Strings and dictionaries *)

(** The words the code itself writes are in lower case already, and the
    empty string has no letters. *)
Lemma lower_frecuente {Cad : PyStr.Lib} : PyStr.lower "frecuente" = "frecuente".
Proof. now rewrite PyStr.lower_en_ascii. Qed.

Lemma lower_normal {Cad : PyStr.Lib} : PyStr.lower "normal" = "normal".
Proof. now rewrite PyStr.lower_en_ascii. Qed.

Lemma lower_vacia {Cad : PyStr.Lib} : PyStr.lower "" = "".
Proof. now rewrite PyStr.lower_en_ascii. Qed.

Lemma upper_vacia {Cad : PyStr.Lib} : PyStr.upper "" = "".
Proof. now rewrite PyStr.upper_en_ascii. Qed.

Lemma truthy_no_vacia s : s <> "" -> PyStr.truthy s = true.
Proof. destruct s; [congruence | reflexivity]. Qed.

Lemma find_set_same {V} k (v : V) d : Dict.find k (Dict.set k v d) = Some v.
Proof.
  induction d as [|[k' v'] d IH]; simpl.
  - now rewrite String.eqb_refl.
  - destruct (String.eqb k' k) eqn:E; simpl; rewrite E; [reflexivity | exact IH].
Qed.

Lemma find_set_other {V} k k' (v : V) d :
  k <> k' -> Dict.find k' (Dict.set k v d) = Dict.find k' d.
Proof.
  intros Hne. induction d as [|[k0 v0] d IH]; simpl.
  - destruct (String.eqb_spec k k'); [contradiction | reflexivity].
  - destruct (String.eqb_spec k0 k) as [-> | Hk]; simpl.
    + destruct (String.eqb_spec k k'); [contradiction | reflexivity].
    + destruct (String.eqb_spec k0 k'); [reflexivity | exact IH].
Qed.

Lemma get_set_same k (v : Z) d def : Dict.get k (Dict.set k v d) def = v.
Proof. unfold Dict.get. now rewrite find_set_same. Qed.

Lemma get_set_other k k' (v : Z) d def :
  k <> k' -> Dict.get k' (Dict.set k v d) def = Dict.get k' d def.
Proof. intros H. unfold Dict.get. now rewrite find_set_other. Qed.

(** ** The fixed-width dates and the concrete vehicles *)

Example iso_lee_fecha : Iso.iso_strptime "2024-03-01 10:00:00" = Some Ejemplo.t0.
Proof. reflexivity. Qed.

Example iso_escribe_fecha :
  Iso.iso_strftime (Ejemplo.t0 + Ejemplo.minutos 185) = "2024-03-01 13:05:00".
Proof. reflexivity. Qed.

Example iso_rechaza_dia_inexistente :
  Iso.iso_strptime "2023-02-29 10:00:00" = None
  /\ Iso.iso_strptime "2024-02-29 10:00:00" <> None.
Proof. split; [reflexivity | discriminate]. Qed.

Example abc_por_constructor :
  @Vehiculo_init PyStr.ascii Iso.lib Ejemplo.t0 "abc123" "Carro" None "Normal" 0 None None
  = Ejemplo.abc.
Proof. reflexivity. Qed.

(** With a library that knows the letter, a plate with ñ is stored with Ñ,
    its earlier stays are counted whatever their case, and it leaves when
    asked for in lower case. *)
Example enie_por_constructor :
  @Vehiculo_init PyStr.con_enie Iso.lib Ejemplo.t0 "ñu1" "Moto"
    (Some "2024-03-01 10:00:00") "Normal" 0 None None
  = Casos.enie.
Proof. reflexivity. Qed.

Example enie_cuenta_visitas :
  @registros_de PyStr.con_enie "ÑU1" [Casos.registro_enie] = 1
  /\ map visitas
       (vehiculos
          (fst (@registrar_entrada PyStr.con_enie
                  (set_historial [Casos.registro_enie] (inicial Ejemplo.cfg))
                  Casos.enie)))
     = [2].
Proof. split; vm_compute; reflexivity. Qed.

Example enie_sale :
  match @registrar_salida PyStr.con_enie Iso.lib
          (fst (@registrar_entrada PyStr.con_enie (inicial Ejemplo.cfg) Casos.enie))
          "ñu1" (Ejemplo.t0 + Ejemplo.minutos 10) with
  | Ok (s', Some registro) =>
      vehiculos s' = [] /\ reg_placa registro = "ÑU1"
      /\ Dict.get "moto" (cupos s') 0 = 1
  | _ => False
  end.
Proof. vm_compute. repeat split. Qed.

(** ** The loop of [registrar_salida] *)

Lemma primera_coincidencia p vs :
  ~ In p (placas vs)
  \/ exists pre v post,
       vs = pre ++ v :: post /\ ~ In p (placas pre) /\ placa v = p.
Proof.
  induction vs as [|w vs IH]; [left; intros []|].
  destruct (String.eqb_spec (placa w) p) as [E | N].
  - right. exists [], w, vs. repeat split; [intros [] | exact E].
  - destruct IH as [H | (pre & v & post & -> & Hpre & Hv)].
    + left. simpl. intros [E | Hin]; [exact (N E) | exact (H Hin)].
    + right. exists (w :: pre), v, post. repeat split; [|exact Hv].
      simpl. intros [E | Hin]; [exact (N E) | exact (Hpre Hin)].
Qed.

Section Bucle.

Context {Cad : PyStr.Lib} {L : DatetimeLib}.

Lemma salida_bucle_ausente s p now antes resto :
  ~ In p (placas resto) -> salida_bucle s p now antes resto = Ok (s, None).
Proof.
  revert antes. induction resto as [|v resto IH]; intros antes H; [reflexivity|].
  simpl in *. destruct (String.eqb_spec (placa v) p) as [E | N].
  - exfalso. apply H. now left.
  - apply IH. intros Hin. apply H. now right.
Qed.

Lemma salida_bucle_presente s p now antes pre v post :
  ~ In p (placas pre) -> placa v = p ->
  salida_bucle s p now antes (pre ++ v :: post)
  = (registro <- hacer_registro s v now ;;
     Ok (retirar s v registro ((antes ++ pre) ++ post), Some registro)).
Proof.
  revert antes. induction pre as [|w pre IH]; intros antes Hpre Hv.
  - simpl. rewrite app_nil_r.
    destruct (String.eqb_spec (placa v) p); [reflexivity | contradiction].
  - simpl in *. destruct (String.eqb_spec (placa w) p) as [E | N].
    + exfalso. apply Hpre. now left.
    + rewrite IH; [| intros Hin; apply Hpre; now right | exact Hv].
      replace ((antes ++ [w]) ++ pre) with (antes ++ w :: pre)
        by (rewrite <- app_assoc; reflexivity).
      reflexivity.
Qed.

(** Every exit that returns either found nothing and changed nothing, or
    took out the first vehicle with the plate. *)
Lemma registrar_salida_casos s p now s' r :
  registrar_salida s p now = Ok (s', r) ->
  (s' = s /\ r = None /\ ~ In (PyStr.upper p) (placas (vehiculos s)))
  \/ exists pre v post registro,
       vehiculos s = pre ++ v :: post
       /\ ~ In (PyStr.upper p) (placas pre)
       /\ placa v = PyStr.upper p
       /\ hacer_registro s v now = Ok registro
       /\ s' = retirar s v registro (pre ++ post)
       /\ r = Some registro.
Proof.
  unfold registrar_salida. intros H.
  destruct (primera_coincidencia (PyStr.upper p) (vehiculos s))
    as [Hno | (pre & v & post & Hvs & Hpre & Hv)].
  - rewrite salida_bucle_ausente in H by exact Hno.
    inversion H; subst. left. auto.
  - rewrite Hvs, (salida_bucle_presente _ _ _ _ _ _ _ Hpre Hv) in H.
    destruct (hacer_registro s v now) as [registro|e] eqn:Hr; simpl in H;
      [|discriminate].
    inversion H; subst s' r. right.
    exists pre, v, post, registro. rewrite <- Hvs. auto 10.
Qed.

End Bucle.

(** ** Counting by type *)

Lemma ocupados_app t vs ws :
  ocupados t (vs ++ ws) = ocupados t vs + ocupados t ws.
Proof. unfold ocupados. rewrite filter_app, length_app. lia. Qed.

Lemma ocupados_uno t v :
  ocupados t [v] = if String.eqb (tipo v) t then 1 else 0.
Proof. unfold ocupados. simpl. now destruct (String.eqb (tipo v) t). Qed.

Lemma ocupados_cons t v vs :
  ocupados t (v :: vs) = (if String.eqb (tipo v) t then 1 else 0) + ocupados t vs.
Proof. change (v :: vs) with ([v] ++ vs). now rewrite ocupados_app, ocupados_uno. Qed.

Lemma actualizar_visitas_tipo {Cad : PyStr.Lib} h veh :
  tipo (actualizar_visitas h veh) = tipo veh.
Proof. unfold actualizar_visitas. now destruct (5 <=? _). Qed.

Lemma actualizar_visitas_placa {Cad : PyStr.Lib} h veh :
  placa (actualizar_visitas h veh) = placa veh.
Proof. unfold actualizar_visitas. now destruct (5 <=? _). Qed.

Lemma entrada_saldo {Cad : PyStr.Lib} t s veh :
  saldo t (fst (registrar_entrada s veh)) = saldo t s.
Proof.
  unfold registrar_entrada, saldo.
  destruct (Dict.get (tipo veh) (cupos s) 0 <=? 0); [reflexivity|].
  cbn [fst guardar_datos set_archivo set_cupos set_vehiculos cupos vehiculos].
  rewrite ocupados_app, ocupados_uno, actualizar_visitas_tipo.
  destruct (String.eqb_spec (tipo veh) t) as [<- | N].
  - rewrite get_set_same. lia.
  - rewrite get_set_other by exact N. lia.
Qed.

Lemma retirar_saldo t s pre v post registro :
  vehiculos s = pre ++ v :: post ->
  saldo t (retirar s v registro (pre ++ post)) = saldo t s.
Proof.
  intros Hvs. unfold saldo, retirar.
  cbn [guardar_datos set_archivo set_historial set_cupos set_vehiculos cupos vehiculos].
  rewrite Hvs, !ocupados_app, ocupados_cons.
  destruct (String.eqb_spec (tipo v) t) as [<- | N].
  - rewrite get_set_same. lia.
  - rewrite get_set_other by exact N. lia.
Qed.

Lemma paso_saldo {Cad : PyStr.Lib} {L : DatetimeLib} t s s' :
  paso s s' -> saldo t s' = saldo t s.
Proof.
  intros [s0 veh | s0 p now s1 r H | s0 op | s0].
  - apply entrada_saldo.
  - apply registrar_salida_casos in H.
    destruct H as [(-> & _) | (pre & v & post & registro & Hvs & _ & _ & _ & -> & _)].
    + reflexivity.
    + now apply retirar_saldo.
  - reflexivity.
  - reflexivity.
Qed.

(** C1. In every ledger reached from the initial configuration by entries
    and exits (logins and saves included), the free places of a type plus
    the parked vehicles of that type equal the configured capacity of the
    type; a type that was never configured counts as capacity 0. *)
Theorem cupos_mas_ocupados_es_capacidad {Cad : PyStr.Lib} {L : DatetimeLib}
    (cfg : Dict.t Z) (s : Parqueadero) (t : string) :
  alcanzable cfg s ->
  Dict.get t (cupos s) 0 + ocupados t (vehiculos s) = Dict.get t cfg 0.
Proof.
  induction 1 as [|s s' _ IH Hpaso].
  - unfold ocupados. simpl. unfold Dict.copy. lia.
  - change (saldo t s' = Dict.get t cfg 0).
    rewrite (paso_saldo t s s' Hpaso). exact IH.
Qed.

(** Witness of C1: after [abc] and [xyz] came in, one of the two car places
    and the only motorcycle place are taken. *)
Lemma cupos_mas_ocupados_es_capacidad_witness :
  Dict.get "carro" (cupos Ejemplo.mixto) 0
  + ocupados "carro" (vehiculos Ejemplo.mixto) = 2.
Proof.
  apply (@cupos_mas_ocupados_es_capacidad PyStr.ascii Iso.lib
           Ejemplo.cfg Ejemplo.mixto "carro").
  apply alc_paso with (s := fst (@registrar_entrada PyStr.ascii Ejemplo.uno Ejemplo.xyz));
    [| apply paso_login].
  apply alc_paso with (s := Ejemplo.uno); [| apply paso_entrada].
  apply alc_paso with (s := inicial Ejemplo.cfg); [| apply paso_entrada].
  apply alc_inicial.
Defined.

(** ** Entries *)

Lemma visitas_previas_cuenta {Cad : PyStr.Lib} p h : visitas_previas p h = registros_de p h.
Proof.
  unfold registros_de.
  induction h as [|r h IH]; [reflexivity|].
  cbn [visitas_previas filter]. rewrite IH.
  destruct (String.eqb _ _); cbn [List.length]; lia.
Qed.

Lemma entrada_aceptada {Cad : PyStr.Lib} s veh s' alerts :
  registrar_entrada s veh = (s', (true, alerts)) ->
  0 < Dict.get (tipo veh) (cupos s) 0
  /\ vehiculos s' = vehiculos s ++ [actualizar_visitas (historial s) veh]
  /\ cupos s' = Dict.set (tipo veh) (Dict.get (tipo veh) (cupos s) 0 - 1) (cupos s)
  /\ historial s' = historial s.
Proof.
  unfold registrar_entrada.
  destruct (Dict.get (tipo veh) (cupos s) 0 <=? 0) eqn:E; [discriminate|].
  intros H. inversion H; subst. cbn. repeat split. lia.
Qed.

(** C2 (amended). An entry for a type with a free place is accepted and
    stores the session at the end of [vehiculos] with [visitas] equal to 1
    plus the number of history records whose plate equals the session's
    plate in upper case; when that count reaches 5 the tier becomes
    frecuente whatever the caller had set, mensual included, and below 5 the
    tier stays as the caller set it. *)
Theorem entrada_visitas_y_frecuente {Cad : PyStr.Lib} (s : Parqueadero) (veh : Vehiculo) :
  0 < Dict.get (tipo veh) (cupos s) 0 ->
  exists s' alerts veh',
    registrar_entrada s veh = (s', (true, alerts))
    /\ vehiculos s' = vehiculos s ++ [veh']
    /\ placa veh' = placa veh
    /\ visitas veh' = 1 + registros_de (placa veh) (historial s)
    /\ (5 <= visitas veh' -> cliente veh' = "frecuente")
    /\ (visitas veh' < 5 -> cliente veh' = cliente veh).
Proof.
  intros Hcupo.
  destruct (registrar_entrada s veh) as [s' [ok alerts]] eqn:E.
  assert (Hok : ok = true).
  { unfold registrar_entrada in E.
    destruct (Z.leb_spec (Dict.get (tipo veh) (cupos s) 0) 0); [lia|].
    now inversion E. }
  subst ok. exists s', alerts, (actualizar_visitas (historial s) veh).
  split; [reflexivity|].
  apply entrada_aceptada in E. destruct E as (_ & Hv & _).
  split; [exact Hv|]. split; [apply actualizar_visitas_placa|].
  unfold actualizar_visitas. cbn [set_visitas visitas].
  rewrite visitas_previas_cuenta.
  destruct (5 <=? registros_de (placa veh) (historial s) + 1) eqn:E;
    cbn [set_cliente set_visitas visitas cliente];
    (split; [lia|]); split; intros; try reflexivity; lia.
Qed.

(** Witness of C2: the second stay of plate ABC123. *)
Lemma entrada_visitas_y_frecuente_witness :
  exists s' alerts veh',
    @registrar_entrada PyStr.ascii (Ejemplo.estancia (inicial Ejemplo.cfg)) Ejemplo.abc
    = (s', (true, alerts))
    /\ vehiculos s' = vehiculos (Ejemplo.estancia (inicial Ejemplo.cfg)) ++ [veh']
    /\ placa veh' = "ABC123"
    /\ visitas veh'
       = 1 + @registros_de PyStr.ascii "ABC123"
               (historial (Ejemplo.estancia (inicial Ejemplo.cfg)))
    /\ (5 <= visitas veh' -> cliente veh' = "frecuente")
    /\ (visitas veh' < 5 -> cliente veh' = "normal").
Proof.
  apply (entrada_visitas_y_frecuente
           (Ejemplo.estancia (inicial Ejemplo.cfg)) Ejemplo.abc).
  vm_compute. reflexivity.
Defined.

(** Counterexample to C2 as stated: after four complete stays of plate
    ABC123 the plate comes in a fifth time with the tier mensual; the entry
    is accepted with [visitas] 5 and the tier is overwritten with
    frecuente. *)
Lemma mensual_pasa_a_frecuente :
  alcanzable (Cad := PyStr.ascii) (L := Iso.lib) Ejemplo.cfg Ejemplo.cuatro_visitas
  /\ cliente Ejemplo.abc_mensual = "mensual"
  /\ @registros_de PyStr.ascii (placa Ejemplo.abc_mensual)
       (historial Ejemplo.cuatro_visitas) = 4
  /\ exists s' alerts veh',
       @registrar_entrada PyStr.ascii Ejemplo.cuatro_visitas Ejemplo.abc_mensual
       = (s', (true, alerts))
       /\ vehiculos s' = vehiculos Ejemplo.cuatro_visitas ++ [veh']
       /\ visitas veh' = 5
       /\ cliente veh' = "frecuente"
       /\ cliente veh' <> "mensual".
Proof.
  split.
  { assert (Hest : forall s, alcanzable (Cad := PyStr.ascii) (L := Iso.lib) Ejemplo.cfg s ->
                       alcanzable (Cad := PyStr.ascii) (L := Iso.lib) Ejemplo.cfg (Ejemplo.estancia s)).
    { intros s Hs. unfold Ejemplo.estancia, Ejemplo.salir.
      destruct (@registrar_salida PyStr.ascii Iso.lib (fst (@registrar_entrada PyStr.ascii s Ejemplo.abc))
                  "abc123" (Ejemplo.t0 + Ejemplo.minutos 10))
        as [[s1 r]|e] eqn:E.
      - eapply alc_paso; [| eapply paso_salida; exact E].
        eapply alc_paso; [exact Hs | apply paso_entrada].
      - eapply alc_paso; [exact Hs | apply paso_entrada]. }
    unfold Ejemplo.cuatro_visitas. do 4 apply Hest. apply alc_inicial. }
  split; [reflexivity|]. split; [vm_compute; reflexivity|].
  eexists _, _, _. split; [vm_compute; reflexivity|].
  split; [vm_compute; reflexivity|].
  split; [reflexivity|]. split; [reflexivity | discriminate].
Qed.

(** ** Exits *)

Lemma hacer_registro_fechado {L : DatetimeLib} s v now entrada :
  strptime (hora_entrada v) = Some entrada ->
  hacer_registro s v now
  = Ok {| reg_placa := placa v;
          reg_tipo := tipo v;
          reg_cliente := cliente v;
          reg_hora_entrada := hora_entrada v;
          reg_hora_salida := strftime now;
          reg_horas := horas_facturadas (now - entrada);
          reg_total :=
            calcular_total (cliente v) (horas_facturadas (now - entrada))
              (Dict.get (tipo v) tarifas 1000);
          reg_operador := operador_actual s;
          reg_lat := lat v;
          reg_lon := lon v |}.
Proof. intros H. unfold hacer_registro. now rewrite H. Qed.

(** The exit of the first vehicle with the plate, when its entry time
    reads as a date. *)
Lemma registrar_salida_primera {Cad : PyStr.Lib} {L : DatetimeLib}
    s p now pre v post entrada :
  vehiculos s = pre ++ v :: post ->
  ~ In (PyStr.upper p) (placas pre) ->
  placa v = PyStr.upper p ->
  strptime (hora_entrada v) = Some entrada ->
  exists registro,
    hacer_registro s v now = Ok registro
    /\ registrar_salida s p now
       = Ok (retirar s v registro (pre ++ post), Some registro)
    /\ reg_horas registro = horas_facturadas (now - entrada)
    /\ reg_total registro
       = calcular_total (cliente v) (reg_horas registro)
           (Dict.get (tipo v) tarifas 1000).
Proof.
  intros Hvs Hpre Hv Hent.
  eexists. split; [exact (hacer_registro_fechado s v now entrada Hent)|].
  split; [| split; reflexivity].
  unfold registrar_salida.
  rewrite Hvs, (salida_bucle_presente _ _ _ _ _ _ _ Hpre Hv).
  rewrite (hacer_registro_fechado s v now entrada Hent). reflexivity.
Qed.

(** *** The float of the elapsed seconds *)

Lemma redondear_cotas n d :
  0 <= n -> 0 < d ->
  n / d <= Bin64.redondear n d <= n / d + 1
  /\ (2 * (n mod d) < d -> Bin64.redondear n d = n / d).
Proof.
  intros Hn Hd. unfold Bin64.redondear.
  destruct (Z.ltb_spec (2 * (n mod d)) d).
  - split; [lia | reflexivity].
  - split; [|lia].
    destruct (d <? 2 * (n mod d)); [lia|]. destruct (Z.even (n / d)); lia.
Qed.

Lemma redondear_no_negativo n d : 0 <= n -> 0 < d -> 0 <= Bin64.redondear n d.
Proof.
  intros Hn Hd. destruct (redondear_cotas n d Hn Hd) as [[H _] _].
  pose proof (Z.div_pos n d Hn Hd). lia.
Qed.

(** Below 2^34 seconds the float of the seconds keeps at least 19 binary
    places after the point. *)
Lemma exponente_cota a :
  0 < a < 2 ^ 34 * 1000000 -> Bin64.exponente a 1000000 <= -19.
Proof.
  intros [Hpos Hlt]. unfold Bin64.exponente.
  change (Z.log2 1000000) with 19.
  assert (Hlog : Z.log2 a <= 53).
  { assert (Z.log2 a < 54); [|lia].
    apply Z.log2_lt_pow2; [lia|]. change (2 ^ 54) with 18014398509481984.
    change (2 ^ 34) with 17179869184 in Hlt. lia. }
  cbv zeta.
  destruct (Z.ltb_spec (a * 2 ^ Z.max 0 (- (Z.log2 a - 19)))
              (1000000 * 2 ^ Z.max 0 (Z.log2 a - 19))) as [Ht | Ht]; [lia|].
  assert (Z.log2 a - 19 <> 34); [|lia].
  intros E. rewrite E in Ht.
  replace (Z.max 0 (- (34))) with 0 in Ht by reflexivity.
  replace (Z.max 0 34) with 34 in Ht by reflexivity.
  change (2 ^ 0) with 1 in Ht. lia.
Qed.

(** There the rounding of the seconds never reaches the next full hour:
    the whole hours of the float are the whole hours of the microseconds. *)
Lemma piso_del_cociente a :
  0 < a < 2 ^ 34 * 1000000 ->
  Bin64.piso_entre (Bin64.cociente a 1000000) 3600 = a / (3600 * 1000000).
Proof.
  intros Ha. pose proof (exponente_cota a Ha) as He.
  unfold Bin64.cociente, Bin64.piso_entre.
  set (e := Bin64.exponente a 1000000) in *.
  destruct (Z.leb_spec 0 e); [lia|].
  rewrite (Z.max_r 0 (- e)) by lia. rewrite (Z.max_l 0 e) by lia.
  change (2 ^ 0) with 1. rewrite Z.mul_1_r.
  set (P := 2 ^ (- e)).
  assert (HP : 524288 <= P).
  { change 524288 with (2 ^ 19). apply Z.pow_le_mono_r; lia. }
  set (K := a / (3600 * 1000000)).
  pose proof (Z.div_mod a (3600 * 1000000) ltac:(lia)) as Hdm.
  pose proof (Z.mod_pos_bound a (3600 * 1000000) ltac:(lia)) as Hmb.
  fold K in Hdm.
  set (n := a * P).
  assert (Hn : 0 <= n) by (unfold n; nia).
  destruct (redondear_cotas n 1000000 Hn ltac:(lia)) as [[Hlo Hhi] Hsame].
  pose proof (Z.div_mod n 1000000 ltac:(lia)) as Hndm.
  pose proof (Z.mod_pos_bound n 1000000 ltac:(lia)) as Hnmb.
  set (q := n / 1000000) in *. set (r := n mod 1000000) in *.
  set (m := Bin64.redondear n 1000000) in *.
  assert (HKP : 3600 * 1000000 * (K * P) <= n) by (unfold n; nia).
  assert (HKP' : n <= 3600 * 1000000 * (K * P) + 3600 * 1000000 * P - P)
    by (unfold n; nia).
  symmetry. apply Z.div_unique with (r := m - 3600 * P * K); [|lia].
  left. split.
  - nia.
  - assert (Hq : q <= 3600 * (K * P) + 3600 * P - 1) by nia.
    destruct (Z.eq_dec q (3600 * (K * P) + 3600 * P - 1)) as [Eq | Nq].
    + assert (Hr : 2 * r < 1000000) by nia.
      rewrite (Hsame Hr) in *. nia.
    + nia.
Qed.

(** An exit before the entry time bills the one hour of the minimum. *)
Lemma horas_facturadas_negativo p : horas_facturadas (Z.neg p) = 1.
Proof.
  unfold horas_facturadas, total_seconds, Bin64.cociente. cbv zeta.
  set (e := Bin64.exponente (- Z.neg p) US_POR_SEGUNDO).
  set (m := Bin64.redondear _ _).
  assert (Hm : 0 <= m).
  { apply redondear_no_negativo.
    - apply Z.mul_nonneg_nonneg; [lia | apply Z.pow_nonneg; lia].
    - apply Z.mul_pos_pos; [reflexivity | apply Z.pow_pos_nonneg; lia]. }
  apply Z.max_l. unfold Bin64.piso_entre.
  destruct (0 <=? e).
  - assert (- m * 2 ^ e / 3600 <= 0); [|lia].
    apply Z.div_le_upper_bound; [lia|].
    pose proof (Z.pow_nonneg 2 e ltac:(lia)). nia.
  - assert (- m / (3600 * 2 ^ (- e)) <= 0); [|lia].
    pose proof (Z.pow_nonneg 2 (- e) ltac:(lia)).
    destruct (Z.eq_dec (2 ^ (- e)) 0) as [E | N].
    + rewrite E, Z.mul_0_r, Z.div_0_r. lia.
    + apply Z.div_le_upper_bound; nia.
Qed.

(** Below 2^34 seconds (some 544 years) the billed hours are those of the
    exact elapsed time. *)
Lemma horas_exactas us :
  us < 2 ^ 34 * US_POR_SEGUNDO ->
  horas_facturadas us = Z.max 1 (us / US_POR_SEGUNDO / 3600).
Proof.
  intros Hlt. rewrite Z.div_div by (unfold US_POR_SEGUNDO; lia).
  unfold US_POR_SEGUNDO in *. rewrite (Z.mul_comm 1000000 3600).
  destruct us as [|p|p].
  - reflexivity.
  - unfold horas_facturadas, total_seconds, US_POR_SEGUNDO.
    now rewrite piso_del_cociente by lia.
  - rewrite horas_facturadas_negativo.
    assert (Hneg : Z.neg p / (3600 * 1000000) < 0)
      by (apply Z.div_lt_upper_bound; lia).
    lia.
Qed.

Lemma horas_facturadas_minimo us : 1 <= horas_facturadas us.
Proof. unfold horas_facturadas. lia. Qed.

(** The float the model floors is the quotient the library computes. *)
Example total_seconds_es_el_cociente :
  forallb
    (fun us =>
       PrimFloat.Leibniz.eqb (Bin64.a_float (total_seconds us))
         (PrimFloat.div (float_of_Z us) (float_of_Z US_POR_SEGUNDO)))
    [1; 600000000; 7500000000; 86400000001; 1709287200000000;
     4611686018427387; 9007199254740991; -1; -7500000000]
  = true.
Proof. vm_compute. reflexivity. Qed.

(** A stay of ten centuries that ends one microsecond before the hour: the
    float of the seconds is the full hour, and the hour is billed. *)
Example horas_de_diez_siglos :
  horas_facturadas 32319511199999999 = 8977642
  /\ 32319511199999999 / US_POR_SEGUNDO / 3600 = 8977641.
Proof. split; vm_compute; reflexivity. Qed.

(** The same stay through [registrar_salida]: in on 1000-01-01 00:00:00,
    out one microsecond before 2024-03-01 10:00:00. *)
Example salida_tras_diez_siglos :
  Ejemplo.t0 - 1 - 32319511199999999 = -30610224000 * US_POR_SEGUNDO
  /\ Iso.iso_strptime "1000-01-01 00:00:00" = Some (-30610224000 * US_POR_SEGUNDO)
  /\ option_map reg_horas
       (Ejemplo.registro_de_salida
          (fst (@registrar_entrada PyStr.ascii (inicial Ejemplo.cfg) Casos.milenario))
          "mil1" (Ejemplo.t0 - 1))
     = Some 8977642.
Proof. repeat split; vm_compute; reflexivity. Qed.

(** C3. The exit of a session bills [max(1, floor(seconds / 3600))] hours,
    where [seconds] is the float [total_seconds()] of the time from the
    entry time of the session to the clock reading of the exit; for a stay
    below 2^34 seconds that is the floor of the exact elapsed seconds over
    3600.  Ten minutes bill 1 hour and 125 minutes bill 2 hours. *)
Theorem salida_horas_facturadas {Cad : PyStr.Lib} {L : DatetimeLib}
    (s : Parqueadero) (p : string) (now : datetime)
    (pre : list Vehiculo) (v : Vehiculo) (post : list Vehiculo)
    (entrada : datetime) :
  vehiculos s = pre ++ v :: post ->
  ~ In (PyStr.upper p) (placas pre) ->
  placa v = PyStr.upper p ->
  strptime (hora_entrada v) = Some entrada ->
  exists s' registro,
    registrar_salida s p now = Ok (s', Some registro)
    /\ reg_horas registro
       = Z.max 1 (Bin64.piso_entre (total_seconds (now - entrada)) 3600)
    /\ (now - entrada < 2 ^ 34 * US_POR_SEGUNDO ->
        reg_horas registro = Z.max 1 ((now - entrada) / US_POR_SEGUNDO / 3600))
    /\ (now - entrada = 10 * 60 * US_POR_SEGUNDO -> reg_horas registro = 1)
    /\ (now - entrada = 125 * 60 * US_POR_SEGUNDO -> reg_horas registro = 2).
Proof.
  intros Hvs Hpre Hv Hent.
  destruct (registrar_salida_primera s p now pre v post entrada Hvs Hpre Hv Hent)
    as (registro & _ & Hsal & Hh & _).
  exists (retirar s v registro (pre ++ post)), registro.
  split; [exact Hsal|]. rewrite Hh.
  split; [reflexivity|].
  split; [apply horas_exactas|].
  split; intros ->; reflexivity.
Qed.

(** Witness of C3: [abc] came in at 10:00:00 and leaves 125 minutes later. *)
Lemma salida_horas_facturadas_witness :
  exists s' registro,
    @registrar_salida PyStr.ascii Iso.lib Ejemplo.uno "abc123"
      (Ejemplo.t0 + Ejemplo.minutos 125)
    = Ok (s', Some registro)
    /\ reg_horas registro
       = Z.max 1 ((Ejemplo.t0 + Ejemplo.minutos 125 - Ejemplo.t0)
                  / US_POR_SEGUNDO / 3600)
    /\ reg_horas registro = 2.
Proof.
  destruct (@salida_horas_facturadas PyStr.ascii Iso.lib Ejemplo.uno "abc123"
              (Ejemplo.t0 + Ejemplo.minutos 125) []
              (@actualizar_visitas PyStr.ascii [] Ejemplo.abc) [] Ejemplo.t0)
    as (s' & registro & Hsal & _ & Hexacto & _ & Hdos).
  - reflexivity.
  - simpl. tauto.
  - reflexivity.
  - reflexivity.
  - exists s', registro. split; [exact Hsal|]. split.
    + apply Hexacto. reflexivity.
    + apply Hdos. reflexivity.
Defined.

(** C4. The fee of an exit is the billed hours times the hourly rate of the
    session's type (1000 for a type without a rate), as a float; times 0.9
    when the tier at exit is frecuente; 0 when it is mensual, whatever the
    hours.  Three billed hours at rate 1000 cost a frecuente session 2700. *)
Theorem salida_total {Cad : PyStr.Lib} {L : DatetimeLib}
    (s : Parqueadero) (p : string) (now : datetime)
    (pre : list Vehiculo) (v : Vehiculo) (post : list Vehiculo)
    (entrada : datetime) :
  vehiculos s = pre ++ v :: post ->
  ~ In (PyStr.upper p) (placas pre) ->
  placa v = PyStr.upper p ->
  strptime (hora_entrada v) = Some entrada ->
  exists s' registro,
    registrar_salida s p now = Ok (s', Some registro)
    /\ reg_cliente registro = cliente v
    /\ (cliente v = "frecuente" ->
        reg_total registro
        = PrimFloat.mul
            (float_of_Z (reg_horas registro * Dict.get (tipo v) tarifas 1000))
            f0_9)
    /\ (cliente v = "mensual" -> reg_total registro = 0%float)
    /\ (cliente v <> "frecuente" -> cliente v <> "mensual" ->
        reg_total registro
        = float_of_Z (reg_horas registro * Dict.get (tipo v) tarifas 1000))
    /\ (cliente v = "frecuente" -> reg_horas registro = 3 ->
        Dict.get (tipo v) tarifas 1000 = 1000 ->
        reg_total registro = 2700%float).
Proof.
  intros Hvs Hpre Hv Hent.
  destruct (registrar_salida_primera s p now pre v post entrada Hvs Hpre Hv Hent)
    as (registro & Hreg & Hsal & _ & Htot).
  exists (retirar s v registro (pre ++ post)), registro.
  split; [exact Hsal|].
  split.
  { rewrite (hacer_registro_fechado s v now entrada Hent) in Hreg.
    inversion Hreg. reflexivity. }
  rewrite Htot. unfold calcular_total.
  repeat split.
  - intros ->. reflexivity.
  - intros ->. reflexivity.
  - intros Hf Hm.
    destruct (String.eqb_spec (cliente v) "frecuente"); [contradiction|].
    destruct (String.eqb_spec (cliente v) "mensual"); [contradiction|].
    reflexivity.
  - intros -> -> ->. reflexivity.
Qed.

(** Witness of C4: the frecuente motorcycle XYZ9 leaves after 185 minutes
    and pays 3 * 1000 * 0.9. *)
Lemma salida_total_witness :
  exists s' registro,
    @registrar_salida PyStr.ascii Iso.lib Ejemplo.mixto "xyz9"
      (Ejemplo.t0 + Ejemplo.minutos 185)
    = Ok (s', Some registro)
    /\ reg_cliente registro = "frecuente"
    /\ reg_horas registro = 3
    /\ reg_total registro = 2700%float.
Proof.
  destruct (@salida_total PyStr.ascii Iso.lib Ejemplo.mixto "xyz9"
              (Ejemplo.t0 + Ejemplo.minutos 185)
              [@actualizar_visitas PyStr.ascii [] Ejemplo.abc]
              (@actualizar_visitas PyStr.ascii [] Ejemplo.xyz) [] Ejemplo.t0)
    as (s' & registro & Hsal & Hcli & Hfrec & _ & _ & Htres).
  - reflexivity.
  - simpl. intros [H | []]. discriminate H.
  - reflexivity.
  - reflexivity.
  - exists s', registro.
    assert (Hh : reg_horas registro = 3).
    { vm_compute in Hsal. inversion Hsal. reflexivity. }
    split; [exact Hsal|]. split; [exact Hcli|]. split; [exact Hh|].
    apply Htres; [reflexivity | exact Hh | reflexivity].
Defined.

Example mensual_paga_cero :
  option_map reg_total
    (Ejemplo.registro_de_salida
       (fst (@registrar_entrada PyStr.ascii (inicial Ejemplo.cfg) Ejemplo.abc_mensual))
       "abc123" (Ejemplo.t0 + Ejemplo.minutos 3000))
  = Some 0%float.
Proof. vm_compute. reflexivity. Qed.

Example normal_paga_tarifa :
  option_map (fun r => (reg_horas r, reg_total r))
    (Ejemplo.registro_de_salida Ejemplo.uno "abc123"
       (Ejemplo.t0 + Ejemplo.minutos 10))
  = Some (1, 2000%float).
Proof. vm_compute. reflexivity. Qed.

(** ** Rejections *)

(** C5. When the type of the vehicle has no free place (the counter is 0,
    absent or negative), [registrar_entrada] answers [False] with the
    rejection message alone, neither of the two advisory alerts among the
    returned strings, and the ledger, its file included, is the one before
    the call. *)
Theorem entrada_sin_cupo {Cad : PyStr.Lib} (s : Parqueadero) (veh : Vehiculo) :
  Dict.get (tipo veh) (cupos s) 0 <= 0 ->
  registrar_entrada s veh = (s, (false, [MSG_SIN_CUPOS]))
  /\ ~ In (alerta_queda_uno (tipo veh)) (snd (snd (registrar_entrada s veh)))
  /\ ~ In MSG_FRECUENTE (snd (snd (registrar_entrada s veh))).
Proof.
  intros H. unfold registrar_entrada.
  destruct (Z.leb_spec (Dict.get (tipo veh) (cupos s) 0) 0) as [_ | Hlt]; [|lia].
  split; [reflexivity|].
  split; cbn [snd In]; intros [E | []]; discriminate E.
Qed.

(** Witness of C5: a third car for the two car places, both taken. *)
Lemma entrada_sin_cupo_witness :
  @registrar_entrada PyStr.ascii Ejemplo.dos Ejemplo.abc
  = (Ejemplo.dos, (false, [MSG_SIN_CUPOS]))
  /\ ~ In (alerta_queda_uno (tipo Ejemplo.abc))
         (snd (snd (@registrar_entrada PyStr.ascii Ejemplo.dos Ejemplo.abc)))
  /\ ~ In MSG_FRECUENTE (snd (snd (@registrar_entrada PyStr.ascii Ejemplo.dos Ejemplo.abc))).
Proof.
  apply (@entrada_sin_cupo PyStr.ascii Ejemplo.dos Ejemplo.abc).
  vm_compute. discriminate.
Defined.

(** C6. When no parked vehicle has the plate (in upper case),
    [registrar_salida] answers [None] and the ledger, with [vehiculos],
    [cupos], [historial] and its file, is the one before the call. *)
Theorem salida_placa_ausente {Cad : PyStr.Lib} {L : DatetimeLib}
    (s : Parqueadero) (p : string) (now : datetime) :
  ~ In (PyStr.upper p) (placas (vehiculos s)) ->
  registrar_salida s p now = Ok (s, None).
Proof. intros H. unfold registrar_salida. now apply salida_bucle_ausente. Qed.

(** Witness of C6: plate ZZZ000 is not parked. *)
Lemma salida_placa_ausente_witness :
  @registrar_salida PyStr.ascii Iso.lib Ejemplo.mixto "zzz000" Ejemplo.t0
  = Ok (Ejemplo.mixto, None).
Proof.
  apply (@salida_placa_ausente PyStr.ascii Iso.lib Ejemplo.mixto "zzz000" Ejemplo.t0).
  simpl. intros [H | [H | []]]; discriminate H.
Defined.

(** ** Repeated plates *)

(** C10. When the plate is parked more than once, [registrar_salida] takes
    out the first vehicle with the plate and no other: [vehiculos] loses
    that one position, [historial] gains one record, built from that
    vehicle, the counter of its type grows by one and the other counters
    stay, and every later vehicle with the plate is still parked. *)
Theorem salida_con_placa_repetida {Cad : PyStr.Lib} {L : DatetimeLib}
    (s : Parqueadero) (p : string) (now : datetime)
    (pre : list Vehiculo) (v : Vehiculo) (post : list Vehiculo)
    (entrada : datetime) :
  vehiculos s = pre ++ v :: post ->
  ~ In (PyStr.upper p) (placas pre) ->
  placa v = PyStr.upper p ->
  In (PyStr.upper p) (placas post) ->
  strptime (hora_entrada v) = Some entrada ->
  exists s' registro,
    registrar_salida s p now = Ok (s', Some registro)
    /\ vehiculos s' = pre ++ post
    /\ S (List.length (vehiculos s')) = List.length (vehiculos s)
    /\ (forall w, In w post -> In w (vehiculos s'))
    /\ historial s' = historial s ++ [registro]
    /\ hacer_registro s v now = Ok registro
    /\ reg_placa registro = placa v
    /\ reg_tipo registro = tipo v
    /\ reg_cliente registro = cliente v
    /\ reg_hora_entrada registro = hora_entrada v
    /\ reg_operador registro = operador_actual s
    /\ Dict.get (tipo v) (cupos s') 0 = Dict.get (tipo v) (cupos s) 0 + 1
    /\ (forall t, t <> tipo v -> Dict.get t (cupos s') 0 = Dict.get t (cupos s) 0).
Proof.
  intros Hvs Hpre Hv _ Hent.
  destruct (registrar_salida_primera s p now pre v post entrada Hvs Hpre Hv Hent)
    as (registro & Hreg & Hsal & _ & _).
  exists (retirar s v registro (pre ++ post)), registro.
  split; [exact Hsal|].
  unfold retirar.
  cbn [guardar_datos set_archivo set_historial set_cupos set_vehiculos
         cupos vehiculos historial].
  split; [reflexivity|].
  split; [rewrite Hvs, !length_app; cbn [List.length]; lia|].
  split; [intros w Hw; apply in_or_app; now right|].
  split; [reflexivity|].
  split; [exact Hreg|].
  rewrite (hacer_registro_fechado s v now entrada Hent) in Hreg.
  inversion Hreg. cbn.
  repeat split.
  - apply get_set_same.
  - intros t Ht. apply get_set_other. congruence.
Qed.

(** Witness of C10: plate ABC123 is parked twice and leaves once. *)
Lemma salida_con_placa_repetida_witness :
  exists s' registro,
    @registrar_salida PyStr.ascii Iso.lib Ejemplo.dos "abc123"
      (Ejemplo.t0 + Ejemplo.minutos 10)
    = Ok (s', Some registro)
    /\ placas (vehiculos Ejemplo.dos) = ["ABC123"; "ABC123"]
    /\ placas (vehiculos s') = ["ABC123"]
    /\ historial s' = historial Ejemplo.dos ++ [registro]
    /\ Dict.get "carro" (cupos s') 0 = Dict.get "carro" (cupos Ejemplo.dos) 0 + 1.
Proof.
  destruct (@salida_con_placa_repetida PyStr.ascii Iso.lib Ejemplo.dos "abc123"
              (Ejemplo.t0 + Ejemplo.minutos 10) []
              (@actualizar_visitas PyStr.ascii [] Ejemplo.abc)
              [@actualizar_visitas PyStr.ascii [] Ejemplo.abc] Ejemplo.t0)
    as (s' & registro & Hsal & Hvs & _ & _ & Hh & _ & _ & _ & _ & _ & _ & Hc & _).
  - reflexivity.
  - simpl. tauto.
  - reflexivity.
  - simpl. left. reflexivity.
  - reflexivity.
  - exists s', registro.
    split; [exact Hsal|]. split; [reflexivity|].
    split; [rewrite Hvs; reflexivity|].
    split; [exact Hh | exact Hc].
Defined.

Lemma NoDup_final {A} (l : list A) (x : A) :
  NoDup l -> ~ In x l -> NoDup (l ++ [x]).
Proof.
  induction l as [|a l IH]; intros Hnd Hx; simpl.
  - constructor; [intros [] | constructor].
  - inversion Hnd as [|? ? Ha Hl]; subst. constructor.
    + rewrite in_app_iff. intros [H | [H | []]]; [exact (Ha H)|].
      apply Hx. left. symmetry. exact H.
    + apply IH; [exact Hl|]. intros H. apply Hx. now right.
Qed.

Lemma entrada_placas {Cad : PyStr.Lib} s veh :
  placas (vehiculos (fst (registrar_entrada s veh))) = placas (vehiculos s)
  \/ placas (vehiculos (fst (registrar_entrada s veh)))
     = placas (vehiculos s) ++ [placa veh].
Proof.
  unfold registrar_entrada.
  destruct (Dict.get (tipo veh) (cupos s) 0 <=? 0); [left; reflexivity|].
  right. cbn [fst guardar_datos set_archivo set_cupos set_vehiculos vehiculos].
  unfold placas. rewrite map_app. cbn [map].
  now rewrite actualizar_visitas_placa.
Qed.

Lemma paso_sin_reingreso_placas {Cad : PyStr.Lib} {L : DatetimeLib} s s' :
  paso_sin_reingreso s s' ->
  NoDup (placas (vehiculos s)) -> NoDup (placas (vehiculos s')).
Proof.
  intros [s0 veh Hno | s0 p now s1 r H | s0 op | s0] Hnd.
  - destruct (entrada_placas s0 veh) as [-> | ->];
      [exact Hnd | now apply NoDup_final].
  - apply registrar_salida_casos in H.
    destruct H as [(-> & _) | (pre & v & post & registro & Hvs & _ & _ & _ & -> & _)].
    + exact Hnd.
    + unfold retirar.
      cbn [guardar_datos set_archivo set_historial set_cupos set_vehiculos vehiculos].
      rewrite Hvs in Hnd. unfold placas in *. rewrite map_app in *.
      cbn [map] in Hnd. exact (NoDup_remove_1 _ _ _ Hnd).
  - exact Hnd.
  - exact Hnd.
Qed.

(** C9 (amended). [registrar_entrada] does not look at the plates already
    parked; in every ledger reached from the initial configuration by calls
    in which no entry is asked for a plate that is parked at that moment,
    no two parked vehicles have the same plate. *)
Theorem placas_unicas_sin_reingreso {Cad : PyStr.Lib} {L : DatetimeLib}
    (cfg : Dict.t Z) (s : Parqueadero) :
  alcanzable_sin_reingreso cfg s -> NoDup (placas (vehiculos s)).
Proof.
  induction 1 as [|s s' _ IH Hpaso].
  - constructor.
  - exact (paso_sin_reingreso_placas s s' Hpaso IH).
Qed.

(** Witness of C9 (amended): [abc] and [xyz] parked, plates ABC123 and XYZ9. *)
Lemma placas_unicas_sin_reingreso_witness :
  NoDup (placas (vehiculos Ejemplo.mixto)).
Proof.
  apply (@placas_unicas_sin_reingreso PyStr.ascii Iso.lib Ejemplo.cfg Ejemplo.mixto).
  apply asr_paso with (s := fst (@registrar_entrada PyStr.ascii Ejemplo.uno Ejemplo.xyz));
    [| apply psr_login].
  apply asr_paso with (s := Ejemplo.uno).
  - apply asr_paso with (s := inicial Ejemplo.cfg); [apply asr_inicial|].
    apply psr_entrada. simpl. tauto.
  - apply psr_entrada. simpl. intros [H | []]. discriminate H.
Defined.

(** Counterexample to C9 as stated: with two free car places, two entries
    of plate ABC123 in a row are both accepted, and the reached ledger has
    the plate parked twice. *)
Lemma placa_repetida_alcanzable :
  alcanzable (Cad := PyStr.ascii) (L := Iso.lib) Ejemplo.cfg Ejemplo.dos
  /\ fst (snd (@registrar_entrada PyStr.ascii (inicial Ejemplo.cfg) Ejemplo.abc)) = true
  /\ fst (snd (@registrar_entrada PyStr.ascii Ejemplo.uno Ejemplo.abc)) = true
  /\ placas (vehiculos Ejemplo.dos) = ["ABC123"; "ABC123"]
  /\ ~ NoDup (placas (vehiculos Ejemplo.dos)).
Proof.
  split.
  { apply alc_paso with (s := Ejemplo.uno); [| apply paso_entrada].
    apply alc_paso with (s := inicial Ejemplo.cfg); [| apply paso_entrada].
    apply alc_inicial. }
  split; [reflexivity|]. split; [reflexivity|]. split; [reflexivity|].
  intros H. inversion H as [|? ? Hin _]; subst. apply Hin. now left.
Qed.

(** ** Persistence *)

Lemma cupos_ida_y_vuelta c : cupos_of_json (json_of_cupos c) = Leido c.
Proof.
  unfold cupos_of_json, json_of_cupos.
  induction c as [|[k n] c IH]; [reflexivity|].
  cbn [map leer_todos fst snd]. unfold cupo_of_json at 1.
  cbn [fst snd como_int seguir].
  now rewrite IH.
Qed.

Lemma coord_ida_y_vuelta c : como_coord (json_of_coord c) = Leido c.
Proof. now destruct c as [[n|f]|]. Qed.

Lemma opt_str_ida_y_vuelta o : como_opt_str (json_of_opt_str o) = Leido o.
Proof. now destruct o. Qed.

Lemma registro_ida_y_vuelta r : registro_of_json (registro_dict r) = Leido r.
Proof.
  destruct r as [p t c he hs h tot op la lo].
  unfold registro_of_json, registro_dict.
  cbn -[como_coord como_opt_str json_of_coord json_of_opt_str].
  rewrite opt_str_ida_y_vuelta. cbn [seguir].
  rewrite !coord_ida_y_vuelta. reflexivity.
Qed.

Lemma mismas_claves_iguales a b : mismas_claves a b = true -> a = b.
Proof.
  revert b. induction a as [|x a IH]; intros [|y b]; cbn; try discriminate.
  - reflexivity.
  - intros H. apply andb_prop in H. destruct H as [Hx Hab].
    apply String.eqb_eq in Hx. now rewrite Hx, (IH b Hab).
Qed.

(** The typed readers take a document for a record only when it is the
    dict of that record, and for counters only when it is their dict. *)
Lemma registro_leido_es_dict j r :
  registro_of_json j = Leido r -> j = registro_dict r.
Proof.
  destruct j as [| | | | | | o]; try discriminate.
  unfold registro_of_json.
  destruct (mismas_claves (Dict.keys o) CLAVES_REGISTRO) eqn:Hk; [|discriminate].
  apply mismas_claves_iguales in Hk. unfold Dict.keys, CLAVES_REGISTRO in Hk.
  do 10 (destruct o as [|[? ?] o]; [discriminate Hk|]).
  destruct o; [|discriminate Hk].
  cbn [map fst] in Hk. injection Hk as -> -> -> -> -> -> -> -> -> ->.
  cbn -[como_coord como_opt_str].
  repeat match goal with
         | |- context [seguir (como_str_tipado ?x)] =>
             destruct x; try discriminate; cbn [seguir como_str_tipado]
         | |- context [seguir (como_int ?x)] =>
             destruct x; try discriminate; cbn [seguir como_int]
         | |- context [seguir (como_float ?x)] =>
             destruct x; try discriminate; cbn [seguir como_float]
         | |- context [seguir (como_opt_str ?x)] =>
             destruct x; try discriminate; cbn [seguir como_opt_str]
         | |- context [seguir (como_coord ?x)] =>
             destruct x; try discriminate; cbn [seguir como_coord]
         end;
  intros H; inversion H; reflexivity.
Qed.

Lemma cupos_leidos_son_dict j c :
  cupos_of_json j = Leido c -> j = json_of_cupos c.
Proof.
  destruct j as [| | | | | | o]; try discriminate.
  unfold cupos_of_json, json_of_cupos. revert c.
  induction o as [|[k v] o IH]; intros c; cbn [leer_todos].
  - intros H. inversion H. reflexivity.
  - unfold cupo_of_json at 1. cbn [fst snd].
    destruct v; try discriminate. cbn [como_int seguir].
    destruct (leer_todos cupo_of_json o) as [c'| |]; try discriminate.
    cbn [seguir]. intros H. inversion H. cbn [map fst snd].
    specialize (IH c' eq_refl). inversion IH. reflexivity.
Qed.

Lemma historial_ida_y_vuelta h :
  leer_todos registro_of_json (map registro_dict h) = Leido h.
Proof.
  induction h as [|r h IH]; [reflexivity|].
  cbn [map leer_todos]. rewrite registro_ida_y_vuelta. cbn [seguir].
  now rewrite IH.
Qed.

Lemma vehiculo_ida_y_vuelta {Cad : PyStr.Lib} {L : DatetimeLib} now v :
  normalizado v -> from_dict now (to_dict v) = Leido v.
Proof.
  destruct v as [p t he c n la lo].
  intros (Hp & Ht & Hc & Hhe). cbn [placa tipo cliente hora_entrada] in *.
  unfold from_dict, to_dict.
  cbn -[como_coord json_of_coord Vehiculo_init].
  rewrite !coord_ida_y_vuelta. cbn [seguir].
  unfold Vehiculo_init. rewrite Hp, Ht, Hc, (truthy_no_vacia he Hhe).
  reflexivity.
Qed.

Lemma vehiculos_ida_y_vuelta {Cad : PyStr.Lib} {L : DatetimeLib} reloj i vs :
  Forall normalizado vs -> from_dicts reloj i (map to_dict vs) = Leido vs.
Proof.
  intros H. revert i. induction H as [|v vs Hv _ IH]; intros i; [reflexivity|].
  cbn [map from_dicts]. rewrite (vehiculo_ida_y_vuelta _ v Hv).
  now rewrite IH.
Qed.

(** What [__init__] builds is normalised as soon as the entry time it ends
    with is not empty. *)
Lemma Vehiculo_init_normalizado {Cad : PyStr.Lib} {L : DatetimeLib}
    now p t he c n la lo :
  strftime now <> "" ->
  normalizado (Vehiculo_init now p t he c n la lo).
Proof.
  intros Hnow. unfold normalizado, Vehiculo_init. cbn.
  rewrite PyStr.upper_idem, !PyStr.lower_idem. repeat split.
  destruct he as [[|a h]|]; cbn; [exact Hnow | discriminate | exact Hnow].
Qed.

Lemma iso_strftime_no_vacia t : Iso.iso_strftime t <> "".
Proof.
  unfold Iso.iso_strftime.
  destruct (Iso.civil_desde_dias _) as [[y m] d]. discriminate.
Qed.

Lemma actualizar_visitas_normalizado {Cad : PyStr.Lib} h v :
  normalizado v -> normalizado (actualizar_visitas h v).
Proof.
  unfold normalizado, actualizar_visitas. intros (Hp & Ht & Hc & Hh).
  destruct (5 <=? _); cbn; auto using lower_frecuente.
Qed.

(** Loading a file that holds the payload of [s], from any ledger [s1]. *)
Lemma cargar_documento_guardado {Cad : PyStr.Lib} {L : DatetimeLib} reloj s s1 :
  Forall normalizado (vehiculos s) ->
  cargar_datos reloj (set_archivo (Documento (payload s)) s1)
  = Some (mkParqueadero (cupos s) (vehiculos s) (historial s)
            (operador_actual s1) (Documento (payload s)), None).
Proof.
  intros Hn. unfold cargar_datos, payload.
  cbn [archivo_json set_archivo].
  unfold cargar_cupos, cargar_vehiculos, cargar_historial.
  cbn [Dict.find String.eqb Ascii.eqb Bool.eqb].
  rewrite cupos_ida_y_vuelta, (vehiculos_ida_y_vuelta reloj 0 _ Hn),
    historial_ida_y_vuelta.
  reflexivity.
Qed.

Lemma Parqueadero_init_sin_archivo {Cad : PyStr.Lib} {L : DatetimeLib} reloj cfg :
  Parqueadero_init reloj cfg NoExiste = Some (inicial cfg).
Proof. reflexivity. Qed.

(** A new [Parqueadero] on the file a ledger saved starts with that
    ledger's counters, vehicles and history, whatever configuration it is
    given. *)
Lemma Parqueadero_init_tras_guardar {Cad : PyStr.Lib} {L : DatetimeLib}
    reloj cfg s :
  Forall normalizado (vehiculos s) ->
  Parqueadero_init reloj cfg (archivo_json (guardar_datos s))
  = Some (mkParqueadero (cupos s) (vehiculos s) (historial s) None
            (Documento (payload s))).
Proof.
  intros Hn. unfold Parqueadero_init.
  change (archivo_json (guardar_datos s)) with (Documento (payload s)).
  change {| cupos := Dict.copy cfg; vehiculos := []; historial := [];
            operador_actual := None; archivo_json := Documento (payload s) |}
    with (set_archivo (Documento (payload s)) (inicial cfg)).
  now rewrite cargar_documento_guardado.
Qed.

(** C7. Loading what [guardar_datos] wrote gives back the capacity map, the
    parked vehicles and the history of the saved ledger, field by field:
    entry and exit times as the same strings, coordinates present or absent
    as they were.  The vehicles are as [Vehiculo.__init__] leaves them.
    The loading ledger [s0] is any ledger on the same file. *)
Theorem cargar_tras_guardar {Cad : PyStr.Lib} {L : DatetimeLib}
    (reloj : nat -> datetime) (s s0 : Parqueadero) :
  Forall normalizado (vehiculos s) ->
  (exists cargado,
     cargar_datos reloj (set_archivo (archivo_json (guardar_datos s)) s0)
     = Some cargado
     /\ cupos (fst cargado) = cupos s
     /\ vehiculos (fst cargado) = vehiculos s
     /\ historial (fst cargado) = historial s
     /\ snd cargado = None)
  /\ cargar_datos reloj (guardar_datos s) = Some (guardar_datos s, None).
Proof.
  intros Hn.
  change (archivo_json (guardar_datos s)) with (Documento (payload s)).
  rewrite (cargar_documento_guardado reloj s s0 Hn).
  split.
  - eexists. split; [reflexivity|].
    cbn [fst snd cupos vehiculos historial]. auto.
  - unfold guardar_datos. rewrite (cargar_documento_guardado reloj s s Hn).
    reflexivity.
Qed.

(** Witness of C7: a ledger with a parked vehicle and a history record
    that has coordinates and an operator. *)
Lemma cargar_tras_guardar_witness :
  (exists cargado,
     @cargar_datos PyStr.ascii Iso.lib (fun _ => Ejemplo.t0)
       (set_archivo (archivo_json (guardar_datos Ejemplo.con_historial))
          (inicial Ejemplo.cfg))
     = Some cargado
     /\ cupos (fst cargado) = cupos Ejemplo.con_historial
     /\ vehiculos (fst cargado) = vehiculos Ejemplo.con_historial
     /\ historial (fst cargado) = historial Ejemplo.con_historial
     /\ snd cargado = None)
  /\ @cargar_datos PyStr.ascii Iso.lib (fun _ => Ejemplo.t0)
       (guardar_datos Ejemplo.con_historial)
     = Some (guardar_datos Ejemplo.con_historial, None).
Proof.
  apply (@cargar_tras_guardar PyStr.ascii Iso.lib (fun _ => Ejemplo.t0)
           Ejemplo.con_historial (inicial Ejemplo.cfg)).
  repeat constructor; discriminate.
Defined.

Example con_historial_contenido :
  vehiculos Ejemplo.con_historial
  = [mkVehiculo "ABC123" "carro" "2024-03-01 10:00:00" "normal" 1 None None]
  /\ historial Ejemplo.con_historial
     = [mkRegistro "XYZ9" "moto" "frecuente" "2024-03-01 10:00:00"
          "2024-03-01 13:05:00" 3 2700%float (Some "ana")
          (Some (Flotante 0x1.9116872b020c5p+2%float))
          (Some (Flotante (-0x1.2e449ba5e353fp+6)%float))].
Proof. vm_compute. split; reflexivity. Qed.

(** ** Alerts *)

Lemma length_append (a b : string) :
  String.length (a ++ b) = (String.length a + String.length b)%nat.
Proof. induction a as [|c a IH]; simpl; [reflexivity | now rewrite IH]. Qed.

Lemma append_cancel_r (a b c : string) : (a ++ c = b ++ c)%string -> a = b.
Proof.
  revert b. induction a as [|x a IH]; intros [|y b] H; simpl in H.
  - reflexivity.
  - apply (f_equal String.length) in H. simpl in H.
    rewrite length_append in H. lia.
  - apply (f_equal String.length) in H. simpl in H.
    rewrite length_append in H. lia.
  - injection H as -> H. f_equal. exact (IH b H).
Qed.

Lemma alerta_solo_uno_inj t t' : alerta_solo_uno t = alerta_solo_uno t' -> t = t'.
Proof.
  unfold alerta_solo_uno. cbn [String.append]. intros H.
  injection H as H. exact (append_cancel_r _ _ _ H).
Qed.

Lemma alerta_24h_inj p p' : alerta_24h p = alerta_24h p' -> p = p'.
Proof.
  unfold alerta_24h. cbn [String.append]. intros H.
  injection H as H. exact (append_cancel_r _ _ _ H).
Qed.

Lemma alertas_distintas p t : alerta_24h p <> alerta_solo_uno t.
Proof. unfold alerta_24h, alerta_solo_uno. cbn [String.append]. discriminate. Qed.

Lemma veces_app m l1 l2 : veces m (l1 ++ l2) = (veces m l1 + veces m l2)%nat.
Proof. unfold veces. now rewrite filter_app, length_app. Qed.

Lemma veces_map_inj {A} (f : string -> string) (g : A -> string) k l :
  (forall x y, f x = f y -> x = y) ->
  veces (f k) (map (fun a => f (g a)) l)
  = List.length (filter (fun a => String.eqb (g a) k) l).
Proof.
  intros Hinj. unfold veces. induction l as [|a l IH]; [reflexivity|].
  cbn [map filter].
  destruct (String.eqb_spec (f k) (f (g a))) as [E | N];
    destruct (String.eqb_spec (g a) k) as [E' | N']; cbn [List.length].
  - now rewrite IH.
  - exfalso. apply N'. symmetry. exact (Hinj _ _ E).
  - exfalso. apply N. now rewrite E'.
  - exact IH.
Qed.

Lemma veces_map_ninguna {A} (m : string) (f : A -> string) l :
  (forall a, f a <> m) -> veces m (map f l) = 0%nat.
Proof.
  intros Hne. unfold veces. induction l as [|a l IH]; [reflexivity|].
  cbn [map filter]. destruct (String.eqb_spec m (f a)) as [E | N]; [|exact IH].
  exfalso. exact (Hne a (eq_sym E)).
Qed.

Lemma numerados_cons i v vs :
  numerados i (v :: vs) = (i, v) :: numerados (S i) vs.
Proof. reflexivity. Qed.

Lemma en_uno_ausente t (cs : list (string * Z)) :
  ~ In t (Dict.keys cs) ->
  filter (fun kc => String.eqb (fst kc) t) (filter (fun kc => snd kc =? 1) cs) = [].
Proof.
  induction cs as [|[k n] cs IH]; intros H; [reflexivity|].
  cbn [Dict.keys map fst In] in H. cbn [filter snd].
  assert (Hk : k <> t) by (intros E; apply H; now left).
  assert (Hcs : ~ In t (Dict.keys cs)) by (intros E; apply H; now right).
  destruct (n =? 1); cbn [filter fst].
  - destruct (String.eqb_spec k t); [contradiction | exact (IH Hcs)].
  - exact (IH Hcs).
Qed.

Lemma en_uno_cuenta t (cs : Dict.t Z) :
  NoDup (Dict.keys cs) ->
  List.length
    (filter (fun kc => String.eqb (fst kc) t) (filter (fun kc => snd kc =? 1) cs))
  = if Dict.get t cs 0 =? 1 then 1%nat else 0%nat.
Proof.
  induction cs as [|[k n] cs IH]; intros Hnd; [reflexivity|].
  cbn [Dict.keys map fst] in Hnd. inversion Hnd as [|? ? Hk Hcs]; subst.
  unfold Dict.get. cbn [Dict.find filter snd].
  destruct (String.eqb_spec k t) as [-> | N].
  - destruct (n =? 1) eqn:E; cbn [filter fst].
    + rewrite String.eqb_refl. cbn [List.length].
      now rewrite (en_uno_ausente t cs Hk).
    + now rewrite (en_uno_ausente t cs Hk).
  - specialize (IH Hcs). unfold Dict.get in IH.
    destruct (n =? 1); cbn [filter fst]; [|exact IH].
    destruct (String.eqb_spec k t); [contradiction | exact IH].
Qed.

Lemma alertas_cupos_lista cs alerts :
  alertas_cupos cs alerts
  = alerts ++ map (fun kc => alerta_solo_uno (fst kc))
                (filter (fun kc => snd kc =? 1) cs).
Proof.
  revert alerts. induction cs as [|[t n] cs IH]; intros alerts.
  - cbn. now rewrite app_nil_r.
  - cbn [alertas_cupos filter snd]. rewrite IH.
    destruct (n =? 1); [|reflexivity].
    cbn [map fst]. now rewrite <- app_assoc.
Qed.

Lemma alertas_vehiculos_lista {L : DatetimeLib} reloj i vs alerts :
  Forall fechado vs ->
  alertas_vehiculos reloj i vs alerts
  = Ok (alerts ++ map (fun iv => alerta_24h (placa (snd iv)))
                    (filter (vencido reloj) (numerados i vs))).
Proof.
  intros H. revert i alerts.
  induction H as [|v vs [entrada Hv] _ IH]; intros i alerts.
  - cbn. now rewrite app_nil_r.
  - cbn [alertas_vehiculos]. rewrite Hv, IH, numerados_cons.
    cbn [filter]. unfold vencido at 2. cbn [fst snd]. rewrite Hv.
    destruct (timedelta_hours 24 <? reloj i - entrada); [|reflexivity].
    cbn [map snd]. now rewrite <- app_assoc.
Qed.

(** C8. [alertas] reads the ledger and returns, in order, one overstay
    alert for each parked vehicle whose time since entry exceeds 24 hours
    when the loop examines it, then one low-capacity alert for each type
    whose counter is exactly 1: a plate is named as many times as it has
    overstaying vehicles, and a type is named once when its counter is 1
    and not at all otherwise.  The entry times of the parked vehicles read
    as dates and [cupos] is a dict (its keys are distinct). *)
Theorem alertas_exactas {L : DatetimeLib}
    (s : Parqueadero) (reloj : nat -> datetime) :
  Forall fechado (vehiculos s) ->
  NoDup (Dict.keys (cupos s)) ->
  exists alerts,
    alertas s reloj = Ok alerts
    /\ alerts
       = map (fun iv => alerta_24h (placa (snd iv)))
           (filter (vencido reloj) (numerados 0 (vehiculos s)))
         ++ map (fun kc => alerta_solo_uno (fst kc))
              (filter (fun kc => snd kc =? 1) (cupos s))
    /\ (forall p,
          veces (alerta_24h p) alerts
          = List.length
              (filter (fun iv => String.eqb (placa (snd iv)) p)
                 (filter (vencido reloj) (numerados 0 (vehiculos s)))))
    /\ (forall t,
          veces (alerta_solo_uno t) alerts
          = if Dict.get t (cupos s) 0 =? 1 then 1%nat else 0%nat).
Proof.
  intros Hf Hnd. eexists. split; [|split; [reflexivity|]].
  - unfold alertas. rewrite (alertas_vehiculos_lista reloj 0 _ [] Hf).
    cbn [bind app]. unfold Dict.items. now rewrite alertas_cupos_lista.
  - split.
    + intros p. rewrite veces_app.
      rewrite (veces_map_inj alerta_24h (fun iv => placa (snd iv)))
        by exact alerta_24h_inj.
      rewrite veces_map_ninguna; [lia|].
      intros kc E. exact (alertas_distintas p (fst kc) (eq_sym E)).
    + intros t. rewrite veces_app.
      rewrite veces_map_ninguna
        by (intros iv E; exact (alertas_distintas _ _ E)).
      rewrite (veces_map_inj alerta_solo_uno (fun kc => fst kc))
        by exact alerta_solo_uno_inj.
      cbn [Nat.add]. exact (en_uno_cuenta t (cupos s) Hnd).
Qed.

(** Witness of C8: [abc] is examined exactly 24 hours after its entry and
    [xyz] one microsecond later; one car place and no motorcycle place are
    free. *)
Lemma alertas_exactas_witness :
  exists alerts,
    @alertas Iso.lib Ejemplo.mixto
      (fun i => Ejemplo.t0 + timedelta_hours 24 + Z.of_nat i)
    = Ok alerts
    /\ alerts = [alerta_24h "XYZ9"; alerta_solo_uno "carro"]
    /\ veces (alerta_24h "ABC123") alerts = 0%nat
    /\ veces (alerta_solo_uno "carro") alerts = 1%nat
    /\ veces (alerta_solo_uno "moto") alerts = 0%nat.
Proof.
  destruct (@alertas_exactas Iso.lib Ejemplo.mixto
              (fun i => Ejemplo.t0 + timedelta_hours 24 + Z.of_nat i))
    as (alerts & Hal & Hlista & _ & Htipo).
  - repeat constructor; exists Ejemplo.t0; reflexivity.
  - repeat constructor; simpl; intros H;
      repeat (destruct H as [H | H]; [discriminate H|]); exact H.
  - exists alerts. split; [exact Hal|].
    split; [rewrite Hlista; reflexivity|].
    split; [rewrite Hlista; reflexivity|].
    split; [exact (Htipo "carro") | exact (Htipo "moto")].
Defined.

(** ** Well-formed ledgers stay well-formed *)

Lemma keys_set {V} k (v : V) d :
  Dict.keys (Dict.set k v d) = Dict.keys d
  \/ (~ In k (Dict.keys d) /\ Dict.keys (Dict.set k v d) = Dict.keys d ++ [k]).
Proof.
  unfold Dict.keys. induction d as [|[k' v'] d IH]; cbn [Dict.set].
  - right. split; [intros [] | reflexivity].
  - destruct (String.eqb_spec k' k) as [-> | N]; [left; reflexivity|].
    cbn [map fst].
    destruct IH as [IH | [Hno IH]]; rewrite IH.
    + left. reflexivity.
    + right. split; [|reflexivity].
      intros [E | Hin]; [exact (N E) | exact (Hno Hin)].
Qed.

Lemma set_claves_distintas k (v : Z) d :
  NoDup (Dict.keys d) -> NoDup (Dict.keys (Dict.set k v d)).
Proof.
  intros H. destruct (keys_set k v d) as [-> | [Hno ->]];
    [exact H | now apply NoDup_final].
Qed.

Lemma paso_claves_distintas {Cad : PyStr.Lib} {L : DatetimeLib} s s' :
  paso s s' -> NoDup (Dict.keys (cupos s)) -> NoDup (Dict.keys (cupos s')).
Proof.
  intros [s0 veh | s0 p now s1 r H | s0 op | s0] Hnd.
  - unfold registrar_entrada.
    destruct (Dict.get (tipo veh) (cupos s0) 0 <=? 0); [exact Hnd|].
    cbn. now apply set_claves_distintas.
  - apply registrar_salida_casos in H.
    destruct H as [(-> & _) | (pre & v & post & registro & _ & _ & _ & _ & -> & _)].
    + exact Hnd.
    + cbn. now apply set_claves_distintas.
  - exact Hnd.
  - exact Hnd.
Qed.

(** The counters of a reachable ledger form a dict when the configuration
    does. *)
Lemma alcanzable_claves_distintas {Cad : PyStr.Lib} {L : DatetimeLib} cfg s :
  NoDup (Dict.keys cfg) -> alcanzable cfg s -> NoDup (Dict.keys (cupos s)).
Proof.
  intros Hcfg. induction 1 as [|s s' _ IH Hpaso]; [exact Hcfg|].
  exact (paso_claves_distintas s s' Hpaso IH).
Qed.

Lemma entrada_normalizados {Cad : PyStr.Lib} s veh :
  normalizado veh -> Forall normalizado (vehiculos s) ->
  Forall normalizado (vehiculos (fst (registrar_entrada s veh))).
Proof.
  intros Hv Hs. unfold registrar_entrada.
  destruct (Dict.get (tipo veh) (cupos s) 0 <=? 0); [exact Hs|].
  cbn. apply Forall_app. split; [exact Hs|].
  constructor; [now apply actualizar_visitas_normalizado | constructor].
Qed.

Lemma salida_normalizados {Cad : PyStr.Lib} {L : DatetimeLib} s p now s' r :
  registrar_salida s p now = Ok (s', r) ->
  Forall normalizado (vehiculos s) -> Forall normalizado (vehiculos s').
Proof.
  intros H Hs. apply registrar_salida_casos in H.
  destruct H as [(-> & _) | (pre & v & post & registro & Hvs & _ & _ & _ & -> & _)];
    [exact Hs|].
  cbn. rewrite Hvs in Hs. apply Forall_app in Hs. destruct Hs as [Hpre Hpost].
  apply Forall_app. split; [exact Hpre|]. now inversion Hpost.
Qed.

(** * Further properties of the ledger *)

(** ** Accepted entries *)

Lemma find_get_positivo t (c : Dict.t Z) :
  0 < Dict.get t c 0 -> Dict.find t c = Some (Dict.get t c 0).
Proof. unfold Dict.get. destruct (Dict.find t c); [reflexivity | lia]. Qed.

Lemma find_en_claves {V} t (c : Dict.t V) v :
  Dict.find t c = Some v -> In t (Dict.keys c).
Proof.
  unfold Dict.keys. induction c as [|[k w] c IH]; cbn; [discriminate|].
  destruct (String.eqb_spec k t) as [-> | N]; [now left|].
  intros H. right. exact (IH H).
Qed.

Lemma set_set {V} t (a b : V) c : Dict.set t a (Dict.set t b c) = Dict.set t a c.
Proof.
  induction c as [|[k w] c IH]; cbn.
  - now rewrite String.eqb_refl.
  - destruct (String.eqb_spec k t) as [-> | N]; cbn.
    + now rewrite String.eqb_refl.
    + destruct (String.eqb_spec k t); [contradiction|]. now rewrite IH.
Qed.

Lemma set_mismo {V} t (a : V) c : Dict.find t c = Some a -> Dict.set t a c = c.
Proof.
  induction c as [|[k w] c IH]; cbn; [discriminate|].
  destruct (String.eqb_spec k t) as [-> | N].
  - intros H. now inversion H.
  - intros H. now rewrite (IH H).
Qed.

Lemma actualizar_visitas_campos {Cad : PyStr.Lib} h veh :
  hora_entrada (actualizar_visitas h veh) = hora_entrada veh
  /\ lat (actualizar_visitas h veh) = lat veh
  /\ lon (actualizar_visitas h veh) = lon veh
  /\ visitas (actualizar_visitas h veh) = registros_de (placa veh) h + 1.
Proof.
  unfold actualizar_visitas. cbn [set_visitas visitas].
  rewrite visitas_previas_cuenta. now destruct (5 <=? _).
Qed.

Lemma actualizar_visitas_cliente {Cad : PyStr.Lib} h veh :
  String.eqb (cliente (actualizar_visitas h veh)) "frecuente"
  = (String.eqb (cliente veh) "frecuente" || (5 <=? 1 + registros_de (placa veh) h)).
Proof.
  unfold actualizar_visitas. cbn [set_visitas visitas].
  rewrite visitas_previas_cuenta.
  replace (registros_de (placa veh) h + 1) with (1 + registros_de (placa veh) h) by lia.
  destruct (5 <=? 1 + registros_de (placa veh) h); cbn.
  - now rewrite orb_true_r.
  - now rewrite orb_false_r.
Qed.

(** The ledger an accepted entry leaves. *)
Lemma entrada_con_cupo {Cad : PyStr.Lib} s veh :
  0 < Dict.get (tipo veh) (cupos s) 0 ->
  registrar_entrada s veh
  = (guardar_datos
       (set_cupos
          (Dict.set (tipo veh) (Dict.get (tipo veh) (cupos s) 0 - 1) (cupos s))
          (set_vehiculos (vehiculos s ++ [actualizar_visitas (historial s) veh]) s)),
     (true,
      (if Dict.get (tipo veh) (cupos s) 0 =? 2
       then [alerta_queda_uno (tipo veh)] else [])
      ++ (if String.eqb (cliente (actualizar_visitas (historial s) veh)) "frecuente"
          then [MSG_FRECUENTE] else []))).
Proof.
  intros H. unfold registrar_entrada.
  destruct (Z.leb_spec (Dict.get (tipo veh) (cupos s) 0) 0); [lia|].
  cbn [guardar_datos set_archivo set_cupos set_vehiculos cupos vehiculos].
  rewrite get_set_same.
  replace (Dict.get (tipo veh) (cupos s) 0 - 1 =? 1)
    with (Dict.get (tipo veh) (cupos s) 0 =? 2); [reflexivity|].
  destruct (Z.eqb_spec (Dict.get (tipo veh) (cupos s) 0) 2);
    destruct (Z.eqb_spec (Dict.get (tipo veh) (cupos s) 0 - 1) 1); lia || reflexivity.
Qed.

(** X1. An entry for a type with a free place is accepted: the counter of
    the type drops by one and no other counter moves, the history and the
    operator stay, the file holds the new ledger, and the returned alerts
    are the low-capacity alert exactly when two places were free before the
    call, followed by the frequent-customer message exactly when the caller
    gave the tier frecuente or this is at least the fifth visit. *)
Theorem entrada_aceptada_efecto {Cad : PyStr.Lib} (s : Parqueadero) (veh : Vehiculo) :
  0 < Dict.get (tipo veh) (cupos s) 0 ->
  let s' := fst (registrar_entrada s veh) in
  fst (snd (registrar_entrada s veh)) = true
  /\ Dict.get (tipo veh) (cupos s') 0 = Dict.get (tipo veh) (cupos s) 0 - 1
  /\ (forall t, t <> tipo veh -> Dict.get t (cupos s') 0 = Dict.get t (cupos s) 0)
  /\ Dict.keys (cupos s') = Dict.keys (cupos s)
  /\ historial s' = historial s
  /\ operador_actual s' = operador_actual s
  /\ archivo_json s' = Documento (payload s')
  /\ snd (snd (registrar_entrada s veh))
     = (if Dict.get (tipo veh) (cupos s) 0 =? 2
        then [alerta_queda_uno (tipo veh)] else [])
       ++ (if String.eqb (cliente veh) "frecuente"
              || (5 <=? 1 + registros_de (placa veh) (historial s))
           then [MSG_FRECUENTE] else []).
Proof.
  intros H. cbn zeta. rewrite (entrada_con_cupo s veh H).
  cbn [fst snd guardar_datos set_archivo set_cupos set_vehiculos
         cupos vehiculos historial operador_actual archivo_json].
  split; [reflexivity|]. split; [apply get_set_same|].
  split; [intros t Ht; apply get_set_other; congruence|].
  split.
  { destruct (keys_set (tipo veh) (Dict.get (tipo veh) (cupos s) 0 - 1) (cupos s))
      as [E | [Hno _]]; [exact E|].
    exfalso. apply Hno. eapply find_en_claves. exact (find_get_positivo _ _ H). }
  split; [reflexivity|]. split; [reflexivity|]. split; [reflexivity|].
  now rewrite actualizar_visitas_cliente.
Qed.

(** Witness of X1: the first of two car places is taken. *)
Lemma entrada_aceptada_efecto_witness :
  fst (snd (@registrar_entrada PyStr.ascii (inicial Ejemplo.cfg) Ejemplo.abc)) = true
  /\ cupos Ejemplo.uno = [("carro", 1); ("moto", 1)]
  /\ snd (snd (@registrar_entrada PyStr.ascii (inicial Ejemplo.cfg) Ejemplo.abc))
     = [alerta_queda_uno "carro"].
Proof.
  destruct (@entrada_aceptada_efecto PyStr.ascii (inicial Ejemplo.cfg) Ejemplo.abc)
    as (Hok & _ & _ & _ & _ & _ & _ & Hal).
  - reflexivity.
  - split; [exact Hok|]. split; [reflexivity|]. rewrite Hal. reflexivity.
Defined.

(** ** Entries followed by exits *)

Lemma registros_de_app {Cad : PyStr.Lib} p h1 h2 :
  registros_de p (h1 ++ h2) = registros_de p h1 + registros_de p h2.
Proof. unfold registros_de. rewrite filter_app, length_app. lia. Qed.

Lemma registros_de_no_negativo {Cad : PyStr.Lib} p h : 0 <= registros_de p h.
Proof. unfold registros_de. lia. Qed.

(** The exit that follows the accepted entry of a plate that was not
    parked. *)
Lemma salida_tras_entrada {Cad : PyStr.Lib} {L : DatetimeLib} s veh p now entrada :
  0 < Dict.get (tipo veh) (cupos s) 0 ->
  ~ In (placa veh) (placas (vehiculos s)) ->
  PyStr.upper p = placa veh ->
  strptime (hora_entrada veh) = Some entrada ->
  exists registro,
    hacer_registro (fst (registrar_entrada s veh))
      (actualizar_visitas (historial s) veh) now = Ok registro
    /\ registrar_salida (fst (registrar_entrada s veh)) p now
       = Ok (mkParqueadero (cupos s) (vehiculos s) (historial s ++ [registro])
               (operador_actual s)
               (Documento
                  (payload (mkParqueadero (cupos s) (vehiculos s)
                              (historial s ++ [registro]) (operador_actual s)
                              NoExiste))),
             Some registro).
Proof.
  intros Hcupo Hno Hp Hent.
  pose (veh' := actualizar_visitas (historial s) veh).
  assert (Hent' : strptime (hora_entrada veh') = Some entrada).
  { unfold veh'. destruct (actualizar_visitas_campos (historial s) veh) as (-> & _).
    exact Hent. }
  destruct (registrar_salida_primera (fst (registrar_entrada s veh)) p now
              (vehiculos s) veh' [] entrada) as (registro & Hreg & Hsal & _).
  - rewrite (entrada_con_cupo s veh Hcupo). reflexivity.
  - now rewrite Hp.
  - unfold veh'. now rewrite actualizar_visitas_placa.
  - exact Hent'.
  - exists registro. split; [exact Hreg|]. rewrite Hsal.
    rewrite (entrada_con_cupo s veh Hcupo). unfold retirar.
    cbn [fst guardar_datos set_archivo set_historial set_cupos set_vehiculos
           cupos vehiculos historial operador_actual archivo_json].
    subst veh'. rewrite app_nil_r, !actualizar_visitas_tipo.
    rewrite get_set_same, set_set.
    replace (Dict.get (tipo veh) (cupos s) 0 - 1 + 1)
      with (Dict.get (tipo veh) (cupos s) 0) by lia.
    rewrite (set_mismo _ _ _ (find_get_positivo _ _ Hcupo)).
    reflexivity.
Qed.

(** X2. A vehicle whose plate was not parked comes in and leaves again:
    the counters and the list of parked vehicles are back as they were
    before the entry, with the types in the same order, and the history
    has one more record, of that plate. *)
Theorem entrada_y_salida_restauran {Cad : PyStr.Lib} {L : DatetimeLib}
    (s : Parqueadero) (veh : Vehiculo) (p : string) (now entrada : datetime) :
  0 < Dict.get (tipo veh) (cupos s) 0 ->
  ~ In (placa veh) (placas (vehiculos s)) ->
  PyStr.upper p = placa veh ->
  strptime (hora_entrada veh) = Some entrada ->
  exists s' registro,
    registrar_salida (fst (registrar_entrada s veh)) p now = Ok (s', Some registro)
    /\ cupos s' = cupos s
    /\ vehiculos s' = vehiculos s
    /\ historial s' = historial s ++ [registro]
    /\ reg_placa registro = placa veh
    /\ reg_hora_entrada registro = hora_entrada veh.
Proof.
  intros Hcupo Hno Hp Hent.
  destruct (salida_tras_entrada s veh p now entrada Hcupo Hno Hp Hent)
    as (registro & Hreg & Hsal).
  eexists _, registro. split; [exact Hsal|].
  cbn [cupos vehiculos historial]. do 3 (split; [reflexivity|]).
  destruct (actualizar_visitas_campos (historial s) veh) as (Hh & _).
  rewrite <- Hh in Hent.
  rewrite (hacer_registro_fechado _ _ now entrada Hent) in Hreg.
  inversion Hreg. cbn. split; [apply actualizar_visitas_placa | exact Hh].
Qed.

(** Witness of X2: [xyz] comes into [uno] and leaves. *)
Lemma entrada_y_salida_restauran_witness :
  exists s' registro,
    @registrar_salida PyStr.ascii Iso.lib (fst (@registrar_entrada PyStr.ascii Ejemplo.uno Ejemplo.xyz))
      "xyz9" (Ejemplo.t0 + Ejemplo.minutos 30)
    = Ok (s', Some registro)
    /\ cupos s' = cupos Ejemplo.uno
    /\ vehiculos s' = vehiculos Ejemplo.uno
    /\ historial s' = historial Ejemplo.uno ++ [registro]
    /\ reg_placa registro = "XYZ9"
    /\ reg_hora_entrada registro = "2024-03-01 10:00:00".
Proof.
  apply (@entrada_y_salida_restauran PyStr.ascii Iso.lib Ejemplo.uno Ejemplo.xyz "xyz9"
           (Ejemplo.t0 + Ejemplo.minutos 30) Ejemplo.t0).
  - reflexivity.
  - simpl. intros [H | []]. discriminate H.
  - reflexivity.
  - reflexivity.
Defined.

(** X3. Each completed stay raises the visit count of the plate by one:
    when a plate that was not parked comes in, leaves and comes in again,
    in any letter case, the second session is stored with one visit more
    than the first. *)
Theorem visita_siguiente {Cad : PyStr.Lib} {L : DatetimeLib}
    (s : Parqueadero) (veh veh2 : Vehiculo) (p : string)
    (now entrada : datetime) :
  0 < Dict.get (tipo veh) (cupos s) 0 ->
  0 < Dict.get (tipo veh2) (cupos s) 0 ->
  ~ In (placa veh) (placas (vehiculos s)) ->
  PyStr.upper p = placa veh ->
  PyStr.upper (placa veh2) = placa veh ->
  strptime (hora_entrada veh) = Some entrada ->
  exists s1 registro s2 alerts veh1' veh2',
    vehiculos (fst (registrar_entrada s veh)) = vehiculos s ++ [veh1']
    /\ registrar_salida (fst (registrar_entrada s veh)) p now
       = Ok (s1, Some registro)
    /\ registrar_entrada s1 veh2 = (s2, (true, alerts))
    /\ vehiculos s2 = vehiculos s ++ [veh2']
    /\ visitas veh2' = visitas veh1' + 1.
Proof.
  intros Hcupo Hcupo2 Hno Hp Hp2 Hent.
  destruct (salida_tras_entrada s veh p now entrada Hcupo Hno Hp Hent)
    as (registro & Hreg & Hsal).
  eexists _, registro, _, _, (actualizar_visitas (historial s) veh), _.
  split; [rewrite (entrada_con_cupo s veh Hcupo); reflexivity|].
  split; [exact Hsal|].
  split; [rewrite entrada_con_cupo by exact Hcupo2; reflexivity|].
  cbn [guardar_datos set_archivo set_cupos set_vehiculos vehiculos historial cupos].
  split; [reflexivity|].
  destruct (actualizar_visitas_campos (historial s ++ [registro]) veh2)
    as (_ & _ & _ & ->).
  destruct (actualizar_visitas_campos (historial s) veh) as (Hh & _ & _ & ->).
  rewrite <- Hh in Hent.
  rewrite (hacer_registro_fechado _ _ now entrada Hent) in Hreg.
  inversion Hreg as [Hr]. clear Hreg.
  rewrite registros_de_app.
  assert (Hup : PyStr.upper (placa veh) = placa veh)
    by (rewrite <- Hp; apply PyStr.upper_idem).
  assert (Hmismo : forall h, registros_de (placa veh2) h = registros_de (placa veh) h).
  { intros h. unfold registros_de. now rewrite Hp2, Hup. }
  rewrite !Hmismo. subst registro.
  unfold registros_de at 2. cbn [filter reg_placa].
  rewrite actualizar_visitas_placa, Hup, String.eqb_refl. cbn [List.length].
  lia.
Qed.

(** Witness of X3: ABC123 comes in, leaves, and comes in again as a monthly
    customer; the second session has two visits. *)
Lemma visita_siguiente_witness :
  exists s2 alerts veh2',
    @registrar_entrada PyStr.ascii (Ejemplo.estancia (inicial Ejemplo.cfg)) Ejemplo.abc_mensual
    = (s2, (true, alerts))
    /\ vehiculos s2 = [veh2']
    /\ visitas veh2' = 2.
Proof.
  destruct (@visita_siguiente PyStr.ascii Iso.lib (inicial Ejemplo.cfg) Ejemplo.abc
              Ejemplo.abc_mensual "abc123" (Ejemplo.t0 + Ejemplo.minutos 10)
              Ejemplo.t0)
    as (s1 & registro & s2 & alerts & veh1' & veh2' & Hv1 & Hsal & Hent & Hv2 & Hvis).
  - reflexivity.
  - reflexivity.
  - simpl. tauto.
  - reflexivity.
  - reflexivity.
  - reflexivity.
  - exists s2, alerts, veh2'.
    assert (Hs1 : s1 = Ejemplo.estancia (inicial Ejemplo.cfg)).
    { unfold Ejemplo.estancia, Ejemplo.salir. rewrite Hsal. reflexivity. }
    rewrite <- Hs1. split; [exact Hent|]. split; [exact Hv2|].
    rewrite Hvis. vm_compute in Hv1. inversion Hv1. reflexivity.
Defined.

(** X4. An exit frees a place: when the counter of a type is 0, after the
    first parked vehicle of some plate, of that type, has left, an entry of
    the type is accepted, and it takes the place again. *)
Theorem salida_libera_cupo {Cad : PyStr.Lib} {L : DatetimeLib}
    (s : Parqueadero) (p : string) (now : datetime)
    (pre : list Vehiculo) (v : Vehiculo) (post : list Vehiculo)
    (entrada : datetime) (veh : Vehiculo) :
  vehiculos s = pre ++ v :: post ->
  ~ In (PyStr.upper p) (placas pre) ->
  placa v = PyStr.upper p ->
  strptime (hora_entrada v) = Some entrada ->
  Dict.get (tipo v) (cupos s) 0 = 0 ->
  tipo veh = tipo v ->
  fst (snd (registrar_entrada s veh)) = false
  /\ exists s' registro,
       registrar_salida s p now = Ok (s', Some registro)
       /\ fst (snd (registrar_entrada s' veh)) = true
       /\ Dict.get (tipo v) (cupos (fst (registrar_entrada s' veh))) 0 = 0.
Proof.
  intros Hvs Hpre Hv Hent Hcero Htipo.
  split.
  { unfold registrar_entrada. rewrite Htipo, Hcero. reflexivity. }
  destruct (registrar_salida_primera s p now pre v post entrada Hvs Hpre Hv Hent)
    as (registro & _ & Hsal & _).
  eexists _, registro. split; [exact Hsal|].
  assert (Hc : Dict.get (tipo veh) (cupos (retirar s v registro (pre ++ post))) 0 = 1).
  { unfold retirar.
    cbn [guardar_datos set_archivo set_historial set_cupos set_vehiculos cupos].
    rewrite Htipo, get_set_same, Hcero. reflexivity. }
  rewrite entrada_con_cupo by (rewrite Hc; lia).
  cbn [fst snd guardar_datos set_archivo set_cupos cupos].
  split; [reflexivity|]. rewrite Htipo at 1. rewrite get_set_same, Hc. reflexivity.
Qed.

(** Witness of X4: both car places of [dos] are taken; one car leaves and
    another comes in. *)
Lemma salida_libera_cupo_witness :
  fst (snd (@registrar_entrada PyStr.ascii Ejemplo.dos Ejemplo.abc_mensual)) = false
  /\ exists s' registro,
       @registrar_salida PyStr.ascii Iso.lib Ejemplo.dos "abc123"
         (Ejemplo.t0 + Ejemplo.minutos 10)
       = Ok (s', Some registro)
       /\ fst (snd (@registrar_entrada PyStr.ascii s' Ejemplo.abc_mensual)) = true
       /\ Dict.get "carro" (cupos (fst (@registrar_entrada PyStr.ascii s' Ejemplo.abc_mensual))) 0 = 0.
Proof.
  apply (@salida_libera_cupo PyStr.ascii Iso.lib Ejemplo.dos "abc123"
           (Ejemplo.t0 + Ejemplo.minutos 10) []
           (@actualizar_visitas PyStr.ascii [] Ejemplo.abc)
           [@actualizar_visitas PyStr.ascii [] Ejemplo.abc] Ejemplo.t0 Ejemplo.abc_mensual).
  - reflexivity.
  - simpl. tauto.
  - reflexivity.
  - reflexivity.
  - reflexivity.
  - reflexivity.
Defined.

(** ** What every reachable ledger keeps *)

Lemma hacer_registro_cabal {Cad : PyStr.Lib} {L : DatetimeLib} s v now registro p :
  placa v = PyStr.upper p ->
  hacer_registro s v now = Ok registro ->
  registro_cabal registro.
Proof.
  intros Hp. unfold hacer_registro.
  destruct (strptime (hora_entrada v)) as [entrada|] eqn:E; [|discriminate].
  intros H. inversion H. unfold registro_cabal. cbn.
  split; [unfold horas_facturadas; lia|].
  split; [rewrite Hp; apply PyStr.upper_idem|].
  now exists entrada.
Qed.

Lemma paso_historial {Cad : PyStr.Lib} {L : DatetimeLib} s s' :
  paso s s' ->
  historial s' = historial s
  \/ exists registro,
       historial s' = historial s ++ [registro] /\ registro_cabal registro.
Proof.
  intros [s0 veh | s0 p now s1 r H | s0 op | s0].
  - left. unfold registrar_entrada.
    now destruct (Dict.get (tipo veh) (cupos s0) 0 <=? 0).
  - apply registrar_salida_casos in H.
    destruct H as [(-> & _)
                  | (pre & v & post & registro & _ & _ & Hv & Hreg & -> & _)].
    + now left.
    + right. exists registro. split; [reflexivity|].
      exact (hacer_registro_cabal _ _ _ _ _ Hv Hreg).
  - now left.
  - now left.
Qed.

(** X5. The history only grows at its end: after any run of entries,
    exits, logins and saves, the earlier history is a prefix of the later
    one, and what was added are records with at least one billed hour, an
    upper-case plate and an entry time that reads as a date. *)
Theorem historial_solo_crece {Cad : PyStr.Lib} {L : DatetimeLib} (s s' : Parqueadero) :
  pasos s s' ->
  exists nuevos,
    historial s' = historial s ++ nuevos /\ Forall registro_cabal nuevos.
Proof.
  induction 1 as [s | s s1 s2 _ IH Hpaso].
  - exists []. split; [now rewrite app_nil_r | constructor].
  - destruct IH as (nuevos & Hh & Hcab).
    destruct (paso_historial s1 s2 Hpaso) as [E | (registro & E & Hr)].
    + exists nuevos. split; [congruence | exact Hcab].
    + exists (nuevos ++ [registro]). split.
      * rewrite E, Hh. now rewrite app_assoc.
      * apply Forall_app. split; [exact Hcab | now constructor].
Qed.

(** Witness of X5: one stay of ABC123 adds one record. *)
Lemma historial_solo_crece_witness :
  exists nuevos,
    historial (Ejemplo.estancia (inicial Ejemplo.cfg))
    = historial (inicial Ejemplo.cfg) ++ nuevos
    /\ Forall (@registro_cabal PyStr.ascii Iso.lib) nuevos.
Proof.
  apply (@historial_solo_crece PyStr.ascii Iso.lib (inicial Ejemplo.cfg)
           (Ejemplo.estancia (inicial Ejemplo.cfg))).
  apply pasos_mas with (s' := Ejemplo.uno).
  - apply pasos_mas with (s' := inicial Ejemplo.cfg);
      [apply pasos_nada | apply paso_entrada].
  - apply paso_salida with (p := "abc123") (now := Ejemplo.t0 + Ejemplo.minutos 10)
      (r := Ejemplo.registro_de_salida Ejemplo.uno "abc123"
              (Ejemplo.t0 + Ejemplo.minutos 10)).
    vm_compute. reflexivity.
Defined.

(** The three shapes of a call that returns. *)
Lemma paso_casos {Cad : PyStr.Lib} {L : DatetimeLib} s s' :
  paso s s' ->
  (cupos s' = cupos s /\ vehiculos s' = vehiculos s /\ historial s' = historial s
   /\ (archivo_json s' = archivo_json s \/ archivo_json s' = Documento (payload s')))
  \/ (exists veh,
        0 < Dict.get (tipo veh) (cupos s) 0
        /\ cupos s'
           = Dict.set (tipo veh) (Dict.get (tipo veh) (cupos s) 0 - 1) (cupos s)
        /\ vehiculos s' = vehiculos s ++ [actualizar_visitas (historial s) veh]
        /\ historial s' = historial s
        /\ archivo_json s' = Documento (payload s'))
  \/ (exists pre v post registro,
        vehiculos s = pre ++ v :: post
        /\ cupos s'
           = Dict.set (tipo v) (Dict.get (tipo v) (cupos s) 0 + 1) (cupos s)
        /\ vehiculos s' = pre ++ post
        /\ historial s' = historial s ++ [registro]
        /\ archivo_json s' = Documento (payload s')).
Proof.
  intros [s0 veh | s0 p now s1 r H | s0 op | s0].
  - destruct (Z.leb_spec (Dict.get (tipo veh) (cupos s0) 0) 0) as [Hle | Hlt].
    + left. unfold registrar_entrada.
      destruct (Z.leb_spec (Dict.get (tipo veh) (cupos s0) 0) 0); [|lia].
      cbn. auto.
    + right. left. exists veh. rewrite (entrada_con_cupo s0 veh Hlt).
      cbn. auto.
  - apply registrar_salida_casos in H.
    destruct H as [(-> & _)
                  | (pre & v & post & registro & Hvs & _ & _ & _ & -> & _)].
    + left. auto.
    + right. right. exists pre, v, post, registro. cbn. auto.
  - left. cbn. auto.
  - left. cbn. auto.
Qed.

Lemma ocupados_no_negativo t vs : 0 <= ocupados t vs.
Proof. unfold ocupados. lia. Qed.

(** X6. With a configuration of non-negative capacities, in every
    reachable ledger the counter of each type stays between 0 and the
    configured capacity, and so does the number of parked vehicles of the
    type: the ledger never holds more vehicles of a type than it was
    configured for. *)
Theorem cupos_acotados {Cad : PyStr.Lib} {L : DatetimeLib}
    (cfg : Dict.t Z) (s : Parqueadero) (t : string) :
  Forall (fun kv => 0 <= snd kv) cfg ->
  alcanzable cfg s ->
  0 <= Dict.get t (cupos s) 0 <= Dict.get t cfg 0
  /\ 0 <= ocupados t (vehiculos s) <= Dict.get t cfg 0.
Proof.
  intros Hcfg Hs.
  assert (Hinv : saldo t s = Dict.get t cfg 0 /\ 0 <= Dict.get t (cupos s) 0).
  { induction Hs as [|s s' _ IH Hpaso].
    - split; [unfold saldo, ocupados; cbn; unfold Dict.copy; lia|].
      cbn. unfold Dict.copy, Dict.get.
      induction Hcfg as [|[k v] cfg Hv _ IHc]; cbn; [lia|].
      destruct (String.eqb k t); [exact Hv | exact IHc].
    - destruct IH as [IHs IHc].
      split; [rewrite (paso_saldo t s s' Hpaso); exact IHs|].
      destruct (paso_casos s s' Hpaso)
        as [(-> & _) | [(veh & Hlt & -> & _) | (pre & v & post & r & _ & -> & _)]].
      + exact IHc.
      + destruct (String.eqb_spec (tipo veh) t) as [<- | N].
        * rewrite get_set_same. lia.
        * now rewrite get_set_other.
      + destruct (String.eqb_spec (tipo v) t) as [<- | N].
        * rewrite get_set_same. lia.
        * now rewrite get_set_other. }
  destruct Hinv as [Hsaldo Hc]. unfold saldo in Hsaldo.
  pose proof (ocupados_no_negativo t (vehiculos s)). lia.
Qed.

(** Witness of X6: the car places of [dos]. *)
Lemma cupos_acotados_witness :
  0 <= Dict.get "carro" (cupos Ejemplo.dos) 0 <= 2
  /\ 0 <= ocupados "carro" (vehiculos Ejemplo.dos) <= 2.
Proof.
  apply (@cupos_acotados PyStr.ascii Iso.lib Ejemplo.cfg Ejemplo.dos "carro").
  - repeat constructor; simpl; lia.
  - apply alc_paso with (s := Ejemplo.uno); [| apply paso_entrada].
    apply alc_paso with (s := inicial Ejemplo.cfg); [| apply paso_entrada].
    apply alc_inicial.
Defined.

(** X7. The types of the ledger are those of the configuration, in the
    same order, in every reachable ledger: no call adds, drops or moves a
    key of [cupos], and every parked vehicle has a configured type. *)
Theorem tipos_configurados {Cad : PyStr.Lib} {L : DatetimeLib}
    (cfg : Dict.t Z) (s : Parqueadero) :
  alcanzable cfg s ->
  Dict.keys (cupos s) = Dict.keys cfg
  /\ Forall (fun v => In (tipo v) (Dict.keys cfg)) (vehiculos s).
Proof.
  induction 1 as [|s s' _ [IHk IHv] Hpaso]; [split; [reflexivity | constructor]|].
  assert (Hset : forall t n, In t (Dict.keys (cupos s)) ->
                        Dict.keys (Dict.set t n (cupos s)) = Dict.keys cfg).
  { intros t n Hin. destruct (keys_set t n (cupos s)) as [E | [Hno _]];
      [congruence | contradiction]. }
  destruct (paso_casos s s' Hpaso)
    as [(-> & -> & _)
       | [(veh & Hlt & -> & -> & _) | (pre & v & post & r & Hvs & -> & -> & _)]].
  - now split.
  - assert (Hin : In (tipo veh) (Dict.keys (cupos s)))
      by (eapply find_en_claves; exact (find_get_positivo _ _ Hlt)).
    split; [now apply Hset|].
    apply Forall_app. split; [exact IHv|]. constructor; [|constructor].
    rewrite actualizar_visitas_tipo. now rewrite <- IHk.
  - rewrite Hvs in IHv. apply Forall_app in IHv. destruct IHv as [Hpre Hpost].
    inversion Hpost as [|? ? Hv Hpost']; subst.
    split; [apply Hset; now rewrite IHk|].
    apply Forall_app. now split.
Qed.

(** Witness of X7: the types of [mixto]. *)
Lemma tipos_configurados_witness :
  Dict.keys (cupos Ejemplo.mixto) = ["carro"; "moto"]
  /\ Forall (fun v => In (tipo v) ["carro"; "moto"]) (vehiculos Ejemplo.mixto).
Proof.
  apply (@tipos_configurados PyStr.ascii Iso.lib Ejemplo.cfg Ejemplo.mixto).
  apply alc_paso with (s := fst (@registrar_entrada PyStr.ascii Ejemplo.uno Ejemplo.xyz));
    [| apply paso_login].
  apply alc_paso with (s := Ejemplo.uno); [| apply paso_entrada].
  apply alc_paso with (s := inicial Ejemplo.cfg); [| apply paso_entrada].
  apply alc_inicial.
Defined.

Lemma actualizar_visitas_frecuente {Cad : PyStr.Lib} h veh :
  5 <= visitas (actualizar_visitas h veh) ->
  cliente (actualizar_visitas h veh) = "frecuente".
Proof.
  unfold actualizar_visitas. cbn [set_visitas visitas].
  destruct (Z.leb_spec 5 (visitas_previas (placa veh) h + 1)); cbn; [reflexivity | lia].
Qed.

(** X8. In every reachable ledger each parked vehicle has at least one
    visit and at most one more than the history holds records of its plate,
    and a parked vehicle with five visits or more has the tier frecuente. *)
Theorem visitas_de_estacionados {Cad : PyStr.Lib} {L : DatetimeLib}
    (cfg : Dict.t Z) (s : Parqueadero) :
  alcanzable cfg s ->
  Forall (fun v =>
            1 <= visitas v <= 1 + registros_de (placa v) (historial s)
            /\ (5 <= visitas v -> cliente v = "frecuente"))
    (vehiculos s).
Proof.
  induction 1 as [|s s' _ IH Hpaso]; [constructor|].
  destruct (paso_casos s s' Hpaso)
    as [(_ & -> & -> & _)
       | [(veh & _ & _ & -> & -> & _) | (pre & v & post & r & Hvs & _ & -> & -> & _)]].
  - exact IH.
  - apply Forall_app. split; [exact IH|]. constructor; [|constructor].
    destruct (actualizar_visitas_campos (historial s) veh) as (_ & _ & _ & Hvis).
    rewrite actualizar_visitas_placa. split.
    + rewrite Hvis. pose proof (registros_de_no_negativo (placa veh) (historial s)). lia.
    + apply actualizar_visitas_frecuente.
  - rewrite Hvs in IH. apply Forall_app in IH. destruct IH as [Hpre Hpost].
    inversion Hpost as [|? ? _ Hpost']; subst.
    apply Forall_app. split; [revert Hpre | revert Hpost'];
      apply Forall_impl; intros w [[H1 H2] H3];
      (split; [|exact H3]); rewrite registros_de_app;
      pose proof (registros_de_no_negativo (placa w) [r]); lia.
Qed.

(** Witness of X8: the vehicles of [mixto]. *)
Lemma visitas_de_estacionados_witness :
  Forall (fun v =>
            1 <= visitas v <= 1 + @registros_de PyStr.ascii (placa v) (historial Ejemplo.mixto)
            /\ (5 <= visitas v -> cliente v = "frecuente"))
    (vehiculos Ejemplo.mixto).
Proof.
  apply (@visitas_de_estacionados PyStr.ascii Iso.lib Ejemplo.cfg Ejemplo.mixto).
  apply alc_paso with (s := fst (@registrar_entrada PyStr.ascii Ejemplo.uno Ejemplo.xyz));
    [| apply paso_login].
  apply alc_paso with (s := Ejemplo.uno); [| apply paso_entrada].
  apply alc_paso with (s := inicial Ejemplo.cfg); [| apply paso_entrada].
  apply alc_inicial.
Defined.

(** ** The file behind the ledger *)

Lemma payload_campos s s' :
  cupos s' = cupos s -> vehiculos s' = vehiculos s -> historial s' = historial s ->
  payload s' = payload s.
Proof. intros Hc Hv Hh. unfold payload. now rewrite Hc, Hv, Hh. Qed.

(** The file of a reachable ledger: absent while nothing was written, and
    then the payload of the ledger. *)
Lemma alcanzable_archivo {Cad : PyStr.Lib} {L : DatetimeLib} cfg s :
  alcanzable cfg s ->
  (archivo_json s = NoExiste
   /\ cupos s = cfg /\ vehiculos s = [] /\ historial s = [])
  \/ archivo_json s = Documento (payload s).
Proof.
  induction 1 as [|s s' _ IH Hpaso]; [left; cbn; auto|].
  destruct (paso_casos s s' Hpaso)
    as [(Hc & Hv & Hh & [Ha | Ha])
       | [(veh & _ & _ & _ & _ & Ha) | (pre & v & post & r & _ & _ & _ & _ & Ha)]];
    try (right; exact Ha).
  destruct IH as [(Hn & Hc0 & Hv0 & Hh0) | Hdoc].
  - left. rewrite Ha, Hc, Hv, Hh. auto.
  - right. rewrite Ha, Hdoc. f_equal. symmetry. now apply payload_campos.
Qed.

(** X9. A restart loses nothing: for a reachable ledger whose vehicles are
    as [Vehiculo.__init__] leaves them, a new [Parqueadero] of the same
    configuration on the ledger's file starts with the same counters, the
    same parked vehicles and the same history; once the file exists, the
    configuration handed to the constructor does not matter. *)
Theorem reinicio_conserva {Cad : PyStr.Lib} {L : DatetimeLib}
    (reloj : nat -> datetime) (cfg : Dict.t Z) (s : Parqueadero) :
  alcanzable cfg s ->
  Forall normalizado (vehiculos s) ->
  (exists s',
     Parqueadero_init reloj cfg (archivo_json s) = Some s'
     /\ cupos s' = cupos s /\ vehiculos s' = vehiculos s
     /\ historial s' = historial s)
  /\ (archivo_json s <> NoExiste ->
      forall cfg',
      exists s',
        Parqueadero_init reloj cfg' (archivo_json s) = Some s'
        /\ cupos s' = cupos s /\ vehiculos s' = vehiculos s
        /\ historial s' = historial s).
Proof.
  intros Hs Hn.
  assert (Hdoc : archivo_json s = Documento (payload s) ->
                 forall cfg',
                 exists s',
                   Parqueadero_init reloj cfg' (archivo_json s) = Some s'
                   /\ cupos s' = cupos s /\ vehiculos s' = vehiculos s
                   /\ historial s' = historial s).
  { intros Ha cfg'. rewrite Ha.
    change (Documento (payload s)) with (archivo_json (guardar_datos s)).
    rewrite (Parqueadero_init_tras_guardar reloj cfg' s Hn).
    eexists. split; [reflexivity|]. cbn. auto. }
  destruct (alcanzable_archivo cfg s Hs) as [(Ha & Hc & Hv & Hh) | Ha].
  - split; [|intros Hne; contradiction].
    rewrite Ha, Parqueadero_init_sin_archivo.
    eexists. split; [reflexivity|]. cbn.
    unfold Dict.copy. now rewrite Hc, Hv, Hh.
  - split; [exact (Hdoc Ha cfg) | intros _; exact (Hdoc Ha)].
Qed.

(** Witness of X9: a ledger with a parked car and a record, restarted with
    another configuration. *)
Lemma reinicio_conserva_witness :
  exists s',
    @Parqueadero_init PyStr.ascii Iso.lib (fun _ => Ejemplo.t0) [("carro", 50)]
      (archivo_json Ejemplo.con_historial) = Some s'
    /\ cupos s' = [("carro", 1); ("moto", 1)]
    /\ vehiculos s' = vehiculos Ejemplo.con_historial
    /\ historial s' = historial Ejemplo.con_historial.
Proof.
  destruct (@reinicio_conserva PyStr.ascii Iso.lib (fun _ => Ejemplo.t0)
              Ejemplo.cfg Ejemplo.con_historial) as [_ H].
  - apply alc_paso with (s := Ejemplo.mixto).
    + apply alc_paso
        with (s := fst (@registrar_entrada PyStr.ascii Ejemplo.uno Ejemplo.xyz));
        [| apply paso_login].
      apply alc_paso with (s := Ejemplo.uno); [| apply paso_entrada].
      apply alc_paso with (s := inicial Ejemplo.cfg); [| apply paso_entrada].
      apply alc_inicial.
    + apply paso_salida with (p := "xyz9") (now := Ejemplo.t0 + Ejemplo.minutos 185)
        (r := Ejemplo.registro_de_salida Ejemplo.mixto "xyz9"
                (Ejemplo.t0 + Ejemplo.minutos 185)).
      vm_compute. reflexivity.
  - repeat constructor; discriminate.
  - exact (H ltac:(discriminate) [("carro", 50)]).
Defined.

(** ** Loading *)

Lemma from_dict_ilegible {Cad : PyStr.Lib} {L : DatetimeLib} now d :
  ilegible_como_vehiculo d -> from_dict now d = Lanza AttributeError.
Proof.
  destruct d as [| | | | | | o]; cbn; try reflexivity.
  unfold Dict.get. destruct (Dict.find "placa" o) as [[| | | | | | ]|];
    cbn; intros H; try reflexivity; contradiction.
Qed.

(** An entry that raises is reached whatever stands before it. *)
Lemma from_dicts_ilegible {Cad : PyStr.Lib} {L : DatetimeLib} reloj i l d :
  In d l -> ilegible_como_vehiculo d ->
  exists e, from_dicts reloj i l = Lanza e.
Proof.
  intros Hin Hd. revert i. induction l as [|a l IH]; intros i; [destruct Hin|].
  cbn [from_dicts]. destruct Hin as [-> | Hin].
  - rewrite (from_dict_ilegible _ d Hd). now exists AttributeError.
  - destruct (IH Hin (S i)) as [e He]. rewrite He.
    destruct (from_dict (reloj i) a) as [v|e'|]; cbn [seguir];
      [now exists e | now exists e' | now exists e].
Qed.

(** X10. A file whose vehicle list holds an entry that is no dict, or one
    whose plate is no string, is reported as an error after the counters
    were already replaced: the ledger ends with the counters of the file
    and with the vehicles and the history it had before the call. *)
Theorem carga_a_medias {Cad : PyStr.Lib} {L : DatetimeLib}
    (reloj : nat -> datetime) (s : Parqueadero)
    (o : Dict.t json) (c : Dict.t Z) (l : list json) (d : json) :
  archivo_json s = Documento (JObj o) ->
  Dict.find "cupos" o = Some (json_of_cupos c) ->
  Dict.find "vehiculos" o = Some (JList l) ->
  In d l ->
  ilegible_como_vehiculo d ->
  exists e s',
    cargar_datos reloj s = Some (s', Some e)
    /\ s' = set_cupos c s
    /\ vehiculos s' = vehiculos s
    /\ historial s' = historial s
    /\ cupos s' = c.
Proof.
  intros Ha Hc Hv Hin Hd.
  destruct (from_dicts_ilegible reloj 0 l d Hin Hd) as [e He].
  exists e, (set_cupos c s).
  split; [|cbn; auto].
  unfold cargar_datos. rewrite Ha. unfold cargar_cupos, cargar_vehiculos.
  rewrite Hc, cupos_ida_y_vuelta, Hv, He. reflexivity.
Qed.

(** Witness of X10: the second vehicle of the file has the number 5 for a
    plate; the ledger [uno] takes the seven car places of the file and
    keeps its own parked car. *)
Lemma carga_a_medias_witness :
  exists e s',
    @cargar_datos PyStr.ascii Iso.lib (fun _ => Ejemplo.t0)
      (set_archivo (Documento Casos.doc_placa_numerica) Ejemplo.uno)
    = Some (s', Some e)
    /\ s' = set_cupos [("carro", 7)]
              (set_archivo (Documento Casos.doc_placa_numerica) Ejemplo.uno)
    /\ vehiculos s' = vehiculos Ejemplo.uno.
Proof.
  destruct (@carga_a_medias PyStr.ascii Iso.lib (fun _ => Ejemplo.t0)
              (set_archivo (Documento Casos.doc_placa_numerica) Ejemplo.uno)
              [ ("cupos", JObj [("carro", JInt 7)]);
                ("vehiculos", JList [to_dict Ejemplo.abc; JObj [("placa", JInt 5)]]);
                ("historial", JList []) ]
              [("carro", 7)]
              [to_dict Ejemplo.abc; JObj [("placa", JInt 5)]]
              (JObj [("placa", JInt 5)]))
    as (e & s' & E & Hs' & Hv & _).
  - reflexivity.
  - reflexivity.
  - reflexivity.
  - simpl. right. left. reflexivity.
  - exact I.
  - exists e, s'. split; [exact E|]. split; [exact Hs' | exact Hv].
Defined.

Lemma from_dict_partes {Cad : PyStr.Lib} {L : DatetimeLib} now o v :
  from_dict now (JObj o) = Leido v ->
  exists p t he c n la lo,
    como_str (Dict.get "placa" o (JStr "")) = Leido p
    /\ como_str (Dict.get "tipo" o (JStr "")) = Leido t
    /\ hora_de_json (Dict.get "hora_entrada" o JNull) = Leido he
    /\ como_str (Dict.get "cliente" o (JStr "normal")) = Leido c
    /\ como_int (Dict.get "visitas" o (JInt 0)) = Leido n
    /\ como_coord (Dict.get "lat" o JNull) = Leido la
    /\ como_coord (Dict.get "lon" o JNull) = Leido lo
    /\ v = Vehiculo_init now p t he c n la lo.
Proof.
  unfold from_dict. cbv zeta.
  destruct (como_str (Dict.get "placa" o (JStr ""))) as [p| |]; try discriminate.
  destruct (como_str (Dict.get "tipo" o (JStr ""))) as [t| |]; try discriminate.
  destruct (como_str (Dict.get "cliente" o (JStr "normal"))) as [c| |];
    try discriminate.
  destruct (hora_de_json (Dict.get "hora_entrada" o JNull)) as [he| |];
    try discriminate.
  destruct (como_int (Dict.get "visitas" o (JInt 0))) as [n| |]; try discriminate.
  destruct (como_coord (Dict.get "lat" o JNull)) as [la| |]; try discriminate.
  destruct (como_coord (Dict.get "lon" o JNull)) as [lo| |]; try discriminate.
  cbn [seguir]. intros H. inversion H.
  exists p, t, he, c, n, la, lo. auto 10.
Qed.

Lemma from_dict_normalizado {Cad : PyStr.Lib} {L : DatetimeLib} now d v :
  strftime now <> "" ->
  from_dict now d = Leido v -> normalizado v.
Proof.
  intros Hst H. destruct d as [| | | | | | o]; try discriminate.
  apply from_dict_partes in H.
  destruct H as (p & t & he & c & n & la & lo & _ & _ & _ & _ & _ & _ & _ & ->).
  now apply Vehiculo_init_normalizado.
Qed.

Lemma from_dicts_normalizados {Cad : PyStr.Lib} {L : DatetimeLib} reloj i l vs :
  (forall t, strftime t <> "") ->
  from_dicts reloj i l = Leido vs -> Forall normalizado vs.
Proof.
  intros Hst. revert i vs. induction l as [|d l IH]; intros i vs; cbn [from_dicts].
  - intros H. inversion H. constructor.
  - destruct (from_dict (reloj i) d) as [v| |] eqn:Ev; try discriminate.
    + destruct (from_dicts reloj (S i) l) as [vs'| |] eqn:Evs; try discriminate.
      cbn [seguir]. intros H. inversion H. constructor.
      * exact (from_dict_normalizado _ _ _ (Hst _) Ev).
      * exact (IH _ _ Evs).
    + destruct (from_dicts reloj (S i) l); discriminate.
Qed.

(** X11. When a file whose values have the types the ledger writes was
    loaded without an error, the vehicles it gave are as
    [Vehiculo.__init__] leaves them (upper-case plate, lower-case type and
    tier, an entry time), so the loaded ledger written back and loaded
    again is the same ledger.  [strftime] never gives the empty string. *)
Theorem carga_estable {Cad : PyStr.Lib} {L : DatetimeLib}
    (reloj reloj' : nat -> datetime) (s s' : Parqueadero) :
  (forall t, strftime t <> "") ->
  archivo_json s <> NoExiste ->
  cargar_datos reloj s = Some (s', None) ->
  Forall normalizado (vehiculos s')
  /\ cargar_datos reloj' (guardar_datos s') = Some (guardar_datos s', None).
Proof.
  intros Hst Hne Hcarga.
  assert (Hn : Forall normalizado (vehiculos s')).
  { unfold cargar_datos in Hcarga.
    destruct (archivo_json s) as [| |j]; [contradiction | discriminate |].
    destruct j as [| | | | | | o]; try discriminate.
    destruct (cargar_cupos s o) as [c| |]; try discriminate.
    destruct (cargar_vehiculos reloj o) as [vs| |] eqn:Evs; try discriminate.
    destruct (cargar_historial o) as [h| |]; try discriminate.
    inversion Hcarga. cbn.
    unfold cargar_vehiculos in Evs.
    destruct (Dict.find "vehiculos" o) as [[| | | |[|]|l|[|]]|];
      try discriminate; try (inversion Evs; constructor).
    exact (from_dicts_normalizados _ _ _ _ Hst Evs). }
  split; [exact Hn|].
  unfold guardar_datos. rewrite (cargar_documento_guardado reloj' s' s' Hn).
  reflexivity.
Qed.

(** Witness of X11: the file names one vehicle by its plate alone. *)
Lemma carga_estable_witness :
  exists s',
    @cargar_datos PyStr.ascii Iso.lib (fun _ => Ejemplo.t0)
      (set_archivo (Documento Casos.doc_solo_placa) (inicial Ejemplo.cfg))
    = Some (s', None)
    /\ Forall (@normalizado PyStr.ascii) (vehiculos s')
    /\ @cargar_datos PyStr.ascii Iso.lib (fun _ => 0) (guardar_datos s')
       = Some (guardar_datos s', None).
Proof.
  eexists. split; [vm_compute; reflexivity|].
  apply (@carga_estable PyStr.ascii Iso.lib (fun _ => Ejemplo.t0) (fun _ => 0)
           (set_archivo (Documento Casos.doc_solo_placa) (inicial Ejemplo.cfg))).
  - exact iso_strftime_no_vacia.
  - discriminate.
  - vm_compute. reflexivity.
Defined.

(** X12. What [from_dict] fills in: a missing plate or type is the empty
    string, a missing tier is normal, missing visits are 0, missing
    coordinates are absent, and an entry time that is missing, null or
    empty is the clock reading of the call; a plate that is given is stored
    in upper case, a type and a tier in lower case.  The vehicle read is
    one that [to_dict] and [from_dict] give back unchanged, at any later
    clock reading. *)
Theorem from_dict_omisiones {Cad : PyStr.Lib} {L : DatetimeLib}
    (now : datetime) (o : Dict.t json) (v : Vehiculo) :
  from_dict now (JObj o) = Leido v ->
  (Dict.find "placa" o = None -> placa v = "")
  /\ (Dict.find "tipo" o = None -> tipo v = "")
  /\ (Dict.find "cliente" o = None -> cliente v = "normal")
  /\ (Dict.find "visitas" o = None -> visitas v = 0)
  /\ (Dict.find "lat" o = None -> lat v = None)
  /\ (Dict.find "lon" o = None -> lon v = None)
  /\ (Dict.find "hora_entrada" o = None
      \/ Dict.find "hora_entrada" o = Some JNull
      \/ Dict.find "hora_entrada" o = Some (JStr "") ->
      hora_entrada v = strftime now)
  /\ (forall p, Dict.find "placa" o = Some (JStr p) -> placa v = PyStr.upper p)
  /\ (forall t, Dict.find "tipo" o = Some (JStr t) -> tipo v = PyStr.lower t)
  /\ (forall c, Dict.find "cliente" o = Some (JStr c) -> cliente v = PyStr.lower c)
  /\ (strftime now <> "" ->
      forall now', from_dict now' (to_dict v) = Leido v).
Proof.
  intros H.
  assert (Hida : strftime now <> "" ->
                 forall now', from_dict now' (to_dict v) = Leido v).
  { intros Hst now'. apply vehiculo_ida_y_vuelta.
    exact (from_dict_normalizado now (JObj o) v Hst H). }
  apply from_dict_partes in H.
  destruct H as (p & t & he & c & n & la & lo & Ep & Et & Eh & Ec & En & Ela & Elo & ->).
  unfold Dict.get in *.
  cbn [Vehiculo_init placa tipo cliente visitas lat lon hora_entrada].
  split; [intros Hf; rewrite Hf in Ep; inversion Ep; apply upper_vacia|].
  split; [intros Hf; rewrite Hf in Et; inversion Et; apply lower_vacia|].
  split; [intros Hf; rewrite Hf in Ec; inversion Ec; apply lower_normal|].
  split; [intros Hf; rewrite Hf in En; inversion En; reflexivity|].
  split; [intros Hf; rewrite Hf in Ela; inversion Ela; reflexivity|].
  split; [intros Hf; rewrite Hf in Elo; inversion Elo; reflexivity|].
  split; [intros [Hf | [Hf | Hf]]; rewrite Hf in Eh; inversion Eh; reflexivity|].
  split; [intros q Hf; rewrite Hf in Ep; inversion Ep; reflexivity|].
  split; [intros q Hf; rewrite Hf in Et; inversion Et; reflexivity|].
  split; [intros q Hf; rewrite Hf in Ec; inversion Ec; reflexivity|].
  exact Hida.
Qed.

(** Witness of X12: a vehicle given by its plate alone. *)
Lemma from_dict_omisiones_witness :
  @from_dict PyStr.ascii Iso.lib Ejemplo.t0 (JObj [("placa", JStr "qrs77")])
  = Leido (mkVehiculo "QRS77" "" "2024-03-01 10:00:00" "normal" 0 None None).
Proof.
  destruct (@from_dict PyStr.ascii Iso.lib Ejemplo.t0
              (JObj [("placa", JStr "qrs77")]))
    as [v|e|] eqn:E; [|discriminate E|discriminate E].
  destruct (@from_dict_omisiones PyStr.ascii Iso.lib Ejemplo.t0
              [("placa", JStr "qrs77")] v E)
    as (_ & Ht & Hc & Hn & Hla & Hlo & Hh & Hp & _).
  destruct v as [p t h c n la lo]. cbn in *.
  rewrite (Ht eq_refl), (Hc eq_refl), (Hn eq_refl), (Hla eq_refl), (Hlo eq_refl),
    (Hh (or_introl eq_refl)), (Hp "qrs77" eq_refl).
  reflexivity.
Defined.

(** ** Entry times that are no dates *)

(** X13. When the first parked vehicle with the plate has an entry time
    that [strptime] refuses, [registrar_salida] raises [ValueError] and
    changes nothing; a later vehicle with the same plate is not tried, so
    neither of them can leave. *)
Theorem salida_fecha_ilegible {Cad : PyStr.Lib} {L : DatetimeLib}
    (s : Parqueadero) (p : string) (now : datetime)
    (pre : list Vehiculo) (v : Vehiculo) (post : list Vehiculo) :
  vehiculos s = pre ++ v :: post ->
  ~ In (PyStr.upper p) (placas pre) ->
  placa v = PyStr.upper p ->
  strptime (hora_entrada v) = None ->
  registrar_salida s p now = Raise ValueError.
Proof.
  intros Hvs Hpre Hv Hent. unfold registrar_salida.
  rewrite Hvs, (salida_bucle_presente _ _ _ _ _ _ _ Hpre Hv).
  unfold hacer_registro. rewrite Hent. reflexivity.
Qed.

(** Witness of X13: a car that came in with the entry time ayer, followed
    by one with the same plate and a proper entry time. *)
Lemma salida_fecha_ilegible_witness :
  @registrar_salida PyStr.ascii Iso.lib
    (fst (@registrar_entrada PyStr.ascii
            (fst (@registrar_entrada PyStr.ascii (inicial Ejemplo.cfg) Casos.sin_fecha))
            Ejemplo.abc))
    "abc123" Ejemplo.t0
  = Raise ValueError.
Proof.
  apply (@salida_fecha_ilegible PyStr.ascii Iso.lib _ "abc123" Ejemplo.t0 []
           (@actualizar_visitas PyStr.ascii [] Casos.sin_fecha)
           [@actualizar_visitas PyStr.ascii [] Ejemplo.abc]).
  - reflexivity.
  - simpl. tauto.
  - reflexivity.
  - reflexivity.
Defined.

Lemma alertas_vehiculos_falla {L : DatetimeLib} reloj i vs alerts :
  (exists v, In v vs /\ strptime (hora_entrada v) = None) ->
  alertas_vehiculos reloj i vs alerts = Raise ValueError.
Proof.
  intros (v & Hin & Hv). revert i alerts.
  induction vs as [|w vs IH]; intros i alerts; [destruct Hin|].
  cbn [alertas_vehiculos]. destruct Hin as [-> | Hin].
  - now rewrite Hv.
  - destruct (strptime (hora_entrada w)); [apply IH; exact Hin | reflexivity].
Qed.

Lemma fechados_o_no {L : DatetimeLib} vs :
  Forall fechado vs \/ exists v, In v vs /\ strptime (hora_entrada v) = None.
Proof.
  induction vs as [|w vs [IH | (v & Hin & Hv)]].
  - left. constructor.
  - destruct (strptime (hora_entrada w)) as [e|] eqn:E.
    + left. constructor; [now exists e | exact IH].
    + right. exists w. split; [now left | exact E].
  - right. exists v. split; [now right | exact Hv].
Qed.

(** X14. [alertas] raises [ValueError] exactly when some parked vehicle has
    an entry time that [strptime] refuses, wherever it stands in the list;
    then no alert is returned at all, the low-capacity ones included. *)
Theorem alertas_fecha_ilegible {L : DatetimeLib}
    (s : Parqueadero) (reloj : nat -> datetime) :
  (exists v, In v (vehiculos s) /\ strptime (hora_entrada v) = None)
  <-> alertas s reloj = Raise ValueError.
Proof.
  split.
  - intros H. unfold alertas.
    now rewrite (alertas_vehiculos_falla reloj 0 (vehiculos s) [] H).
  - intros H. destruct (fechados_o_no (vehiculos s)) as [Hf | Hno]; [|exact Hno].
    unfold alertas in H.
    rewrite (alertas_vehiculos_lista reloj 0 _ [] Hf) in H. discriminate H.
Qed.

(** Witness of X14: the ledger with one free car place whose only vehicle
    came in with the entry time ayer. *)
Lemma alertas_fecha_ilegible_witness :
  @alertas Iso.lib (fst (@registrar_entrada PyStr.ascii (inicial Ejemplo.cfg) Casos.sin_fecha))
    (fun _ => Ejemplo.t0)
  = Raise ValueError.
Proof.
  apply (@alertas_fecha_ilegible Iso.lib
           (fst (@registrar_entrada PyStr.ascii (inicial Ejemplo.cfg) Casos.sin_fecha))
           (fun _ => Ejemplo.t0)).
  exists (@actualizar_visitas PyStr.ascii [] Casos.sin_fecha).
  split; [left; reflexivity | reflexivity].
Defined.

(** ** The occupancy chart *)

Lemma serie_bucle_cuenta t vs d :
  Dict.get t (serie_bucle (map tipo vs) d) 0 = Dict.get t d 0 + ocupados t vs.
Proof.
  revert d. induction vs as [|v vs IH]; intros d; cbn [map serie_bucle].
  - unfold ocupados. cbn. lia.
  - rewrite IH, ocupados_cons.
    destruct (String.eqb_spec (tipo v) t) as [<- | N].
    + rewrite get_set_same. lia.
    + rewrite get_set_other by exact N. lia.
Qed.

Lemma serie_bucle_claves_distintas ts d :
  NoDup (Dict.keys d) -> NoDup (Dict.keys (serie_bucle ts d)).
Proof.
  revert d. induction ts as [|t ts IH]; intros d H; cbn [serie_bucle]; [exact H|].
  apply IH. now apply set_claves_distintas.
Qed.

Lemma claves_set_iff {V} k (v : V) d t :
  In t (Dict.keys (Dict.set k v d)) <-> t = k \/ In t (Dict.keys d).
Proof.
  unfold Dict.keys. induction d as [|[k' v'] d IH]; cbn [Dict.set].
  - cbn. intuition.
  - destruct (String.eqb_spec k' k) as [-> | N]; cbn [map fst In].
    + intuition.
    + rewrite IH. intuition.
Qed.

Lemma serie_bucle_claves t vs d :
  In t (Dict.keys (serie_bucle (map tipo vs) d))
  <-> In t (Dict.keys d) \/ exists v, In v vs /\ tipo v = t.
Proof.
  revert d. induction vs as [|w vs IH]; intros d; cbn [map serie_bucle].
  - split; [now left|]. intros [H | (v & [] & _)]. exact H.
  - rewrite IH, claves_set_iff. split.
    + intros [[-> | H] | (v & Hin & Hv)].
      * right. exists w. split; [now left | reflexivity].
      * now left.
      * right. exists v. split; [now right | exact Hv].
    + intros [H | (v & [-> | Hin] & Hv)].
      * left. now right.
      * left. left. now symmetry.
      * right. now exists v.
Qed.

Lemma combine_claves_valores (d : Dict.t Z) : combine (Dict.keys d) (map snd d) = d.
Proof.
  unfold Dict.keys. induction d as [|[k v] d IH]; cbn; [reflexivity|].
  now rewrite IH.
Qed.

(** X15. [graficar_ocupacion] draws only when matplotlib is there and some
    vehicle is parked; the bars then carry each parked type once, with the
    number of parked vehicles of the type as its value. *)
Theorem grafico_cuenta_por_tipo (s : Parqueadero) :
  vehiculos s <> [] ->
  graficar_ocupacion false s = None
  /\ exists labels values,
       graficar_ocupacion true s = Some (labels, values)
       /\ NoDup labels
       /\ List.length labels = List.length values
       /\ (forall t, Dict.get t (combine labels values) 0
                     = ocupados t (vehiculos s))
       /\ (forall t, In t labels <-> exists v, In v (vehiculos s) /\ tipo v = t).
Proof.
  intros Hne. split; [reflexivity|].
  unfold graficar_ocupacion. cbn [negb].
  destruct (vehiculos s) as [|v0 vs] eqn:E; [contradiction|].
  cbn [map]. rewrite <- E.
  change (tipo v0 :: map tipo vs) with (map tipo (v0 :: vs)). rewrite <- E.
  eexists _, _. split; [reflexivity|].
  split; [apply serie_bucle_claves_distintas; constructor|].
  split; [unfold Dict.keys; now rewrite !length_map|].
  split.
  - intros t. rewrite combine_claves_valores, serie_bucle_cuenta. reflexivity.
  - intros t. rewrite serie_bucle_claves. cbn. intuition.
Qed.

(** Witness of X15: the two cars of [dos]. *)
Lemma grafico_cuenta_por_tipo_witness :
  graficar_ocupacion false Ejemplo.dos = None
  /\ exists labels values,
       graficar_ocupacion true Ejemplo.dos = Some (labels, values)
       /\ NoDup labels
       /\ List.length labels = List.length values
       /\ (forall t, Dict.get t (combine labels values) 0
                     = ocupados t (vehiculos Ejemplo.dos))
       /\ (forall t, In t labels
                     <-> exists v, In v (vehiculos Ejemplo.dos) /\ tipo v = t).
Proof.
  apply (grafico_cuenta_por_tipo Ejemplo.dos). discriminate.
Defined.

Example grafico_de_dos_y_mixto :
  graficar_ocupacion true Ejemplo.dos = Some (["carro"], [2])
  /\ graficar_ocupacion true Ejemplo.mixto = Some (["carro"; "moto"], [1; 1])
  /\ graficar_ocupacion true (inicial Ejemplo.cfg) = None.
Proof. repeat split. Qed.

(** ** The map of a plate *)

Lemma vehiculo_de_placa_ausente p vs :
  ~ In p (placas vs) -> vehiculo_de_placa p vs = None.
Proof.
  unfold vehiculo_de_placa. induction vs as [|v vs IH]; intros H; [reflexivity|].
  cbn in *. destruct (String.eqb_spec (placa v) p) as [E | N].
  - exfalso. apply H. now left.
  - apply IH. intros Hin. apply H. now right.
Qed.

Lemma vehiculo_de_placa_primero p pre v post :
  ~ In p (placas pre) -> placa v = p ->
  vehiculo_de_placa p (pre ++ v :: post) = Some v.
Proof.
  unfold vehiculo_de_placa. induction pre as [|w pre IH]; intros H Hv; cbn.
  - rewrite Hv, String.eqb_refl. reflexivity.
  - cbn in H. destruct (String.eqb_spec (placa w) p) as [E | N].
    + exfalso. apply H. now left.
    + apply IH; [|exact Hv]. intros Hin. apply H. now right.
Qed.

Lemma ultimo_registro_final {Cad : PyStr.Lib} p h r :
  PyStr.upper (reg_placa r) = p -> ultimo_registro p (h ++ [r]) = Some r.
Proof.
  intros H. unfold ultimo_registro. rewrite rev_app_distr. cbn.
  now rewrite H, String.eqb_refl.
Qed.

(** X16. The map of a plate after its only parked vehicle has left shows
    the coordinates that vehicle had, marked as last known, whatever
    earlier records of the plate say; when that vehicle had no coordinates
    no map is drawn, even if an earlier record of the plate has some.  The
    call answers [True] only when folium is there and the page could be
    written. *)
Theorem mapa_tras_salida {Cad : PyStr.Lib} {L : DatetimeLib}
    (s : Parqueadero) (p : string) (now : datetime)
    (pre : list Vehiculo) (v : Vehiculo) (post : list Vehiculo)
    (entrada : datetime) (folium guardado : bool) :
  vehiculos s = pre ++ v :: post ->
  ~ In (PyStr.upper p) (placas pre) ->
  ~ In (PyStr.upper p) (placas post) ->
  placa v = PyStr.upper p ->
  strptime (hora_entrada v) = Some entrada ->
  exists s' registro,
    registrar_salida s p now = Ok (s', Some registro)
    /\ ubicar_placa s' p
       = match lat v, lon v with
         | Some la, Some lo => Marcador la lo (etiqueta_ultima (PyStr.upper p))
         | _, _ => SinUbicacionConocida
         end
    /\ generar_mapa_para_placa folium guardado s' p
       = match lat v, lon v with
         | Some _, Some _ => folium && guardado
         | _, _ => false
         end.
Proof.
  intros Hvs Hpre Hpost Hv Hent.
  destruct (registrar_salida_primera s p now pre v post entrada Hvs Hpre Hv Hent)
    as (registro & Hreg & Hsal & _).
  eexists _, registro. split; [exact Hsal|].
  assert (Hu : ubicar_placa (retirar s v registro (pre ++ post)) p
               = match lat v, lon v with
                 | Some la, Some lo => Marcador la lo (etiqueta_ultima (PyStr.upper p))
                 | _, _ => SinUbicacionConocida
                 end).
  { unfold ubicar_placa, retirar.
    cbn [guardar_datos set_archivo set_historial set_cupos set_vehiculos
           vehiculos historial].
    rewrite vehiculo_de_placa_ausente.
    2:{ unfold placas. rewrite map_app, in_app_iff. intros [H | H]; auto. }
    rewrite (hacer_registro_fechado s v now entrada Hent) in Hreg.
    inversion Hreg as [Hr].
    rewrite ultimo_registro_final by (cbn; rewrite Hv; apply PyStr.upper_idem).
    cbn [reg_lat reg_lon]. reflexivity. }
  split; [exact Hu|].
  unfold generar_mapa_para_placa. rewrite Hu.
  destruct (lat v), (lon v); reflexivity.
Qed.

(** Witness of X16: XYZ9 has left [mixto]; its map shows where it was. *)
Lemma mapa_tras_salida_witness :
  exists s' registro,
    @registrar_salida PyStr.ascii Iso.lib Ejemplo.mixto "xyz9"
      (Ejemplo.t0 + Ejemplo.minutos 185)
    = Ok (s', Some registro)
    /\ @ubicar_placa PyStr.ascii s' "xyz9"
       = Marcador (Flotante 0x1.9116872b020c5p+2%float)
           (Flotante (-0x1.2e449ba5e353fp+6)%float)
           "XYZ9 (Última conocida)"
    /\ @generar_mapa_para_placa PyStr.ascii true true s' "xyz9" = true.
Proof.
  apply (@mapa_tras_salida PyStr.ascii Iso.lib Ejemplo.mixto "xyz9"
           (Ejemplo.t0 + Ejemplo.minutos 185)
           [@actualizar_visitas PyStr.ascii [] Ejemplo.abc]
           (@actualizar_visitas PyStr.ascii [] Ejemplo.xyz) [] Ejemplo.t0 true true).
  - reflexivity.
  - simpl. intros [H | []]. discriminate H.
  - simpl. tauto.
  - reflexivity.
  - reflexivity.
Defined.

(** X17. The map of a plate that has just come in, and was not parked
    before, shows the coordinates of the new vehicle, marked as parked now;
    when the vehicle has none no map is drawn, whatever the history holds
    for the plate. *)
Theorem mapa_tras_entrada {Cad : PyStr.Lib}
    (s : Parqueadero) (veh : Vehiculo) (p : string) (folium guardado : bool) :
  0 < Dict.get (tipo veh) (cupos s) 0 ->
  ~ In (placa veh) (placas (vehiculos s)) ->
  PyStr.upper p = placa veh ->
  let s' := fst (registrar_entrada s veh) in
  ubicar_placa s' p
  = match lat veh, lon veh with
    | Some la, Some lo => Marcador la lo (etiqueta_actual (PyStr.upper p))
    | _, _ => VehiculoSinUbicacion
    end
  /\ generar_mapa_para_placa folium guardado s' p
     = match lat veh, lon veh with
       | Some _, Some _ => folium && guardado
       | _, _ => false
       end.
Proof.
  intros Hcupo Hno Hp. cbn zeta.
  assert (Hu : ubicar_placa (fst (registrar_entrada s veh)) p
               = match lat veh, lon veh with
                 | Some la, Some lo => Marcador la lo (etiqueta_actual (PyStr.upper p))
                 | _, _ => VehiculoSinUbicacion
                 end).
  { rewrite (entrada_con_cupo s veh Hcupo). unfold ubicar_placa.
    cbn [fst guardar_datos set_archivo set_cupos set_vehiculos vehiculos].
    rewrite (vehiculo_de_placa_primero (PyStr.upper p) (vehiculos s) _ []).
    - destruct (actualizar_visitas_campos (historial s) veh) as (_ & -> & -> & _).
      reflexivity.
    - now rewrite Hp.
    - rewrite actualizar_visitas_placa. now symmetry. }
  split; [exact Hu|].
  unfold generar_mapa_para_placa. rewrite Hu.
  destruct (lat veh), (lon veh); reflexivity.
Qed.

(** Witness of X17: [abc] has no coordinates, so its map is not drawn. *)
Lemma mapa_tras_entrada_witness :
  @ubicar_placa PyStr.ascii Ejemplo.uno "abc123" = VehiculoSinUbicacion
  /\ @generar_mapa_para_placa PyStr.ascii true true Ejemplo.uno "abc123" = false.
Proof.
  apply (@mapa_tras_entrada PyStr.ascii (inicial Ejemplo.cfg) Ejemplo.abc
           "abc123" true true).
  - reflexivity.
  - simpl. tauto.
  - reflexivity.
Defined.

(** ** Types without places, vehicles written and read, billed hours *)

Lemma get_ausente t (c : Dict.t Z) : ~ In t (Dict.keys c) -> Dict.get t c 0 = 0.
Proof.
  unfold Dict.get, Dict.keys. induction c as [|[k v] c IH]; cbn; [reflexivity|].
  intros H. destruct (String.eqb_spec k t) as [E | N].
  - exfalso. apply H. now left.
  - apply IH. intros Hin. apply H. now right.
Qed.

(** X18. A vehicle of a type the configuration does not name is never let
    in: in every reachable ledger its entry is refused with the rejection
    message and the ledger stays as it is. *)
Theorem tipo_sin_configurar_rechazado {Cad : PyStr.Lib} {L : DatetimeLib}
    (cfg : Dict.t Z) (s : Parqueadero) (veh : Vehiculo) :
  alcanzable cfg s ->
  ~ In (tipo veh) (Dict.keys cfg) ->
  registrar_entrada s veh = (s, (false, [MSG_SIN_CUPOS])).
Proof.
  intros Hs Hno.
  assert (Hsaldo : saldo (tipo veh) s = 0).
  { rewrite <- (get_ausente _ _ Hno).
    induction Hs as [|s s' _ IH Hpaso].
    - unfold saldo, ocupados. cbn. unfold Dict.copy. lia.
    - now rewrite (paso_saldo _ s s' Hpaso). }
  unfold saldo in Hsaldo.
  pose proof (ocupados_no_negativo (tipo veh) (vehiculos s)).
  unfold registrar_entrada.
  destruct (Z.leb_spec (Dict.get (tipo veh) (cupos s) 0) 0); [reflexivity | lia].
Qed.

(** Witness of X18: a truck where only cars and motorcycles have places. *)
Lemma tipo_sin_configurar_rechazado_witness :
  @registrar_entrada PyStr.ascii Ejemplo.uno
    (mkVehiculo "TRK1" "camion" "2024-03-01 10:00:00" "normal" 0 None None)
  = (Ejemplo.uno, (false, [MSG_SIN_CUPOS])).
Proof.
  apply (@tipo_sin_configurar_rechazado PyStr.ascii Iso.lib Ejemplo.cfg Ejemplo.uno).
  - apply alc_paso with (s := inicial Ejemplo.cfg); [| apply paso_entrada].
    apply alc_inicial.
  - simpl. intros [H | [H | []]]; discriminate H.
Defined.

(** X19. What [Vehiculo.__init__] builds survives [to_dict] followed by
    [from_dict] unchanged, at any later clock reading: the plate stays in
    upper case, type and tier in lower case, and the entry time is the
    string the vehicle had, not a new clock reading.  [strftime] never
    gives the empty string. *)
Theorem vehiculo_construido_ida_y_vuelta {Cad : PyStr.Lib} {L : DatetimeLib}
    (now now' : datetime) (p t : string) (he : option string) (c : string)
    (n : Z) (la lo : option numero) :
  (forall x, strftime x <> "") ->
  from_dict now' (to_dict (Vehiculo_init now p t he c n la lo))
  = Leido (Vehiculo_init now p t he c n la lo).
Proof.
  intros Hst. apply vehiculo_ida_y_vuelta.
  apply Vehiculo_init_normalizado. apply Hst.
Qed.

(** Witness of X19: [Vehiculo("abc123", "Carro", cliente="Normal")] built
    at 10:00:00 and read back ten minutes later. *)
Lemma vehiculo_construido_ida_y_vuelta_witness :
  @from_dict PyStr.ascii Iso.lib (Ejemplo.t0 + Ejemplo.minutos 10)
    (to_dict (@Vehiculo_init PyStr.ascii Iso.lib Ejemplo.t0 "abc123" "Carro"
                None "Normal" 0 None None))
  = Leido Ejemplo.abc.
Proof.
  apply (@vehiculo_construido_ida_y_vuelta PyStr.ascii Iso.lib Ejemplo.t0
           (Ejemplo.t0 + Ejemplo.minutos 10) "abc123" "Carro" None "Normal" 0
           None None).
  exact iso_strftime_no_vacia.
Defined.

(** X20. The hours an exit bills are whole hours that have gone by, never
    one that has only begun, except the first: for a stay of an hour or
    more, and of less than 2^34 seconds, the billed hours fit into the
    elapsed time and one hour more would not; for a shorter stay, and when
    the clock reads earlier than the entry time, exactly one hour is
    billed. *)
Theorem salida_horas_cumplidas {Cad : PyStr.Lib} {L : DatetimeLib}
    (s : Parqueadero) (p : string) (now : datetime)
    (pre : list Vehiculo) (v : Vehiculo) (post : list Vehiculo)
    (entrada : datetime) :
  vehiculos s = pre ++ v :: post ->
  ~ In (PyStr.upper p) (placas pre) ->
  placa v = PyStr.upper p ->
  strptime (hora_entrada v) = Some entrada ->
  exists s' registro,
    registrar_salida s p now = Ok (s', Some registro)
    /\ 1 <= reg_horas registro
    /\ (timedelta_hours 1 <= now - entrada ->
        now - entrada < 2 ^ 34 * US_POR_SEGUNDO ->
        timedelta_hours (reg_horas registro) <= now - entrada
        /\ now - entrada < timedelta_hours (reg_horas registro + 1))
    /\ (now - entrada < timedelta_hours 1 -> reg_horas registro = 1).
Proof.
  intros Hvs Hpre Hv Hent.
  destruct (registrar_salida_primera s p now pre v post entrada Hvs Hpre Hv Hent)
    as (registro & _ & Hsal & Hh & _).
  eexists _, registro. split; [exact Hsal|].
  rewrite Hh. set (e := now - entrada).
  split; [apply horas_facturadas_minimo|].
  unfold timedelta_hours.
  pose proof (Z.div_mod e (3600 * 1000000) ltac:(lia)) as Hdm.
  pose proof (Z.mod_pos_bound e (3600 * 1000000) ltac:(lia)) as Hmod.
  split.
  - intros Hge Hlt. rewrite (horas_exactas e Hlt).
    unfold US_POR_SEGUNDO in *. rewrite Z.div_div by lia.
    rewrite (Z.mul_comm 1000000 3600).
    assert (1 <= e / (3600 * 1000000)) by (apply Z.div_le_lower_bound; lia).
    rewrite Z.max_r by lia. lia.
  - intros Hlt. rewrite horas_exactas by (unfold US_POR_SEGUNDO in *; lia).
    unfold US_POR_SEGUNDO in *. rewrite Z.div_div by lia.
    rewrite (Z.mul_comm 1000000 3600).
    assert (e / (3600 * 1000000) < 1) by (apply Z.div_lt_upper_bound; lia).
    lia.
Qed.

(** Witness of X20: 185 minutes are three hours gone by. *)
Lemma salida_horas_cumplidas_witness :
  exists s' registro,
    @registrar_salida PyStr.ascii Iso.lib Ejemplo.mixto "xyz9"
      (Ejemplo.t0 + Ejemplo.minutos 185)
    = Ok (s', Some registro)
    /\ 1 <= reg_horas registro
    /\ timedelta_hours (reg_horas registro)
       <= Ejemplo.t0 + Ejemplo.minutos 185 - Ejemplo.t0
    /\ Ejemplo.t0 + Ejemplo.minutos 185 - Ejemplo.t0
       < timedelta_hours (reg_horas registro + 1).
Proof.
  destruct (@salida_horas_cumplidas PyStr.ascii Iso.lib Ejemplo.mixto "xyz9"
              (Ejemplo.t0 + Ejemplo.minutos 185)
              [@actualizar_visitas PyStr.ascii [] Ejemplo.abc]
              (@actualizar_visitas PyStr.ascii [] Ejemplo.xyz) [] Ejemplo.t0)
    as (s' & registro & Hsal & Hmin & Hcumplidas & _).
  - reflexivity.
  - simpl. intros [H | []]. discriminate H.
  - reflexivity.
  - reflexivity.
  - exists s', registro. split; [exact Hsal|]. split; [exact Hmin|].
    apply Hcumplidas; [vm_compute; discriminate | reflexivity].
Defined.
